(** * Sentinel2_Extractor: notebook patchers and precipitation context

    A shallow embedding of the Python sources

      - [precipitation_analysis.py]    (module [Precip])
      - [integrate_precipitation.py]   (module [Integrate])
      - [fix_embeddings.py]            (module [Embeddings])
      - [fix_notebook_comprehensive.py] (module [Notebook])

    Python floats are IEEE binary64 values, embedded as Rocq's primitive
    floats; Python ints are [Z]; dictionaries with arbitrary string keys are
    [gmap string _]; dictionaries with a fixed set of literal keys are
    records.  Calls to the Earth Engine service, to numpy/pandas numerics
    and to CPython's number formatting are parameters of the sections that
    use them. *)

From Stdlib Require Import ZArith String Ascii List Bool Lia Floats DecimalString.
From stdpp Require Import gmap strings list.

Set Warnings "-inexact-float,-register-all".

Local Open Scope string_scope.
Local Open Scope list_scope.
Local Open Scope Z_scope.

(* ===================================================================== *)
(** * Python values *)
(* ===================================================================== *)

Module Py.

(** The builtin exceptions the sources can meet. *)
Inductive exn :=
| TypeError
| ValueError
| OverflowError
| KeyError (key : string)
| FileNotFoundError (path : string)
| FileExistsError (path : string).

(** The outcome of a Python call: a value, or a raised exception. *)
Inductive res (A : Type) :=
| Ret (a : A)
| Raise (e : exn).
Arguments Ret {A} a.
Arguments Raise {A} e.

#[global] Instance res_ret : MRet res := fun A a => Ret a.
#[global] Instance res_bind : MBind res := fun A B k m =>
  match m with
  | Ret a => k a
  | Raise e => Raise e
  end.

(** [try: body except (TypeError, ValueError): handler] *)
Definition except_type_or_value {A} (body : res A) (handler : A) : res A :=
  match body with
  | Raise TypeError | Raise ValueError => Ret handler
  | other => other
  end.

(** ** Numbers *)

(** A Python number: [int] or [float]. *)
Inductive pynum :=
| PyInt (z : Z)
| PyFloat (f : float).

(** [float(z)] for an int, rounded to nearest even.  CPython raises
    [OverflowError] where this gives an infinity; [float_of_int] makes
    that explicit. *)
Definition float_of_Z (z : Z) : float :=
  SF2Prim (binary_normalize prec emax z 0 false).

Definition float_of_int (z : Z) : res float :=
  let f := float_of_Z z in
  if PrimFloat.is_infinity f then Raise OverflowError else Ret f.

(** The float operand of mixed arithmetic.  The ints that meet floats in
    these sources are small literals, far from the overflow of
    [float_of_int]. *)
Definition to_float (x : pynum) : float :=
  match x with
  | PyInt z => float_of_Z z
  | PyFloat f => f
  end.

(** Exact comparison of a float with an int, as CPython's
    [float_richcompare] does; [None] for a NaN. *)
Definition float_compare_Z (f : float) (z : Z) : option comparison :=
  match Prim2SF f with
  | S754_nan => None
  | S754_infinity s => Some (if s then Lt else Gt)
  | S754_zero _ => Some (0 ?= z)
  | S754_finite s m e =>
      let sm := if s then Z.neg m else Z.pos m in
      Some (if 0 <=? e then (sm * 2 ^ e ?= z) else (sm ?= z * 2 ^ (- e)))
  end.

Definition py_compare (a b : pynum) : option comparison :=
  match a, b with
  | PyInt x, PyInt y => Some (x ?= y)
  | PyFloat x, PyFloat y =>
      match PrimFloat.compare x y with
      | FEq => Some Eq
      | FLt => Some Lt
      | FGt => Some Gt
      | FNotComparable => None
      end
  | PyFloat x, PyInt y => float_compare_Z x y
  | PyInt x, PyFloat y => option_map CompOpp (float_compare_Z y x)
  end.

(** [a <= b], [a < b], [a > b], [a >= b]: false when a NaN is involved. *)
Definition py_le (a b : pynum) : bool :=
  match py_compare a b with Some Lt | Some Eq => true | _ => false end.
Definition py_lt (a b : pynum) : bool :=
  match py_compare a b with Some Lt => true | _ => false end.
Definition py_gt (a b : pynum) : bool := py_lt b a.
Definition py_ge (a b : pynum) : bool := py_le b a.

(** [a + b], [a - b], [a * b]: int arithmetic on two ints, float
    arithmetic otherwise. *)
Definition py_add (a b : pynum) : pynum :=
  match a, b with
  | PyInt x, PyInt y => PyInt (x + y)
  | _, _ => PyFloat (to_float a + to_float b)%float
  end.
Definition py_sub (a b : pynum) : pynum :=
  match a, b with
  | PyInt x, PyInt y => PyInt (x - y)
  | _, _ => PyFloat (to_float a - to_float b)%float
  end.
Definition py_mul (a b : pynum) : pynum :=
  match a, b with
  | PyInt x, PyInt y => PyInt (x * y)
  | _, _ => PyFloat (to_float a * to_float b)%float
  end.

(** [a / b] where at least one operand is a float (the only divisions the
    sources perform; the divisor has been tested positive). *)
Definition py_truediv (a b : pynum) : float := (to_float a / to_float b)%float.

(** [sum(xs)]: starts from the int [0]. *)
Definition py_sum (xs : list pynum) : pynum := foldl py_add (PyInt 0) xs.

(** A finite float: neither a NaN nor an infinity. *)
Definition is_finite (f : float) : bool :=
  negb (PrimFloat.is_nan f) && negb (PrimFloat.is_infinity f).

(** [int(f)] for a float: truncation toward zero. *)
Definition int_of_float (f : float) : res Z :=
  match Prim2SF f with
  | S754_nan => Raise ValueError
  | S754_infinity _ => Raise OverflowError
  | S754_zero _ => Ret 0
  | S754_finite s m e =>
      let mag := if 0 <=? e then Z.pos m * 2 ^ e else Z.shiftr (Z.pos m) (- e) in
      Ret (if s then - mag else mag)
  end.

(** [range(start, stop)] *)
Definition py_range (start stop : Z) : list Z :=
  (fun k => start + Z.of_nat k) <$> seq 0 (Z.to_nat (stop - start)).

(** ** Strings *)

Definition nl : string := String "010"%char EmptyString.
Definition dq : string := String "034"%char EmptyString.

(** [''.join(parts)] *)
Definition str_join (parts : list string) : string :=
  fold_right String.append EmptyString parts.

(** [sep.join(parts)] *)
Fixpoint str_join_with (sep : string) (parts : list string) : string :=
  match parts with
  | [] => EmptyString
  | [x] => x
  | x :: rest => x +:+ sep +:+ str_join_with sep rest
  end.

(** [s.split(sep)] for a one-character separator. *)
Fixpoint str_split (sep : ascii) (s : string) : list string :=
  match s with
  | EmptyString => [EmptyString]
  | String c rest =>
      if Ascii.eqb c sep then EmptyString :: str_split sep rest
      else match str_split sep rest with
           | [] => [String c EmptyString]
           | h :: t => String c h :: t
           end
  end.

(** [needle in hay] *)
Fixpoint str_contains (needle hay : string) : bool :=
  String.prefix needle hay ||
  match hay with
  | EmptyString => false
  | String _ rest => str_contains needle rest
  end.

(** [s.endswith(suffix)] *)
Definition str_endswith (s suffix : string) : bool :=
  let n := String.length s in
  let k := String.length suffix in
  (k <=? n)%nat && String.eqb (String.substring (n - k) k s) suffix.

(** [str(z)] and [f'{i:02d}'] for an int. *)
Definition str_of_int (z : Z) : string := NilZero.string_of_int (Z.to_int z).
Definition format_02d (i : Z) : string :=
  if (0 <=? i) && (i <? 10) then "0" +:+ str_of_int i else str_of_int i.

(** ** Values delivered by JSON and held in table cells *)

Inductive pyval :=
| VNone
| VBool (b : bool)
| VInt (z : Z)
| VFloat (f : float)
| VStr (s : string)
| VList (items : list pyval).

(** The parts of the builtins that are not spelled out here: parsing a
    number out of a string, decimal rounding, and the text of a float or
    a list. *)
Class Builtins := {
  float_of_str : string -> option float;
  int_of_str : string -> option Z;
  round1 : float -> float;
  repr_other : pyval -> string
}.

(** [float(v)] *)
Definition py_float `{Builtins} (v : pyval) : res float :=
  match v with
  | VNone => Raise TypeError
  | VBool b => Ret (if b then 1 else 0)%float
  | VInt z => float_of_int z
  | VFloat f => Ret f
  | VStr s => match float_of_str s with Some f => Ret f | None => Raise ValueError end
  | VList _ => Raise TypeError
  end.

(** [int(v)] *)
Definition py_int `{Builtins} (v : pyval) : res Z :=
  match v with
  | VNone => Raise TypeError
  | VBool b => Ret (if b then 1 else 0)
  | VInt z => Ret z
  | VFloat f => int_of_float f
  | VStr s => match int_of_str s with Some z => Ret z | None => Raise ValueError end
  | VList _ => Raise TypeError
  end.

(** [str(v)] *)
Definition py_str `{Builtins} (v : pyval) : string :=
  match v with
  | VNone => "None"
  | VBool b => if b then "True" else "False"
  | VInt z => str_of_int z
  | VStr s => s
  | other => repr_other other
  end.

(** [round(x, 1)]: an int is returned as it is. *)
Definition py_round1 `{Builtins} (x : pynum) : pynum :=
  match x with
  | PyInt z => PyInt z
  | PyFloat f => PyFloat (round1 f)
  end.

(** The number in a value, if it is one. *)
Definition as_num (v : pyval) : res pynum :=
  match v with
  | VBool b => Ret (PyInt (if b then 1 else 0))
  | VInt z => Ret (PyInt z)
  | VFloat f => Ret (PyFloat f)
  | _ => Raise TypeError
  end.

Definition of_num (x : pynum) : pyval :=
  match x with
  | PyInt z => VInt z
  | PyFloat f => VFloat f
  end.

(** ** Format specifications

    [format(x, spec)] for a float, after CPython's
    [parse_internal_render_format_spec]:
    [[[fill]align][sign][z][#][0][width][grouping][.precision][type]]. *)

Record format_spec := {
  fs_fill : option ascii;
  fs_align : option ascii;
  fs_sign : option ascii;
  fs_no_neg_0 : bool;
  fs_alternate : bool;
  fs_width : option nat;
  fs_thousands : option ascii;
  fs_precision : option nat;
  fs_type : option ascii
}.

Definition is_alignment_token (c : ascii) : bool :=
  existsb (Ascii.eqb c) ["<"; ">"; "="; "^"]%char.
Definition is_sign_element (c : ascii) : bool :=
  existsb (Ascii.eqb c) [" "; "+"; "-"]%char.
Definition is_digit (c : ascii) : bool :=
  let n := nat_of_ascii c in (48 <=? n)%nat && (n <=? 57)%nat.

(** [get_integer]: the leading decimal digits, and the rest. *)
Fixpoint get_integer (acc : option nat) (s : string) : option nat * string :=
  match s with
  | String c rest =>
      if is_digit c
      then get_integer (Some (10 * default 0%nat acc + (nat_of_ascii c - 48))%nat) rest
      else (acc, s)
  | EmptyString => (acc, s)
  end.

Definition take_if (p : ascii -> bool) (s : string) : option ascii * string :=
  match s with
  | String c rest => if p c then (Some c, rest) else (None, s)
  | EmptyString => (None, s)
  end.

Definition parse_format_spec (spec : string) : option format_spec :=
  let '(fill, align, s) :=
    match spec with
    | String c0 (String c1 rest) =>
        if is_alignment_token c1 then (Some c0, Some c1, rest)
        else if is_alignment_token c0 then (None, Some c0, String c1 rest)
        else (None, None, spec)
    | String c0 rest =>
        if is_alignment_token c0 then (None, Some c0, rest) else (None, None, spec)
    | EmptyString => (None, None, spec)
    end in
  let '(sign, s) := take_if is_sign_element s in
  let '(z, s) := take_if (Ascii.eqb "z") s in
  let '(alt, s) := take_if (Ascii.eqb "#") s in
  let '(zero, s) :=
    match fill with
    | Some _ => (None, s)
    | None => take_if (Ascii.eqb "0") s
    end in
  let fill := match zero with Some c => Some c | None => fill end in
  let align :=
    match zero, align with
    | Some _, None => Some "="%char
    | _, _ => align
    end in
  let '(width, s) := get_integer None s in
  let '(comma, s) := take_if (Ascii.eqb ",") s in
  let '(underscore, s) := take_if (Ascii.eqb "_") s in
  match comma, underscore with
  | Some _, Some _ => None
  | _, _ =>
    let thousands := match comma with Some c => Some c | None => underscore end in
    let trailing_comma :=
      match underscore, s with
      | Some _, String c _ => Ascii.eqb c ","
      | _, _ => false
      end in
    if trailing_comma then None else
    let after_precision :=
      match s with
      | String "." rest =>
          match get_integer None rest with
          | (Some p, rest') => Some (Some p, rest')
          | (None, _) => None
          end
      | _ => Some (None, s)
      end in
    match after_precision with
    | None => None
    | Some (precision, s) =>
        let type_ok (t : option ascii) :=
          match thousands, t with
          | None, _ => true
          | Some _, None => true
          | Some sep, Some c =>
              existsb (Ascii.eqb c) ["d"; "e"; "f"; "g"; "E"; "G"; "%"; "F"]%char
              || (Ascii.eqb sep "_" && existsb (Ascii.eqb c) ["b"; "o"; "x"; "X"]%char)
          end in
        let finish (t : option ascii) :=
          if type_ok t
          then Some {| fs_fill := fill; fs_align := align; fs_sign := sign;
                       fs_no_neg_0 := bool_decide (is_Some z);
                       fs_alternate := bool_decide (is_Some alt);
                       fs_width := width; fs_thousands := thousands;
                       fs_precision := precision; fs_type := t |}
          else None in
        match s with
        | EmptyString => finish None
        | String c EmptyString => finish (Some c)
        | _ => None
        end
    end
  end.

(** The presentation types a float accepts. *)
Definition float_type_ok (t : option ascii) : bool :=
  match t with
  | None => true
  | Some c => existsb (Ascii.eqb c) ["e"; "E"; "f"; "F"; "g"; "G"; "n"; "%"]%char
  end.

(** The digits of a float under a valid specification come from the C
    library. *)
Class Formatting := {
  render_float : format_spec -> float -> string
}.

(** [format(x, spec)], i.e. [f'{x:spec}'], for a float [x]. *)
Definition format_float `{Formatting} (spec : string) (x : float) : res string :=
  match parse_format_spec spec with
  | Some fs => if float_type_ok (fs_type fs) then Ret (render_float fs x) else Raise ValueError
  | None => Raise ValueError
  end.

End Py.

Import Py.

(* ===================================================================== *)
(** * The Earth Engine service and numpy *)
(* ===================================================================== *)

(** What the remote platform answers.  The sources build a request and
    call [getInfo()]; the answer is a function of the request's
    arguments.  Requests are taken to succeed. *)
Class EarthEngine := {
  ee_geometry : Type;
  (** number of ERA5-Land monthly images within the month of a year *)
  era5_collection_size : Z -> Z -> Z;
  (** region mean of [total_precipitation_sum] x 1000 over a geometry
      (year, month); [None] for a null answer *)
  era5_mean_precip : ee_geometry -> Z -> Z -> option float;
  (** the dictionary answered by the mean+count reduction of the 64
      embedding bands (geometry, year, scale) *)
  aef_reduce_region : ee_geometry -> Z -> pynum -> gmap string pyval;
  (** number of sampled crop pixels (centre, crop code, year, radius in
      km, requested pixels) *)
  aef_sample_count : ee_geometry -> Z -> Z -> pynum -> Z -> Z;
  (** the ['mean'] entry of the column reduction over the same sample *)
  aef_sample_mean : ee_geometry -> Z -> Z -> pynum -> Z -> list pyval
}.

Class NumPy := {
  np_mean : list float -> float;
  np_median : list float -> float;
  np_std : list float -> float;
  np_percentile : list float -> Z -> float
}.

(* ===================================================================== *)
(** * precipitation_analysis.py *)
(* ===================================================================== *)

Module Precip.

Section Analyzer.
Context `{EE : EarthEngine} `{NP : NumPy} `{BI : Builtins}.

(** The attributes set by [__init__]; [baseline_years] is a [range]. *)
Record PrecipitationAnalyzer := {
  geometry : ee_geometry;
  baseline_years : Z * Z
}.

(** [calendar.month_name[month]] for the months 1 to 12. *)
Definition calendar_month_name (month : Z) : string :=
  nth (Z.to_nat month)
    [EmptyString; "January"; "February"; "March"; "April"; "May"; "June"; "July";
     "August"; "September"; "October"; "November"; "December"] EmptyString.

(** One entry of the dictionary returned by
    [extract_monthly_precipitation]. *)
Record month_record := {
  precipitation_mm : option float;
  rec_month_name : string;
  rec_year : Z
}.

(** [PrecipitationAnalyzer.extract_monthly_precipitation].  The warning
    printed for a month without image is left out. *)
Definition extract_monthly_precipitation
    (self : PrecipitationAnalyzer) (year : Z) (months : option (list Z))
    : gmap Z month_record :=
  let months := default (py_range 4 11) months in
  foldl (fun monthly_data month =>
    if era5_collection_size year month >? 0
    then <[month := {| precipitation_mm := era5_mean_precip (geometry self) year month;
                       rec_month_name := calendar_month_name month;
                       rec_year := year |}]> monthly_data
    else <[month := {| precipitation_mm := None;
                       rec_month_name := calendar_month_name month;
                       rec_year := year |}]> monthly_data)
    ∅ months.

(** One entry of the [baseline_stats] dictionary: the statistics of one
    growing-season month.  The values are numpy floats, or the int literal
    [0] when the baseline has no sample for the month. *)
Record month_stats := {
  mean : pynum;
  median : pynum;
  stdev : pynum;
  p10 : pynum;
  p25 : pynum;
  p75 : pynum;
  p90 : pynum;
  month_name : string
}.

(** [PrecipitationAnalyzer.calculate_baseline_statistics].  The order in
    which [items()] walks one year's months does not matter: each month
    appends to its own list. *)
Definition calculate_baseline_statistics (self : PrecipitationAnalyzer)
    : gmap Z month_stats :=
  let baseline_data : gmap Z (list float) :=
    list_to_map ((fun month => (month, [])) <$> py_range 4 11) in
  let baseline_data :=
    foldl (fun baseline_data year =>
      let year_data := extract_monthly_precipitation self year None in
      foldl (fun baseline_data '(month, values) =>
        match precipitation_mm values with
        | Some v => alter (fun l => l ++ [v]) month baseline_data
        | None => baseline_data
        end) baseline_data (map_to_list year_data))
      baseline_data (py_range (fst (baseline_years self)) (snd (baseline_years self))) in
  map_imap (fun month precip_values =>
    Some (if (0 <? length precip_values)%nat
          then {| mean := PyFloat (np_mean precip_values);
                  median := PyFloat (np_median precip_values);
                  stdev := PyFloat (np_std precip_values);
                  p10 := PyFloat (np_percentile precip_values 10);
                  p25 := PyFloat (np_percentile precip_values 25);
                  p75 := PyFloat (np_percentile precip_values 75);
                  p90 := PyFloat (np_percentile precip_values 90);
                  month_name := calendar_month_name month |}
          else {| mean := PyInt 0; median := PyInt 0; stdev := PyInt 0;
                  p10 := PyInt 0; p25 := PyInt 0; p75 := PyInt 0; p90 := PyInt 0;
                  month_name := calendar_month_name month |}))
    baseline_data.

(** [PrecipitationAnalyzer.classify_precipitation_anomaly] *)
Definition classify_precipitation_anomaly
    (current_precip : pynum) (baseline_stats : month_stats) : string :=
  if py_le current_precip (p10 baseline_stats) then "Extremely Dry"
  else if py_le current_precip (p25 baseline_stats) then "Dry"
  else if py_le current_precip (p75 baseline_stats) then "Normal"
  else if py_le current_precip (p90 baseline_stats) then "Wet"
  else "Extremely Wet".

(** [PrecipitationAnalyzer._classify_seasonal_anomaly] *)
Definition _classify_seasonal_anomaly (anomaly_percent : pynum) : string :=
  if py_le anomaly_percent (PyInt (-30)) then "Extremely Dry Season"
  else if py_le anomaly_percent (PyInt (-15)) then "Dry Season"
  else if py_le anomaly_percent (PyInt 15) then "Normal Season"
  else if py_le anomaly_percent (PyInt 30) then "Wet Season"
  else "Extremely Wet Season".

(** One row of the table returned by [analyze_growing_season]; the fields
    are the columns 'Month', 'Precipitation (mm)', 'Normal (mm)',
    'Anomaly (mm)', 'Anomaly (%)' and 'Classification'. *)
Record row := {
  Month : string;
  Precipitation_mm : pynum;
  Normal_mm : pynum;
  Anomaly_mm : pynum;
  Anomaly_pct : pynum;
  Classification : string
}.

(** The row appended for a month with missing data. *)
Definition no_data_row (baseline : month_stats) : row :=
  {| Month := month_name baseline;
     Precipitation_mm := PyInt 0;
     Normal_mm := if py_gt (mean baseline) (PyInt 0)
                  then py_round1 (mean baseline) else PyInt 0;
     Anomaly_mm := PyInt 0;
     Anomaly_pct := PyInt 0;
     Classification := "No Data" |}.

(** The row appended for one month of [analyze_growing_season]:
    [if current_precip is not None and baseline['mean'] > 0: ... else: ...] *)
Definition month_row (current_precip : option float) (baseline : month_stats) : row :=
  match current_precip with
  | Some current_precip =>
      if py_gt (mean baseline) (PyInt 0) then
        let anomaly := (current_precip - to_float (mean baseline))%float in
        let anomaly_percent := (anomaly / to_float (mean baseline) * 100)%float in
        let classification :=
          classify_precipitation_anomaly (PyFloat current_precip) baseline in
        {| Month := month_name baseline;
           Precipitation_mm := PyFloat (round1 current_precip);
           Normal_mm := py_round1 (mean baseline);
           Anomaly_mm := PyFloat (round1 anomaly);
           Anomaly_pct := PyFloat (round1 anomaly_percent);
           Classification := classification |}
      else no_data_row baseline
  | None => no_data_row baseline
  end.

(** The "SEASONAL TOTAL" row that [analyze_growing_season] appends to
    the monthly rows. *)
Definition seasonal_summary (results : list row) : row :=
  let with_data := filter (fun r => Classification r ≠ "No Data") results in
  let season_precip := py_sum (Precipitation_mm <$> with_data) in
  let season_normal := py_sum (Normal_mm <$> with_data) in
  let '(season_anomaly, season_anomaly_percent) :=
    if py_gt season_normal (PyInt 0)
    then let season_anomaly := py_sub season_precip season_normal in
         (season_anomaly,
          PyFloat (py_truediv season_anomaly season_normal * 100)%float)
    else (PyInt 0, PyInt 0) in
  {| Month := "SEASONAL TOTAL";
     Precipitation_mm := py_round1 season_precip;
     Normal_mm := py_round1 season_normal;
     Anomaly_mm := py_round1 season_anomaly;
     Anomaly_pct := py_round1 season_anomaly_percent;
     Classification := _classify_seasonal_anomaly season_anomaly_percent |}.

(** [PrecipitationAnalyzer.analyze_growing_season]; the rows of the
    returned table, in order. *)
Definition analyze_growing_season
    (self : PrecipitationAnalyzer) (year : Z)
    (baseline_stats : option (gmap Z month_stats)) : list row :=
  let baseline_stats :=
    match baseline_stats with
    | None => calculate_baseline_statistics self
    | Some given => given
    end in
  let current_data := extract_monthly_precipitation self year None in
  let results :=
    foldl (fun results month =>
      match current_data !! month, baseline_stats !! month with
      | Some current, Some baseline =>
          results ++ [month_row (precipitation_mm current) baseline]
      | _, _ => results
      end) [] (py_range 4 11) in
  results ++ [seasonal_summary results].

End Analyzer.

End Precip.

(* ===================================================================== *)
(** * integrate_precipitation.py *)
(* ===================================================================== *)

(** The column reductions of pandas that the report prints. *)
Class Pandas := {
  series_min : list pyval -> pyval;
  series_max : list pyval -> pyval;
  series_mean : list pyval -> float
}.

Module Integrate.

(** A table: its number of rows, its index and its columns in order,
    each column holding one value per row.  [index df p] is the label of
    the row at position [p]; two rows may carry the same label.  The
    labels are integers, as those of a default index and of what
    filtering or concatenating such tables leaves. *)
Record DataFrame := {
  nrows : nat;
  index : nat -> Z;
  columns : list (string * list pyval)
}.

(** The labels of a default index: [0], [1], [2], ... *)
Definition range_index (p : nat) : Z := Z.of_nat p.

(** [name in df.columns] *)
Definition has_column (name : string) (df : DataFrame) : bool :=
  existsb (fun c => String.eqb (fst c) name) (columns df).

(** [df[name]] *)
Definition column (name : string) (df : DataFrame) : res (list pyval) :=
  match find (fun c => String.eqb (fst c) name) (columns df) with
  | Some c => Ret (snd c)
  | None => Raise (KeyError name)
  end.

(** [df[name] = v] for a scalar [v]: the column is overwritten where it
    is, or added last. *)
Definition assign_scalar (name : string) (v : pyval) (df : DataFrame) : DataFrame :=
  let vs := replicate (nrows df) v in
  {| nrows := nrows df;
     index := index df;
     columns :=
       if has_column name df
       then (fun c => if String.eqb (fst c) name then (name, vs) else c) <$> columns df
       else columns df ++ [(name, vs)] |}.

(** The values of a column after [v] is written at the label [idx]:
    every row that carries the label takes the value. *)
Definition write_label (labels : nat -> Z) (idx : Z) (v : pyval) (vs : list pyval)
    : list pyval :=
  imap (fun p x => if labels p =? idx then v else x) vs.

(** [df.at[idx, name] = v] for a label [idx] of the index and a column
    the table has: the access is by label, and where the label is
    repeated every row that carries it is written.  (A new label or a
    new column would enlarge the table; [add_precipitation_context_to_results],
    the only caller, writes at the labels [iterrows] gives it and into
    columns it has just assigned.) *)
Definition at_set (idx : Z) (name : string) (v : pyval) (df : DataFrame) : DataFrame :=
  {| nrows := nrows df;
     index := index df;
     columns :=
       (fun c => if String.eqb (fst c) name
                 then (fst c, write_label (index df) idx v (snd c)) else c)
         <$> columns df |}.

(** [row[name]] for the row at position [pos]. *)
Definition cell (pos : nat) (name : string) (df : DataFrame) : res pyval :=
  vs ← column name df;
  match vs !! pos with
  | Some v => Ret v
  | None => Raise (KeyError name)
  end.

(** [df.iterrows()]: the label and the position of each row, in order. *)
Definition iterrows (df : DataFrame) : list (Z * nat) :=
  (fun pos => (index df pos, pos)) <$> seq 0 (nrows df).

(** One record of the ['yearly_analysis'] mapping of the context file. *)
Record year_record := {
  anomaly_percent : pynum;
  classification : string;
  vegetation_impact : string
}.

(** What a path can hold. *)
Inductive file :=
| PrecipContextFile (yearly_analysis : gmap string year_record)
| FigureFile
| CsvFile (table : DataFrame)
| TextFile (text : string).

(** The file system and the terminal. *)
Record world := {
  files : gmap string file;
  dirs : gset string;
  stdout : list string
}.

Definition print (line : string) (w : world) : world :=
  {| files := files w; dirs := dirs w; stdout := stdout w ++ [line] |}.

Definition write_file (path : string) (f : file) (w : world) : world :=
  {| files := <[path := f]> (files w); dirs := dirs w; stdout := stdout w |}.

(** What the operating system answers to [os.makedirs(path, exist_ok=True)]
    in a world: the directories there are after the call - those there
    were, [path] and the missing directories above it -, or the exception
    raised: FileNotFoundError for an empty path, FileExistsError when a
    regular file holds the path, and whatever else the system refuses. *)
Class OperatingSystem := {
  os_makedirs : string -> world -> res (gset string)
}.

(** [os.makedirs(path, exist_ok=True)]: directories are made, or the call
    raises; no regular file is touched and nothing is printed. *)
Definition makedirs `{OperatingSystem} (path : string) (w : world) : res world :=
  dirs ← os_makedirs path w;
  Ret {| files := files w; dirs := dirs; stdout := stdout w |}.

(** [os.path.exists(path)] *)
Definition path_exists (path : string) (w : world) : bool :=
  bool_decide (is_Some (files w !! path)) || bool_decide (path ∈ dirs w).

Section Integrator.
Context `{PD : Pandas} `{BI : Builtins} `{FM : Formatting} `{OS : OperatingSystem}.

(** The body of the [iterrows()] loop of
    [add_precipitation_context_to_results] for the row with label [idx]
    at position [pos]; [rows] is the table the iteration reads its rows
    from. *)
Definition add_context_row
    (yearly_analysis : gmap string year_record) (rows : DataFrame)
    (acc : res DataFrame) (row : Z * nat) : res DataFrame :=
  let '(idx, pos) := row in
  results_df ← acc;
  year ← cell pos "year" rows;
  match yearly_analysis !! py_str year with
  | Some year_data =>
      let results_df :=
        at_set idx "precip_anomaly_pct" (of_num (anomaly_percent year_data)) results_df in
      let results_df :=
        at_set idx "precip_classification" (VStr (classification year_data)) results_df in
      let results_df :=
        at_set idx "precip_impact" (VStr (vegetation_impact year_data)) results_df in
      let adjustment_factor :=
        if py_lt (anomaly_percent year_data) (PyInt (-15)) then 0.05%float
        else if py_gt (anomaly_percent year_data) (PyInt 15) then (-0.03)%float
        else 0%float in
      if has_column "difference_in_differences" results_df then
        did ← cell pos "difference_in_differences" rows;
        did ← as_num did;
        Ret (at_set idx "adjusted_performance"
               (of_num (py_add did (PyFloat adjustment_factor))) results_df)
      else Ret results_df
  | None => Ret results_df
  end.

(** [add_precipitation_context_to_results] *)
Definition add_precipitation_context_to_results
    (results_df : DataFrame) (precipitation_file : string) (w : world)
    : res DataFrame :=
  yearly_analysis ←
    match files w !! precipitation_file with
    | Some (PrecipContextFile yearly_analysis) => Ret yearly_analysis
    | Some _ => Raise ValueError
    | None => Raise (FileNotFoundError precipitation_file)
    end;
  let results_df := assign_scalar "precip_anomaly_pct" (VFloat 0) results_df in
  let results_df := assign_scalar "precip_classification" (VStr EmptyString) results_df in
  let results_df := assign_scalar "precip_impact" (VStr EmptyString) results_df in
  let results_df := assign_scalar "adjusted_performance" (VFloat 0) results_df in
  foldl (add_context_row yearly_analysis results_df) (Ret results_df)
        (iterrows results_df).

(** [create_integrated_visualization]: the drawing is outside the model;
    what remains is the figure saved at [save_path] and the printed
    line. *)
Definition create_integrated_visualization
    (results_df : DataFrame) (save_path : string) (w : world) : world :=
  print ("✓ Integrated visualization saved to " +:+ save_path)
        (write_file save_path FigureFile w).

(** [series < bound] and the like: a mask over the rows. *)
Fixpoint series_test (test : pynum -> bool) (vs : list pyval) : res (list bool) :=
  match vs with
  | [] => Ret []
  | v :: rest =>
      x ← as_num v;
      mask ← series_test test rest;
      Ret (test x :: mask)
  end.

Fixpoint keep {A} (mask : list bool) (vs : list A) : list A :=
  match mask, vs with
  | b :: mask, v :: vs => if b then v :: keep mask vs else keep mask vs
  | _, _ => []
  end.

(** [df[mask]]: the rows where the mask is true, with their labels. *)
Definition select_rows (mask : list bool) (df : DataFrame) : DataFrame :=
  {| nrows := length (filter (fun b => b = true) mask);
     index := fun q => index df (nth q (keep mask (seq 0 (length mask))) 0%nat);
     columns := (fun c => (fst c, keep mask (snd c))) <$> columns df |}.

(** [a - b] for two columns *)
Fixpoint series_sub (a b : list pyval) : res (list pyval) :=
  match a, b with
  | x :: a, y :: b =>
      x ← as_num x;
      y ← as_num y;
      rest ← series_sub a b;
      Ret (of_num (py_sub x y) :: rest)
  | _, _ => Ret []
  end.

(** [generate_enhanced_summary] *)
Definition generate_enhanced_summary (results_df : DataFrame) : res string :=
  anomaly ← column "precip_anomaly_pct" results_df;
  dry_mask ← series_test (fun a => py_lt a (PyInt (-15))) anomaly;
  let dry_years := select_rows dry_mask results_df in
  wet_mask ← series_test (fun a => py_gt a (PyInt 15)) anomaly;
  let wet_years := select_rows wet_mask results_df in
  normal_mask ←
    series_test (fun a => py_ge a (PyInt (-15)) && py_le a (PyInt 15)) anomaly;
  let normal_years := select_rows normal_mask results_df in
  years ← column "year" results_df;
  dry_year_values ← column "year" dry_years;
  normal_year_values ← column "year" normal_years;
  wet_year_values ← column "year" wet_years;
  mean_anomaly ← format_float ".1f" (series_mean anomaly);
  let summary :=
    "
    ENHANCED RECLAMATION ASSESSMENT WITH PRECIPITATION CONTEXT
    ==========================================================
    
    Analysis Period: " +:+
    py_str (series_min years) +:+
    " - " +:+
    py_str (series_max years) +:+
    "
    Total Years Analyzed: " +:+
    str_of_int (Z.of_nat (nrows results_df)) +:+
    "
    
    PRECIPITATION CONTEXT:
    ----------------------
    Dry Years (" +:+
    str_of_int (Z.of_nat (nrows dry_years)) +:+
    "): " +:+
    str_join_with ", " (py_str <$> dry_year_values) +:+
    "
    Normal Years (" +:+
    str_of_int (Z.of_nat (nrows normal_years)) +:+
    "): " +:+
    str_join_with ", " (py_str <$> normal_year_values) +:+
    "
    Wet Years (" +:+
    str_of_int (Z.of_nat (nrows wet_years)) +:+
    "): " +:+
    str_join_with ", " (py_str <$> wet_year_values) +:+
    "
    
    Average Precipitation Anomaly: " +:+
    mean_anomaly +:+
    "%
    " in
  summary ←
    (if has_column "difference_in_differences" results_df then
       did ← column "difference_in_differences" results_df;
       raw_mean ← format_float ".4f" (series_mean did);
       dry_did ← column "difference_in_differences" dry_years;
       dry_mean ←
         format_float ".4f if len(dry_years) > 0 else 'N/A'" (series_mean dry_did);
       normal_did ← column "difference_in_differences" normal_years;
       normal_mean ←
         format_float ".4f if len(normal_years) > 0 else 'N/A'" (series_mean normal_did);
       wet_did ← column "difference_in_differences" wet_years;
       wet_mean ←
         format_float ".4f if len(wet_years) > 0 else 'N/A'" (series_mean wet_did);
       adjusted ← column "adjusted_performance" results_df;
       adjusted_mean ← format_float ".4f" (series_mean adjusted);
       difference ← series_sub adjusted did;
       improvement ← format_float ".4f" (series_mean difference);
       let summary := summary +:+
         "
    PERFORMANCE METRICS:
    --------------------
    Raw Performance (DiD):
      Mean: " +:+
    raw_mean +:+
    "
      Dry Years Mean: " +:+
    dry_mean +:+
    "
      Normal Years Mean: " +:+
    normal_mean +:+
    "
      Wet Years Mean: " +:+
    wet_mean +:+
    "
    
    Adjusted Performance:
      Mean: " +:+
    adjusted_mean +:+
    "
      Improvement from adjustment: " +:+
    improvement +:+
    "
    
    INTERPRETATION:
    ---------------
    " in
       let adj_mean := series_mean adjusted in
       summary ←
         (if (-0.05 <=? adj_mean)%float then
            Ret (summary +:+
              "
    ✓ ADJUSTED ASSESSMENT: When accounting for precipitation variability, 
      the lease site is performing equivalently to the background field.
      This suggests successful reclamation with equivalent land capability.")
          else
            underperformance ← format_float ".3f" (abs adj_mean);
            Ret (summary +:+
              "
    ⚠ ADJUSTED ASSESSMENT: Even after accounting for precipitation effects,
      the lease site is underperforming by " +:+
    underperformance +:+
    " on average.
      This suggests that factors beyond weather are limiting recovery."));
       if (0 <? nrows dry_years)%nat then
         dry_adjusted ← column "adjusted_performance" dry_years;
         let dry_adjusted_mean := series_mean dry_adjusted in
         let dry_did_mean := series_mean dry_did in
         Ret (summary +:+
           "
    
    DRY YEAR INSIGHTS:
    During dry years, the lease showed " +:+
    (if (dry_did_mean <? dry_adjusted_mean)%float then "better" else "worse") +:+
    " 
    relative performance after precipitation adjustment, suggesting the site is 
    " +:+
    (if (-0.05 <? dry_adjusted_mean)%float then "resilient to" else "vulnerable to") +:+
    " drought stress.")
       else Ret summary
     else
       let similarity :=
         match column "lease_vs_background" results_df with
         | Ret vs => vs
         | Raise _ =>
             match column "lease_vs_regional" results_df with
             | Ret vs => vs
             | Raise _ => []
             end
         end in
       mean_similarity ← format_float ".4f" (series_mean similarity);
       Ret (summary +:+
         "
    PERFORMANCE METRICS:
    --------------------
    Mean Similarity: " +:+
    mean_similarity +:+
    "
    
    INTERPRETATION:
    ---------------
    Precipitation context helps explain year-to-year variations in performance.
    Dry years typically show lower vegetation productivity across all fields.
    "));
  Ret (summary +:+
    "
    
    RECOMMENDATIONS:
    ----------------
    1. Focus additional assessment on normal precipitation years for most accurate evaluation
    2. Consider multi-year trends rather than single-year snapshots
    3. Account for lag effects - recovery may be delayed after extreme weather years
    4. Use precipitation-adjusted metrics for regulatory compliance decisions
    ").

(** [integrate_precipitation_with_notebook]: the returned table or the
    exception raised, and the world the call leaves. *)
Definition integrate_precipitation_with_notebook
    (results_df : DataFrame) (output_dir : string) (w : world)
    : res DataFrame * world :=
  match makedirs output_dir w with
  | Raise e => (Raise e, w)
  | Ret w =>
  let precip_file := output_dir +:+ "/precipitation_context.json" in
  if negb (path_exists precip_file w) then
    let w := print "⚠ Warning: precipitation_context.json not found." w in
    let w := print "  Please run Precipitation_Context_Analysis.ipynb first to generate precipitation data." w in
    (Ret results_df, w)
  else
    let w := print "Adding precipitation context to results..." w in
    match add_precipitation_context_to_results results_df precip_file w with
    | Raise e => (Raise e, w)
    | Ret enhanced_df =>
        let w := print "Creating integrated visualizations..." w in
        let w := create_integrated_visualization enhanced_df
                   (output_dir +:+ "/integrated_analysis.png") w in
        let w := print "Generating enhanced summary report..." w in
        match generate_enhanced_summary enhanced_df with
        | Raise e => (Raise e, w)
        | Ret summary =>
            let w := print summary w in
            let w := write_file (output_dir +:+ "/enhanced_reclamation_results.csv")
                       (CsvFile enhanced_df) w in
            let w := write_file (output_dir +:+ "/enhanced_summary.txt")
                       (TextFile summary) w in
            let w := print (nl +:+ "✓ Enhanced results saved to " +:+ output_dir +:+ "/") w in
            (Ret enhanced_df, w)
        end
    end
  end.

End Integrator.

End Integrate.

(* ===================================================================== *)
(** * Notebook documents *)
(* ===================================================================== *)

Module Nb.

(** The JSON kept in a cell besides its type and source. *)
Inductive json :=
| JNull
| JBool (b : bool)
| JNum (x : pynum)
| JStr (s : string)
| JList (items : list json)
| JObject (members : list (string * json)).

Record cell := {
  cell_type : string;
  source : list string;
  metadata : json;
  execution_count : json;
  outputs : json
}.

(** [cell['source'] = lines] *)
Definition set_source (lines : list string) (c : cell) : cell :=
  {| cell_type := cell_type c; source := lines; metadata := metadata c;
     execution_count := execution_count c; outputs := outputs c |}.

(** [cell['cell_type'] == 'code'] *)
Definition is_code (c : cell) : bool := String.eqb (cell_type c) "code".

(** The loop both patchers are made of:

      for i, cell in enumerate(cells):
          if cell['cell_type'] == 'code':
              source = ''.join(cell['source'])
              if <test i source>:
                  cell['source'] = <lines>
                  break

    Returns the cells and the index that was patched, if any. *)
Fixpoint replace_first (test : nat -> string -> bool) (lines : list string)
    (i : nat) (cells : list cell) : list cell * option nat :=
  match cells with
  | [] => ([], None)
  | c :: rest =>
      if is_code c && test i (str_join (source c))
      then (set_source lines c :: rest, Some i)
      else let '(rest', hit) := replace_first test lines (S i) rest in
           (c :: rest', hit)
  end.

(** The same scan, with [cells.insert(i, new_cell)] at the first match. *)
Fixpoint insert_before_first (test : nat -> string -> bool) (new_cell : cell)
    (i : nat) (cells : list cell) : list cell * option nat :=
  match cells with
  | [] => ([], None)
  | c :: rest =>
      if is_code c && test i (str_join (source c))
      then (new_cell :: c :: rest, Some i)
      else let '(rest', hit) := insert_before_first test new_cell (S i) rest in
           (c :: rest', hit)
  end.

End Nb.

(* ===================================================================== *)
(** * fix_embeddings.py *)
(* ===================================================================== *)

Module Embeddings.
Import Nb.

(** The corrected cell text of [fix_embeddings.py]. *)
Definition fixed_source : string :=
  "# Load AEF dataset
aef_collection = ee.ImageCollection(" +:+ dq +:+ "GOOGLE/SATELLITE_EMBEDDING/V1/ANNUAL" +:+ dq +:+ ")

def get_embeddings(geometry, year, scale=10):
    " +:+ dq +:+ dq +:+ dq +:+ "
    Extract mean 64D embedding for a geometry and year
    
    Args:
        geometry: ee.Geometry
        year: int (2017-2024)
        scale: int (default 10m)
    
    Returns:
        dict with 'embedding' (64D array) and 'pixel_count'
    " +:+ dq +:+ dq +:+ dq +:+ "
    # Filter to specific year
    aef_year = aef_collection.filter(ee.Filter.date(f'{year}-01-01', f'{year}-12-31')).first()
    
    # Get all 64 bands
    band_names = [f'A{i:02d}' for i in range(64)]
    
    # Compute mean embedding across the geometry
    # FIXED: Use bestEffort=True to handle large regions automatically
    stats = aef_year.select(band_names).reduceRegion(
        reducer=ee.Reducer.mean().combine(
            reducer2=ee.Reducer.count(),
            sharedInputs=True
        ),
        geometry=geometry,
        scale=scale,
        maxPixels=1e10,  # Increased from 1e8 to handle large fields
        bestEffort=True   # Automatically adjust scale if needed for large areas
    )
    
    result = stats.getInfo()
    
    # FIXED: Extract embedding values with proper type handling
    embedding_values = []
    for i in range(64):
        val = result.get(f'A{i:02d}_mean', None)
        # Convert to float, handling None and ensuring numeric type
        if val is None:
            embedding_values.append(0.0)  # Use 0.0 instead of np.nan to avoid type issues
        else:
            try:
                embedding_values.append(float(val))
            except (TypeError, ValueError):
                embedding_values.append(0.0)
    
    embedding = np.array(embedding_values, dtype=np.float64)
    
    # Get pixel count with type safety
    pixel_count = result.get('A00_count', 0)
    if pixel_count is not None:
        try:
            pixel_count = int(pixel_count)
        except (TypeError, ValueError):
            pixel_count = 0
    else:
        pixel_count = 0
    
    return {
        'embedding': embedding,
        'pixel_count': pixel_count,
        'year': year
    }

def get_regional_reference(center_point, crop_code, year, radius_km=15, sample_pixels=1000, max_radius_km=50):
    " +:+ dq +:+ dq +:+ dq +:+ "
    Build regional reference embedding by sampling healthy pixels of same crop

    Args:
        center_point: ee.Geometry.Point
        crop_code: int (AAFC crop classification code)
        year: int
        radius_km: float (initial sampling radius in km)
        sample_pixels: int (number of pixels to sample)
        max_radius_km: float (maximum radius to try if no samples found)

    Returns:
        dict with 'embedding' (64D centroid), 'sample_count', and 'actual_radius'
    " +:+ dq +:+ dq +:+ dq +:+ "
    band_names = [f'A{i:02d}' for i in range(64)]

    # Try progressively larger radii if needed
    for current_radius in [radius_km, radius_km * 2, max_radius_km]:
        # Create sampling region (circular buffer)
        sampling_region = center_point.buffer(current_radius * 1000)  # Convert km to meters

        # Get crop mask for this year
        aafc = ee.ImageCollection('AAFC/ACI')
        crop_img = aafc.filter(ee.Filter.date(f'{year}-01-01', f'{year}-12-31')).first()

        # Mask to only pixels matching our crop type
        crop_mask = crop_img.select('landcover').eq(crop_code)

        # Get AlphaEarth embeddings for this year
        aef_year = aef_collection.filter(ee.Filter.date(f'{year}-01-01', f'{year}-12-31')).first()
        aef_masked = aef_year.select(band_names).updateMask(crop_mask)

        # Sample pixels from the masked image
        samples = aef_masked.sample(
            region=sampling_region,
            scale=10,
            numPixels=sample_pixels,
            seed=42,
            dropNulls=True
        )

        # Count samples
        sample_count = samples.size()
        actual_count = sample_count.getInfo()

        if actual_count > 100:  # Need at least 100 samples for reliable centroid
            # Compute mean embedding across samples
            mean_embedding = samples.reduceColumns(
                ee.Reducer.mean().repeat(64),
                band_names
            )

            result = mean_embedding.getInfo()
            
            # FIXED: Handle the embedding array with proper type conversion
            embedding_values = []
            for val in result['mean']:
                if val is None:
                    embedding_values.append(0.0)
                else:
                    try:
                        embedding_values.append(float(val))
                    except (TypeError, ValueError):
                        embedding_values.append(0.0)
            
            embedding = np.array(embedding_values, dtype=np.float64)

            return {
                'embedding': embedding,
                'sample_count': actual_count,
                'actual_radius': current_radius
            }

    # Fallback if no samples found
    return {
        'embedding': np.zeros(64, dtype=np.float64),
        'sample_count': 0,
        'actual_radius': max_radius_km
    }

def cosine_similarity(a, b):
    " +:+ dq +:+ dq +:+ dq +:+ "Compute cosine similarity between two vectors" +:+ dq +:+ dq +:+ dq +:+ "
    dot_product = np.dot(a, b)
    norm_a = np.linalg.norm(a)
    norm_b = np.linalg.norm(b)
    
    if norm_a == 0 or norm_b == 0:
        return 0.0
    
    return dot_product / (norm_a * norm_b)

def euclidean_distance(a, b):
    " +:+ dq +:+ dq +:+ dq +:+ "Compute Euclidean distance between two vectors" +:+ dq +:+ dq +:+ dq +:+ "
    return np.linalg.norm(a - b)

print(" +:+ dq +:+ "✓ FIXED embedding extraction functions ready" +:+ dq +:+ ")
print(" +:+ dq +:+ "✓ Now handles large areas with bestEffort=True" +:+ dq +:+ ")
print(" +:+ dq +:+ "✓ Properly handles data type conversions to avoid 'isnan' errors" +:+ dq +:+ ")
".


(** [lines = fixed_source.split('\n')] followed by
    [for i in range(len(lines) - 1): lines[i] += '\n'] *)
Definition terminate_all_but_last (lines : list string) : list string :=
  foldl (fun lines i => alter (fun line => line +:+ nl) i lines)
        lines (seq 0 (length lines - 1)).

(** The test that selects the cell to patch. *)
Definition is_target (i : nat) (source : string) : bool :=
  str_contains "def get_embeddings(geometry, year, scale=10):" source
  && str_contains "maxPixels=1e8" source.

(** The script: the cells of the notebook after the run, and the index
    of the patched cell if there is one. *)
Definition fix_embeddings (cells : list cell) : list cell * option nat :=
  replace_first is_target
    (terminate_all_but_last (str_split "010" fixed_source)) 0 cells.

(** ** The functions the corrected cell defines *)

Section Injected.
Context `{EE : EarthEngine} `{BI : Builtins}.

(** [f'A{i:02d}'] *)
Definition band_name (i : Z) : string := "A" +:+ format_02d i.

(** The coercion applied to each band value: [None] and what [float]
    rejects with a TypeError or ValueError become [0.0]. *)
Definition coerce_band (val : pyval) : res float :=
  match val with
  | VNone => Ret 0%float
  | _ => except_type_or_value (py_float val) 0%float
  end.

Fixpoint coerce_all (vals : list pyval) : res (list float) :=
  match vals with
  | [] => Ret []
  | val :: rest =>
      x ← coerce_band val;
      xs ← coerce_all rest;
      Ret (x :: xs)
  end.

(** The coercion applied to the pixel count: [None] and what [int]
    rejects with a TypeError or ValueError become [0]. *)
Definition coerce_count (pixel_count : pyval) : res Z :=
  match pixel_count with
  | VNone => Ret 0
  | _ => except_type_or_value (py_int pixel_count) 0
  end.

(** The dictionary returned by [get_embeddings]. *)
Record embedding_result := {
  embedding : list float;
  pixel_count : Z;
  year : Z
}.

(** [get_embeddings(geometry, year, scale=10)] *)
Definition get_embeddings (geometry : ee_geometry) (year : Z) (scale : pynum)
    : res embedding_result :=
  let result := aef_reduce_region geometry year scale in
  embedding_values ←
    coerce_all ((fun i => default VNone (result !! (band_name i +:+ "_mean")))
                  <$> py_range 0 64);
  pixel_count ← coerce_count (default (VInt 0) (result !! "A00_count"));
  Ret {| embedding := embedding_values; pixel_count := pixel_count; year := year |}.

(** The dictionary returned by [get_regional_reference]. *)
Record regional_reference := {
  ref_embedding : list float;
  sample_count : Z;
  actual_radius : pynum
}.

(** The [for current_radius in ...] loop of [get_regional_reference];
    [None] when the loop ends without returning. *)
Fixpoint try_radii (center_point : ee_geometry) (crop_code year sample_pixels : Z)
    (radii : list pynum) : option (res regional_reference) :=
  match radii with
  | [] => None
  | current_radius :: rest =>
      let actual_count :=
        aef_sample_count center_point crop_code year current_radius sample_pixels in
      if actual_count >? 100 then
        Some (embedding_values ←
                coerce_all (aef_sample_mean center_point crop_code year
                              current_radius sample_pixels);
              Ret {| ref_embedding := embedding_values;
                     sample_count := actual_count;
                     actual_radius := current_radius |})
      else try_radii center_point crop_code year sample_pixels rest
  end.

(** [get_regional_reference(center_point, crop_code, year, radius_km=15,
    sample_pixels=1000, max_radius_km=50)] *)
Definition get_regional_reference (center_point : ee_geometry) (crop_code year : Z)
    (radius_km : pynum) (sample_pixels : Z) (max_radius_km : pynum)
    : res regional_reference :=
  match try_radii center_point crop_code year sample_pixels
          [radius_km; py_mul radius_km (PyInt 2); max_radius_km] with
  | Some returned => returned
  | None =>
      Ret {| ref_embedding := replicate 64 0%float;
             sample_count := 0;
             actual_radius := max_radius_km |}
  end.

End Injected.

End Embeddings.

(* ===================================================================== *)
(** * fix_notebook_comprehensive.py *)
(* ===================================================================== *)

Module Notebook.
Import Nb.

(** Fix 1: the imports cell. *)
Definition imports_cell_code : string :=
  "# Imports for both Jupyter and Colab environments
%pip install -q geopandas rasterio fiona shapely numpy

import geopandas
import rasterio
import rasterio.warp
import rasterio.mask
import fiona
from shapely.geometry import shape
import numpy as np
import os
import ipywidgets as widgets
from IPython.display import display
import pandas as pd
import matplotlib.pyplot as plt
import matplotlib.colors as mcolors

# Detect environment (Colab vs Jupyter)
try:
    from google.colab import files
    IN_COLAB = True
    print(" +:+ dq +:+ "Running in Google Colab environment" +:+ dq +:+ ")
except ImportError:
    IN_COLAB = False
    print(" +:+ dq +:+ "Running in Jupyter environment" +:+ dq +:+ ")".

(** Fix 2: the new skip_alignment widget cell. *)
Definition widget_setup_code : string :=
  "# Create configuration widgets
skip_alignment_widget = widgets.Checkbox(
    value=False,
    description='Skip Alignment',
    tooltip='Skip the reprojection and alignment step if rasters are already aligned'
)

display(skip_alignment_widget)
print(" +:+ dq +:+ "Configuration widgets created." +:+ dq +:+ ")".

(** Fix 3: the upload widgets cell. *)
Definition file_upload_widgets_code : string :=
  "# Create file upload widgets
aoi_upload = widgets.FileUpload(
    accept='.kml,.geojson,.shp',
    multiple=False,
    description='Upload AOI Polygon (KML, GeoJSON, or SHP)'
)

ndvi_uploads = widgets.FileUpload(
    accept='.tif,.tiff',
    multiple=True,
    description='Upload NDVI Rasters (GeoTIFFs)'
)

display(aoi_upload)
display(ndvi_uploads)
print(" +:+ dq +:+ "File upload widgets created. Please upload your AOI polygon and NDVI rasters." +:+ dq +:+ ")".

(** Fix 4: the loading cell. *)
Definition loading_cell_code : string :=
  "aoi_gdf = None
original_ndvi_datasets = []
memfiles = []  # Keep MemoryFile objects alive

# Function to handle different widget structures (Jupyter vs Colab)
def get_file_content(upload_widget, is_multiple=False):
    " +:+ dq +:+ dq +:+ dq +:+ "Extract file content from upload widget, handling both Jupyter and Colab formats" +:+ dq +:+ dq +:+ dq +:+ "
    files_data = []
    
    if upload_widget.value:
        # Check if it's Colab format (dict) or Jupyter format (tuple)
        if isinstance(upload_widget.value, dict):
            # Colab format: {'filename': {'content': bytes}}
            for filename, file_info in upload_widget.value.items():
                files_data.append({
                    'name': filename,
                    'content': file_info['content']
                })
        else:
            # Jupyter format: ({'name': str, 'content': bytes}, ...)
            for file_dict in upload_widget.value:
                files_data.append({
                    'name': file_dict['name'],
                    'content': file_dict['content']
                })
    
    return files_data[0] if files_data and not is_multiple else files_data

# Load AOI polygon
aoi_file = get_file_content(aoi_upload, is_multiple=False)
if aoi_file:
    try:
        with fiona.io.MemoryFile(aoi_file['content']) as memfile:
            aoi_gdf = geopandas.read_file(memfile)
        print(f" +:+ dq +:+ "AOI polygon '{aoi_file['name']}' loaded successfully." +:+ dq +:+ ")
        print(f" +:+ dq +:+ "AOI CRS: {aoi_gdf.crs}" +:+ dq +:+ ")
    except Exception as e:
        print(f" +:+ dq +:+ "Error loading AOI file: {e}" +:+ dq +:+ ")
else:
    print(" +:+ dq +:+ "No AOI file uploaded. Skipping AOI loading." +:+ dq +:+ ")

# Load NDVI rasters
ndvi_files = get_file_content(ndvi_uploads, is_multiple=True)
if ndvi_files:
    for file_data in ndvi_files:
        try:
            # Keep MemoryFile alive by storing it
            memfile = rasterio.io.MemoryFile(file_data['content'])
            dataset = memfile.open()
            original_ndvi_datasets.append(dataset)
            memfiles.append(memfile)  # Important: Keep memfile alive!
            print(f" +:+ dq +:+ "NDVI raster '{file_data['name']}' loaded successfully." +:+ dq +:+ ")
        except Exception as e:
            print(f" +:+ dq +:+ "Error loading NDVI file '{file_data['name']}': {e}" +:+ dq +:+ ")
else:
    print(" +:+ dq +:+ "No NDVI files uploaded. Skipping NDVI loading." +:+ dq +:+ ")

# Initialize ndvi_datasets for later use
ndvi_datasets = []

# Summary
if aoi_gdf is not None and original_ndvi_datasets:
    print(f" +:+ dq +:+ "\nSummary: Loaded {len(original_ndvi_datasets)} NDVI raster(s) and 1 AOI polygon." +:+ dq +:+ ")
elif original_ndvi_datasets:
    print(f" +:+ dq +:+ "\nSummary: Loaded {len(original_ndvi_datasets)} NDVI raster(s), no AOI polygon." +:+ dq +:+ ")
elif aoi_gdf is not None:
    print(f" +:+ dq +:+ "\nSummary: Loaded 1 AOI polygon, no NDVI rasters." +:+ dq +:+ ")
else:
    print(f" +:+ dq +:+ "\nSummary: No files loaded." +:+ dq +:+ ")".

(** Fix 5: the alignment cell. *)
Definition alignment_cell_code : string :=
  "import rasterio.warp

aligned_ndvi_arrays = []
target_crs = None
target_transform = None
target_width = None
target_height = None

if not original_ndvi_datasets:
    print(" +:+ dq +:+ "No NDVI datasets loaded. Skipping reprojection and alignment." +:+ dq +:+ ")
    ndvi_datasets = original_ndvi_datasets
else:
    if skip_alignment_widget.value:
        print(" +:+ dq +:+ "Skipping reprojection and alignment as requested." +:+ dq +:+ ")
        # If alignment is skipped, use the original datasets for subsequent steps
        ndvi_datasets = original_ndvi_datasets
        # Get target CRS and transform from the first original dataset
        if ndvi_datasets:
            target_crs = ndvi_datasets[0].crs
            target_transform = ndvi_datasets[0].transform
            target_width = ndvi_datasets[0].width
            target_height = ndvi_datasets[0].height
            print(f" +:+ dq +:+ "Using CRS and transform from first dataset: {target_crs}" +:+ dq +:+ ")
    else:
        print(" +:+ dq +:+ "Performing reprojection and alignment..." +:+ dq +:+ ")
        # Get CRS and transform from the first dataset
        first_dataset = original_ndvi_datasets[0]
        target_crs = first_dataset.crs
        target_transform = first_dataset.transform
        target_width = first_dataset.width
        target_height = first_dataset.height
        
        print(f" +:+ dq +:+ "Target CRS: {target_crs}" +:+ dq +:+ ")
        print(f" +:+ dq +:+ "Target dimensions: {target_width} x {target_height}" +:+ dq +:+ ")
        
        # Read all datasets and align them
        for i, dataset in enumerate(original_ndvi_datasets):
            try:
                if i == 0:
                    # First dataset sets the reference
                    aligned_ndvi_arrays.append(dataset.read(1))
                    print(f" +:+ dq +:+ "Dataset 0 (reference) read successfully." +:+ dq +:+ ")
                else:
                    # Reproject other datasets to match the first
                    reprojected_data = np.empty((target_height, target_width), dtype=dataset.dtypes[0])
                    
                    rasterio.warp.reproject(
                        source=rasterio.band(dataset, 1),
                        destination=reprojected_data,
                        src_transform=dataset.transform,
                        src_crs=dataset.crs,
                        dst_transform=target_transform,
                        dst_crs=target_crs,
                        resampling=rasterio.warp.Resampling.bilinear
                    )
                    aligned_ndvi_arrays.append(reprojected_data)
                    print(f" +:+ dq +:+ "Dataset {i} reprojected and aligned." +:+ dq +:+ ")
            except Exception as e:
                print(f" +:+ dq +:+ "Error processing dataset {i}: {e}" +:+ dq +:+ ")
        
        # Use aligned arrays for subsequent steps
        ndvi_datasets = aligned_ndvi_arrays
        print(f" +:+ dq +:+ "\nAlignment complete: {len(ndvi_datasets)} datasets ready for processing." +:+ dq +:+ ")".

(** Fix 6: the clipping cell. *)
Definition clipping_cell_code : string :=
  "import rasterio.mask

clipped_ndvi_data_and_transforms = []

if aoi_gdf is None or not ndvi_datasets:
    print(" +:+ dq +:+ "AOI polygon or NDVI datasets not available. Skipping clipping process." +:+ dq +:+ ")
else:
    if target_crs is None or target_transform is None:
        print(" +:+ dq +:+ "Target CRS or Transform not defined. Cannot clip." +:+ dq +:+ ")
    else:
        # Ensure the AOI is in the same CRS as the rasters
        if aoi_gdf.crs != target_crs:
            try:
                aoi_gdf = aoi_gdf.to_crs(target_crs)
                print(f" +:+ dq +:+ "AOI polygon reprojected to target CRS: {target_crs}" +:+ dq +:+ ")
            except Exception as e:
                print(f" +:+ dq +:+ "Error reprojecting AOI polygon: {e}" +:+ dq +:+ ")
                aoi_gdf = None
        
        if aoi_gdf is not None:
            # Get the geometry for masking
            geometries = aoi_gdf.geometry.values
            
            for i, dataset_or_array in enumerate(ndvi_datasets):
                try:
                    if hasattr(dataset_or_array, 'read'):
                        # It's a rasterio DatasetReader (when alignment was skipped)
                        clipped_data, clipped_transform = rasterio.mask.mask(
                            dataset_or_array, geometries, crop=True, nodata=np.nan
                        )
                        clipped_data = clipped_data[0]  # Get first band
                        clipped_ndvi_data_and_transforms.append((clipped_data, clipped_transform))
                        print(f" +:+ dq +:+ "NDVI dataset {i} clipped successfully." +:+ dq +:+ ")
                    else:
                        # It's a numpy array (when alignment was performed)
                        # Create a temporary in-memory dataset for clipping
                        height, width = dataset_or_array.shape
                        dtype = dataset_or_array.dtype
                        
                        with rasterio.MemoryFile() as memfile:
                            with memfile.open(
                                driver='GTiff',
                                height=height,
                                width=width,
                                count=1,
                                dtype=dtype,
                                crs=target_crs,
                                transform=target_transform
                            ) as tmp_dataset:
                                tmp_dataset.write(dataset_or_array, 1)
                                
                                # Perform clipping
                                clipped_data, clipped_transform = rasterio.mask.mask(
                                    tmp_dataset, geometries, crop=True, nodata=np.nan
                                )
                                clipped_data = clipped_data[0]  # Get first band
                        
                        clipped_ndvi_data_and_transforms.append((clipped_data, clipped_transform))
                        print(f" +:+ dq +:+ "NDVI array {i} clipped successfully." +:+ dq +:+ ")
                        
                except Exception as e:
                    print(f" +:+ dq +:+ "Error clipping item {i}: {e}" +:+ dq +:+ ")
                    import traceback
                    traceback.print_exc()
            
            # Replace ndvi_datasets with clipped data
            ndvi_datasets = clipped_ndvi_data_and_transforms
            print(f" +:+ dq +:+ "\nClipping complete: {len(ndvi_datasets)} datasets clipped to AOI." +:+ dq +:+ ")".


(** [[line + '\n' for line in code.split('\n')]] *)
Definition cell_lines (code : string) : list string :=
  (fun line => line +:+ nl) <$> str_split "010" code.

(** The tests of the six scans. *)
Definition is_imports_cell (i : nat) (source : string) : bool :=
  str_contains "import geopandas" source && str_contains "import rasterio" source
  && (i <? 10)%nat.
Definition is_upload_cell (i : nat) (source : string) : bool :=
  str_contains "aoi_upload = widgets.FileUpload" source.
Definition is_loading_cell (i : nat) (source : string) : bool :=
  str_contains "aoi_gdf = None" source && str_contains "original_ndvi_datasets" source.
Definition is_alignment_cell (i : nat) (source : string) : bool :=
  str_contains "aligned_ndvi_arrays = []" source && str_contains "target_crs = None" source.
Definition is_clipping_cell (i : nat) (source : string) : bool :=
  str_contains "clipped_ndvi_data_and_transforms = []" source
  && str_contains "rasterio.mask" source.

(** The cell inserted before the upload widgets. *)
Definition new_cell : cell :=
  {| cell_type := "code";
     metadata := JObject [];
     source := cell_lines widget_setup_code;
     execution_count := JNull;
     outputs := JList [] |}.

(** [fixes_applied.append(note)] when the scan found its cell. *)
Definition record_fix (hit : option nat) (note : string) (fixes_applied : list string)
    : list string :=
  match hit with
  | Some _ => fixes_applied ++ [note]
  | None => fixes_applied
  end.

(** The insertion scan.  [widget_setup_inserted] is set to [False] just
    before the scan and to [True] together with the [break], so the test
    [not widget_setup_inserted] holds whenever it is evaluated. *)
Definition insert_widget_setup (cells : list cell) : list cell * option nat :=
  let widget_setup_inserted := false in
  insert_before_first
    (fun i source => is_upload_cell i source && negb widget_setup_inserted)
    new_cell 0 cells.

(** [fix_notebook()]: the cells written back to the notebook and the
    list of fixes that is printed. *)
Definition fix_notebook (cells : list cell) : list cell * list string :=
  let fixes_applied := [] in
  let '(cells, hit) := replace_first is_imports_cell (cell_lines imports_cell_code) 0 cells in
  let fixes_applied :=
    record_fix hit "Updated imports cell for environment compatibility" fixes_applied in
  let '(cells, hit) := insert_widget_setup cells in
  let fixes_applied := record_fix hit "Added skip_alignment widget setup" fixes_applied in
  let '(cells, hit) :=
    replace_first is_upload_cell (cell_lines file_upload_widgets_code) 0 cells in
  let fixes_applied := record_fix hit "Updated file upload widgets" fixes_applied in
  let '(cells, hit) := replace_first is_loading_cell (cell_lines loading_cell_code) 0 cells in
  let fixes_applied :=
    record_fix hit "Fixed loading cell for both environments" fixes_applied in
  let '(cells, hit) :=
    replace_first is_alignment_cell (cell_lines alignment_cell_code) 0 cells in
  let fixes_applied := record_fix hit "Updated alignment cell" fixes_applied in
  let '(cells, hit) :=
    replace_first is_clipping_cell (cell_lines clipping_cell_code) 0 cells in
  let fixes_applied := record_fix hit "Updated clipping cell" fixes_applied in
  (cells, fixes_applied).

End Notebook.

(* ===================================================================== *)
(** * Auxiliary definitions and example inputs *)
(* ===================================================================== *)

Module Aux.
Import Nb.

(** Structural form of [Embeddings.terminate_all_but_last]. *)
Fixpoint with_terminators (lines : list string) : list string :=
  match lines with
  | [] => []
  | [x] => [x]
  | x :: rest => (x +:+ nl) :: with_terminators rest
  end.

(** The characters of a string. *)
Fixpoint chars (s : string) : list ascii :=
  match s with
  | EmptyString => []
  | String c rest => c :: chars rest
  end.

(** A line that carries a line terminator at its end. *)
Definition terminated (line : string) : Prop := exists body, line = body +:+ nl.

(** A scan finds nothing left to do: the cell it selects, if any, holds
    the new lines already. *)
Definition settled (test : nat -> string -> bool) (lines : list string)
    (i : nat) (cells : list cell) : Prop :=
  fst (replace_first test lines i cells) = cells.

(** One replacement scan of [fix_notebook], from the top of the
    notebook. *)
Definition scan (test : nat -> string -> bool) (code : string)
    (cells : list cell) : list cell :=
  fst (replace_first test (Notebook.cell_lines code) 0 cells).

(** The cells made from the given texts do not pass a test. *)
Definition other_texts (test : nat -> string -> bool) (codes : list string) : Prop :=
  forall j, Forall (fun code => test j (str_join (Notebook.cell_lines code)) = false) codes.

(** Facts about the marks of the fixed texts are settled by evaluation. *)
Ltac by_marks := intros; vm_compute; reflexivity.

(** A test made of a condition on the text and a condition on the index
    that, once false, stays false further down the notebook. *)
Definition bounded (test : nat -> string -> bool) : Prop :=
  exists (marks : string -> bool) (within : nat -> bool),
    (forall i s, test i s = marks s && within i) /\
    (forall i, within (S i) = true -> within i = true).

(** A band value from which [get_embeddings] makes a finite number: a
    missing one, a finite number, or one that [float] rejects. *)
Definition plain_band `{Builtins} (val : pyval) : bool :=
  match val with
  | VNone | VBool _ | VList _ => true
  | VInt z => is_finite (float_of_Z z)
  | VFloat f => is_finite f
  | VStr s => match float_of_str s with Some f => is_finite f | None => true end
  end.

(** A band value that [get_embeddings] replaces by [0.0]. *)
Definition rejected_band `{Builtins} (val : pyval) : bool :=
  match val with
  | VNone | VList _ => true
  | VStr s => match float_of_str s with Some _ => false | None => true end
  | _ => false
  end.

(** A count that is missing, not a number, or a number that is not
    negative. *)
Definition plain_count `{Builtins} (val : pyval) : bool :=
  match val with
  | VNone | VBool _ | VList _ => true
  | VInt z => 0 <=? z
  | VFloat f =>
      match Prim2SF f with
      | S754_nan | S754_zero _ => true
      | S754_infinity _ => false
      | S754_finite s _ _ => negb s
      end
  | VStr s => match int_of_str s with Some z => 0 <=? z | None => true end
  end.

(** A count that [get_embeddings] replaces by [0]. *)
Definition rejected_count `{Builtins} (val : pyval) : bool :=
  match val with
  | VNone | VList _ => true
  | VStr s => match int_of_str s with Some _ => false | None => true end
  | VFloat f => match Prim2SF f with S754_nan => true | _ => false end
  | _ => false
  end.

(** The band values that [get_embeddings] reads out of an answer. *)
Definition band_values (result : gmap string pyval) : list pyval :=
  (fun i => default VNone (result !! (Embeddings.band_name i +:+ "_mean")))
    <$> py_range 0 64.

(** The entry that [extract_monthly_precipitation] stores for a month. *)
Definition month_entry `{EarthEngine} (self : Precip.PrecipitationAnalyzer)
    (year month : Z) : Precip.month_record :=
  {| Precip.precipitation_mm :=
       if era5_collection_size year month >? 0
       then era5_mean_precip (Precip.geometry self) year month else None;
     Precip.rec_month_name := Precip.calendar_month_name month;
     Precip.rec_year := year |}.

(** The service has no precipitation value for a month: no image, or a
    null mean. *)
Definition no_current_data `{EarthEngine} (self : Precip.PrecipitationAnalyzer)
    (year month : Z) : Prop :=
  Precip.precipitation_mm (month_entry self year month) = None.

(** The row of a month, given the table of baseline statistics. *)
Definition row_for `{EarthEngine} `{Builtins} (self : Precip.PrecipitationAnalyzer)
    (year : Z) (stats : gmap Z Precip.month_stats) (month : Z) (r : Precip.row)
    : Prop :=
  exists baseline,
    stats !! month = Some baseline /\
    Precip.month_name baseline = Precip.calendar_month_name month /\
    r = Precip.month_row (Precip.precipitation_mm (month_entry self year month)) baseline.

(** A table whose columns all have one value per row. *)
Definition well_formed (df : Integrate.DataFrame) : Prop :=
  Forall (fun c => length (snd c) = Integrate.nrows df) (Integrate.columns df).

(** The state of the table during the loop of
    [add_precipitation_context_to_results] when there is no
    difference-in-differences column. *)
Definition unadjusted (n : nat) (df : Integrate.DataFrame) : Prop :=
  Integrate.nrows df = n /\
  Integrate.has_column "difference_in_differences" df = false /\
  Integrate.column "adjusted_performance" df = Ret (replicate n (VFloat 0)) /\
  Forall (fun name => exists vs, Integrate.column name df = Ret vs /\ length vs = n)
    ["precip_anomaly_pct"; "precip_classification"; "precip_impact"].

End Aux.

Module Examples.
Import Nb Precip.

(** The percentile dictionary of the specification's example. *)
Definition example_stats : month_stats := {|
  mean := PyFloat 70; median := PyFloat 70; stdev := PyFloat 30;
  p10 := PyFloat 20; p25 := PyFloat 40; p75 := PyFloat 100; p90 := PyFloat 140;
  month_name := "June"
|}.

(** A notebook of one code cell that creates the upload widget. *)
Definition upload_only : list cell :=
  [{| cell_type := "code";
      source := ["aoi_upload = widgets.FileUpload()"];
      metadata := JObject [];
      execution_count := JNull;
      outputs := JList [] |}].

(** A stand-in for the parts of the builtins that the examples do not
    exercise: no string is a number, rounding keeps the value. *)
Definition no_parsing : Builtins := {|
  float_of_str := fun _ => None;
  int_of_str := fun _ => None;
  round1 := fun f => f;
  repr_other := fun _ => "?"
|}.

(** A service whose reduction answers a NaN for the first band. *)
Definition nan_service : EarthEngine := {|
  ee_geometry := unit;
  era5_collection_size := fun _ _ => 0;
  era5_mean_precip := fun _ _ _ => None;
  aef_reduce_region := fun _ _ _ =>
    {[ "A00_mean" := VFloat nan; "A00_count" := VInt 12 ]};
  aef_sample_count := fun _ _ _ _ _ => 0;
  aef_sample_mean := fun _ _ _ _ _ => []
|}.

(** A service whose reduction answers two bands, one of them null, and
    whose crop sample is large enough only from 50 km on. *)
Definition sparse_service : EarthEngine := {|
  ee_geometry := unit;
  era5_collection_size := fun _ _ => 0;
  era5_mean_precip := fun _ _ _ => None;
  aef_reduce_region := fun _ _ _ =>
    {[ "A00_mean" := VFloat 0.5; "A01_mean" := VNone; "A00_count" := VInt 12 ]};
  aef_sample_count := fun _ _ _ radius _ =>
    if py_ge radius (PyInt 50) then 150 else 20;
  aef_sample_mean := fun _ _ _ _ _ => replicate 64 (VFloat 0.25)
|}.

(** A service without a single crop pixel. *)
Definition empty_service : EarthEngine := {|
  ee_geometry := unit;
  era5_collection_size := fun _ _ => 0;
  era5_mean_precip := fun _ _ _ => None;
  aef_reduce_region := fun _ _ _ => ∅;
  aef_sample_count := fun _ _ _ _ _ => 0;
  aef_sample_mean := fun _ _ _ _ _ => []
|}.

(** numpy on a sample whose values are all equal. *)
Definition constant_sample : NumPy := {|
  np_mean := fun xs => List.hd 0%float xs;
  np_median := fun xs => List.hd 0%float xs;
  np_std := fun _ => 0%float;
  np_percentile := fun xs _ => List.hd 0%float xs
|}.

(** A service with 50 mm for every month up to 2019 and no image
    afterwards. *)
Definition archive_until_2019 : EarthEngine := {|
  ee_geometry := unit;
  era5_collection_size := fun year _ => if year <? 2020 then 1 else 0;
  era5_mean_precip := fun _ _ _ => Some 50%float;
  aef_reduce_region := fun _ _ _ => ∅;
  aef_sample_count := fun _ _ _ _ _ => 0;
  aef_sample_mean := fun _ _ _ _ _ => []
|}.

(** The analyzer built by [PrecipitationAnalyzer(geometry)]. *)
Definition default_analyzer : @PrecipitationAnalyzer archive_until_2019 :=
  {| geometry := tt : @ee_geometry archive_until_2019; baseline_years := (2010, 2020) |}.

(** Stand-ins for the pandas reductions and for the digits of a float;
    the examples do not depend on what they answer. *)
Definition first_value : Pandas := {|
  series_min := fun vs => List.hd VNone vs;
  series_max := fun vs => List.hd VNone vs;
  series_mean := fun vs =>
    match vs with
    | VFloat f :: _ => f
    | _ => nan
    end
|}.

Definition no_digits : Formatting := {|
  render_float := fun _ _ => "#"
|}.

(** A results table of one dry year, with the precipitation columns
    filled in. *)
Definition one_dry_year : Integrate.DataFrame := {|
  Integrate.nrows := 1;
  Integrate.index := Integrate.range_index;
  Integrate.columns :=
    [("year", [VInt 2021]);
     ("crop", [VStr "Canola"]);
     ("difference_in_differences", [VFloat (-0.02)]);
     ("precip_anomaly_pct", [VFloat (-20)]);
     ("precip_classification", [VStr "Dry Season"]);
     ("precip_impact", [VStr "Drought stress likely"]);
     ("adjusted_performance", [VFloat 0.03])]
|}.

(** A results table without a difference-in-differences column. *)
Definition similarity_only : Integrate.DataFrame := {|
  Integrate.nrows := 2;
  Integrate.index := Integrate.range_index;
  Integrate.columns :=
    [("year", [VInt 2021; VInt 2022]);
     ("crop", [VStr "Canola"; VStr "Wheat"]);
     ("lease_vs_background", [VFloat 0.9; VFloat 0.8])]
|}.

(** A context file with a record for 2021. *)
Definition context_2021 : gmap string Integrate.year_record :=
  {[ "2021" := {| Integrate.anomaly_percent := PyFloat (-20);
                  Integrate.classification := "Dry Season";
                  Integrate.vegetation_impact := "Drought stress likely" |} ]}.

(** A world with nothing in it, and one that holds the context file. *)
Definition empty_world : Integrate.world :=
  {| Integrate.files := ∅; Integrate.dirs := ∅; Integrate.stdout := [] |}.

Definition world_with_context : Integrate.world :=
  {| Integrate.files :=
       {[ "output_data/precipitation_context.json" :=
            Integrate.PrecipContextFile context_2021 ]};
     Integrate.dirs := {[ "output_data" ]};
     Integrate.stdout := [] |}.

(** An operating system for paths without a parent directory, as those
    of the examples are: an empty path and a path held by a regular file
    are refused, any other is made a directory. *)
Definition flat_directories : Integrate.OperatingSystem := {|
  Integrate.os_makedirs := fun path w =>
    if String.eqb path EmptyString then Raise (FileNotFoundError path)
    else if bool_decide (is_Some (Integrate.files w !! path))
         then Raise (FileExistsError path)
         else Ret ({[path]} ∪ Integrate.dirs w)
|}.

(** A world where a regular file holds the place of the output
    directory. *)
Definition world_with_file : Integrate.world :=
  {| Integrate.files := {[ "output_data" := Integrate.TextFile "notes" ]};
     Integrate.dirs := ∅;
     Integrate.stdout := [] |}.

End Examples.

(* ===================================================================== *)
(** * Further definitions *)
(* ===================================================================== *)

Module More.
Import Nb.

(** A cell without its source: what a patcher has no business with. *)
Definition erase (c : cell) : cell := set_source [] c.

(** The narrative (non-code) cells of a notebook, in order. *)
Definition narrative (cells : list cell) : list cell :=
  filter (fun c => is_code c = false) cells.

(** A code cell that [fix_embeddings.py] selects. *)
Definition is_target_cell (c : cell) : bool :=
  is_code c && Embeddings.is_target 0 (str_join (source c)).

(** The cells of a notebook that [fix_embeddings.py] selects. *)
Definition targets (cells : list cell) : list cell :=
  filter (fun c => is_target_cell c = true) cells.

(** A code cell with the two import marks of [fix_notebook]. *)
Definition has_import_marks (c : cell) : bool :=
  is_code c
  && str_contains "import geopandas" (str_join (source c))
  && str_contains "import rasterio" (str_join (source c)).

Definition markdown_cell (text : list string) : cell :=
  {| cell_type := "markdown"; source := text; metadata := JObject [];
     execution_count := JNull; outputs := JNull |}.

Definition code_cell (text : list string) : cell :=
  {| cell_type := "code"; source := text; metadata := JObject [];
     execution_count := JNum (PyInt 1); outputs := JList [] |}.

(** A notebook with a heading and two cells that still hold the old
    [get_embeddings]. *)
Definition old_notebook : list cell :=
  [markdown_cell ["# Reclamation analysis"];
   code_cell ["def get_embeddings(geometry, year, scale=10):" +:+ nl;
              "    return reduce(geometry, maxPixels=1e8)"];
   code_cell ["print('ready')"];
   code_cell ["def get_embeddings(geometry, year, scale=10):" +:+ nl;
              "    pass  # maxPixels=1e8"]].

(** A notebook whose import cell comes after ten narrative cells. *)
Definition late_imports : list cell :=
  replicate 10 (markdown_cell ["notes"])
  ++ [code_cell ["import geopandas" +:+ nl; "import rasterio"]].

End More.

(** Further definitions for [precipitation_analysis.py]. *)
Module PrecipMore.
Import Precip.

Section Analyzer.
Context `{EE : EarthEngine} `{NP : NumPy} `{BI : Builtins}.

(** The statistics [calculate_baseline_statistics] stores for a month
    whose baseline sample is [precip_values]. *)
Definition month_statistics (month : Z) (precip_values : list float) : month_stats :=
  if (0 <? length precip_values)%nat
  then {| mean := PyFloat (np_mean precip_values);
          median := PyFloat (np_median precip_values);
          stdev := PyFloat (np_std precip_values);
          p10 := PyFloat (np_percentile precip_values 10);
          p25 := PyFloat (np_percentile precip_values 25);
          p75 := PyFloat (np_percentile precip_values 75);
          p90 := PyFloat (np_percentile precip_values 90);
          month_name := calendar_month_name month |}
  else {| mean := PyInt 0; median := PyInt 0; stdev := PyInt 0;
          p10 := PyInt 0; p25 := PyInt 0; p75 := PyInt 0; p90 := PyInt 0;
          month_name := calendar_month_name month |}.

(** The values the service has for a month over the baseline years, in
    the order of the years. *)
Definition baseline_sample (self : PrecipitationAnalyzer) (month : Z) : list float :=
  omap (fun year => precipitation_mm (Aux.month_entry self year month))
       (py_range (fst (baseline_years self)) (snd (baseline_years self))).

(** One row of the table returned by [compare_multiple_years]; the fields
    are the columns 'Year', 'Total Precip (mm)', 'Normal (mm)',
    'Anomaly (%)' and 'Classification'. *)
Record year_summary := {
  Year : Z;
  Total_Precip_mm : pynum;
  Season_Normal_mm : pynum;
  Season_Anomaly_pct : pynum;
  Season_Classification : string
}.

(** [df[df['Month'] == 'SEASONAL TOTAL'].iloc[0]]; [None] stands for the
    IndexError of an empty selection. *)
Definition seasonal_total_row (df : list row) : option row :=
  head (filter (fun r => Month r = "SEASONAL TOTAL") df).

(** [PrecipitationAnalyzer.compare_multiple_years]; [None] when a year's
    table has no seasonal row to read. *)
Definition compare_multiple_years
    (self : PrecipitationAnalyzer) (years : list Z)
    (baseline_stats : option (gmap Z month_stats)) : option (list year_summary) :=
  let baseline_stats :=
    match baseline_stats with
    | None => calculate_baseline_statistics self
    | Some given => given
    end in
  foldl (fun results year =>
    results ← results;
    let df := analyze_growing_season self year (Some baseline_stats) in
    season_row ← seasonal_total_row df;
    Some (results ++
          [{| Year := year;
              Total_Precip_mm := Precipitation_mm season_row;
              Season_Normal_mm := Normal_mm season_row;
              Season_Anomaly_pct := Anomaly_pct season_row;
              Season_Classification := Classification season_row |}]))
    (Some []) years.

(** The summary of a seasonal row. *)
Definition summary_of (year : Z) (season_row : row) : year_summary :=
  {| Year := year;
     Total_Precip_mm := Precipitation_mm season_row;
     Season_Normal_mm := Normal_mm season_row;
     Season_Anomaly_pct := Anomaly_pct season_row;
     Season_Classification := Classification season_row |}.

(** The monthly rows of a year, for a given table of statistics. *)
Definition monthly_rows (self : PrecipitationAnalyzer) (year : Z)
    (stats : gmap Z month_stats) : list row :=
  omap (fun month =>
          month_row (precipitation_mm (Aux.month_entry self year month))
            <$> stats !! month)
       (py_range 4 11).

End Analyzer.

End PrecipMore.

(** Further definitions for [integrate_precipitation.py]. *)
Module IntegrateMore.
Import Integrate.

(** The number a cell holds, if it holds one. *)
Definition numeric (v : pyval) : option pynum :=
  match as_num v with
  | Ret x => Some x
  | Raise _ => None
  end.

(** The tolerance added to the performance of a year:
    [0.05] for a dry year, [-0.03] for a wet one. *)
Definition adjustment_factor (year_data : year_record) : float :=
  if py_lt (anomaly_percent year_data) (PyInt (-15)) then 0.05%float
  else if py_gt (anomaly_percent year_data) (PyInt 15) then (-0.03)%float
  else 0%float.

(** The four cells [add_precipitation_context_to_results] leaves in a
    row: anomaly, class, impact and adjusted performance. *)
Record context_cells := {
  c_anomaly : pyval;
  c_class : pyval;
  c_impact : pyval;
  c_adjusted : pyval
}.

Definition expected_cells `{Builtins} (yearly_analysis : gmap string year_record)
    (year : pyval) (did : option pynum) : context_cells :=
  match yearly_analysis !! py_str year with
  | Some year_data =>
      {| c_anomaly := of_num (anomaly_percent year_data);
         c_class := VStr (classification year_data);
         c_impact := VStr (vegetation_impact year_data);
         c_adjusted :=
           match did with
           | Some x => of_num (py_add x (PyFloat (adjustment_factor year_data)))
           | None => VFloat 0
           end |}
  | None =>
      {| c_anomaly := VFloat 0; c_class := VStr EmptyString;
         c_impact := VStr EmptyString; c_adjusted := VFloat 0 |}
  end.

(** The difference-in-differences value of the row at a position, when
    the table has the column and the cell holds a number. *)
Definition did_at (df : DataFrame) (pos : nat) : option pynum :=
  match column "difference_in_differences" df with
  | Ret ds => ds !! pos ≫= numeric
  | Raise _ => None
  end.

(** One turn of the loop of [add_precipitation_context_to_results], for
    the row at position [pos] of [rows], on a table whose cells can be
    read: what is written is written at the label of that row. *)
Definition context_step `{Builtins} (yearly_analysis : gmap string year_record)
    (rows : DataFrame) (acc : DataFrame) (pos : nat) : DataFrame :=
  let idx := index rows pos in
  match cell pos "year" rows with
  | Ret year =>
      match yearly_analysis !! py_str year with
      | Some year_data =>
          let acc :=
            at_set idx "precip_impact" (VStr (vegetation_impact year_data))
              (at_set idx "precip_classification" (VStr (classification year_data))
                 (at_set idx "precip_anomaly_pct" (of_num (anomaly_percent year_data))
                    acc)) in
          if has_column "difference_in_differences" acc then
            match did_at rows pos with
            | Some x =>
                at_set idx "adjusted_performance"
                  (of_num (py_add x (PyFloat (adjustment_factor year_data)))) acc
            | None => acc
            end
          else acc
      | None => acc
      end
  | Raise _ => acc
  end.

(** Writing at the label of the row at [pos] when there is something to
    write. *)
Definition write_at (labels : nat -> Z) (update : option pyval) (pos : nat)
    (vs : list pyval) : list pyval :=
  match update with
  | Some v => write_label labels (labels pos) v vs
  | None => vs
  end.

(** The record of the context file for the year of the row at a
    position. *)
Definition record_at `{Builtins} (yearly_analysis : gmap string year_record)
    (rows : DataFrame) (pos : nat) : option year_record :=
  match cell pos "year" rows with
  | Ret year => yearly_analysis !! py_str year
  | Raise _ => None
  end.

(** No two rows of the table carry the same label. *)
Definition unique_index (df : DataFrame) : Prop :=
  forall p q, (p < nrows df)%nat -> (q < nrows df)%nat ->
    index df p = index df q -> p = q.

(** The names of the four columns the integrator adds. *)
Definition context_columns : list string :=
  ["precip_anomaly_pct"; "precip_classification"; "precip_impact";
   "adjusted_performance"].

(** The closing block of the report. *)
Definition recommendations : string :=
  "
    
    RECOMMENDATIONS:
    ----------------
    1. Focus additional assessment on normal precipitation years for most accurate evaluation
    2. Consider multi-year trends rather than single-year snapshots
    3. Account for lag effects - recovery may be delayed after extreme weather years
    4. Use precipitation-adjusted metrics for regulatory compliance decisions
    ".

(** The three tests that sort the years of the report into buckets. *)
Definition is_dry (a : pynum) : bool := py_lt a (PyInt (-15)).
Definition is_wet (a : pynum) : bool := py_gt a (PyInt 15).
Definition is_normal (a : pynum) : bool := py_ge a (PyInt (-15)) && py_le a (PyInt 15).

(** A number that is a NaN. *)
Definition is_nan_num (a : pynum) : bool :=
  match a with
  | PyInt _ => false
  | PyFloat f => match Prim2SF f with S754_nan => true | _ => false end
  end.

(** [s.split()[0]]: the first run of characters that are not white
    space; [None] stands for the IndexError of a blank string. *)
Definition is_space (c : ascii) : bool :=
  let n := nat_of_ascii c in
  (n =? 32)%nat || ((9 <=? n)%nat && (n <=? 13)%nat) || ((28 <=? n)%nat && (n <=? 31)%nat).

Fixpoint take_word (s : string) : string :=
  match s with
  | EmptyString => EmptyString
  | String c rest => if is_space c then EmptyString else String c (take_word rest)
  end.

Fixpoint first_word (s : string) : option string :=
  match s with
  | EmptyString => None
  | String c rest => if is_space c then first_word rest else Some (take_word s)
  end.

(** The 'Precip' entry of a row of the summary table of
    [create_integrated_visualization]:
    [row['precip_classification'].split()[0] if row['precip_classification'] else 'N/A'] *)
Definition table_class (precip_classification : string) : option string :=
  match precip_classification with
  | EmptyString => Some "N/A"
  | _ => first_word precip_classification
  end.

(** The colour of that entry. *)
Definition facecolor (precip_class : string) : string :=
  if str_contains "Dry" precip_class then "#ffcccc"
  else if str_contains "Wet" precip_class then "#ccccff"
  else "#ccffcc".

(** The table as [add_precipitation_context_to_results] has it before
    its loop: the four columns hold their defaults. *)
Definition blank_context (results_df : DataFrame) : DataFrame :=
  assign_scalar "adjusted_performance" (VFloat 0)
    (assign_scalar "precip_impact" (VStr EmptyString)
       (assign_scalar "precip_classification" (VStr EmptyString)
          (assign_scalar "precip_anomaly_pct" (VFloat 0) results_df))).

(** The number of cells of a column that hold a NaN. *)
Definition nan_cells (vs : list pyval) : nat :=
  length (filter (fun v => match numeric v with
                           | Some a => is_nan_num a
                           | None => false
                           end = true) vs).

(** Membership in a list that is written out. *)
Ltac listed := repeat first [apply list_elem_of_here | apply list_elem_of_further].
Ltac not_listed :=
  let H := fresh in
  intros H; repeat (apply elem_of_cons in H as [H|H]; [discriminate|]);
  now apply elem_of_nil in H.

End IntegrateMore.

Module MoreExamples.
Import Examples.

(** A results table of two years with a difference-in-differences
    column. *)
Definition two_years : Integrate.DataFrame := {|
  Integrate.nrows := 2;
  Integrate.index := Integrate.range_index;
  Integrate.columns :=
    [("year", [VInt 2021; VInt 2022]);
     ("crop", [VStr "Canola"; VStr "Wheat"]);
     ("difference_in_differences", [VFloat (-0.02); VFloat 0.01])]
|}.

(** Two tables put one after the other, each with its own labels
    [0]: both rows carry the label [0]. *)
Definition stacked_years : Integrate.DataFrame := {|
  Integrate.nrows := 2;
  Integrate.index := fun _ => 0;
  Integrate.columns :=
    [("year", [VInt 2021; VInt 2022]);
     ("crop", [VStr "Canola"; VStr "Wheat"])]
|}.

(** A table that lacks the year column. *)
Definition crops_only : Integrate.DataFrame := {|
  Integrate.nrows := 1;
  Integrate.index := Integrate.range_index;
  Integrate.columns := [("crop", [VStr "Canola"])]
|}.

(** [similarity_only] with the precipitation context of [context_2021]. *)
Definition similarity_in_context : Integrate.DataFrame := {|
  Integrate.nrows := 2;
  Integrate.index := Integrate.range_index;
  Integrate.columns :=
    [("year", [VInt 2021; VInt 2022]);
     ("crop", [VStr "Canola"; VStr "Wheat"]);
     ("lease_vs_background", [VFloat 0.9; VFloat 0.8]);
     ("precip_anomaly_pct", [VFloat (-20); VFloat 0]);
     ("precip_classification", [VStr "Dry Season"; VStr EmptyString]);
     ("precip_impact", [VStr "Drought stress likely"; VStr EmptyString]);
     ("adjusted_performance", [VFloat 0; VFloat 0])]
|}.

End MoreExamples.

(* ===================================================================== *)
(** * Theorems *)
(* ===================================================================== *)

(** ** Monthly and seasonal classes *)

Section ClassifierFacts.
Import Precip Examples.

(** A value at or below the 10th percentile is in the driest class. *)
Lemma classify_at_most_p10 x st :
  py_le x (p10 st) = true ->
  classify_precipitation_anomaly x st = "Extremely Dry".
Proof.
  intros H. unfold classify_precipitation_anomaly. now rewrite H.
Qed.

(** The bands are tried in ascending order: a value above one percentile
    and at or below the next is in the band closed by that next one. *)
Lemma classify_band_p25 x st :
  py_le x (p10 st) = false -> py_le x (p25 st) = true ->
  classify_precipitation_anomaly x st = "Dry".
Proof.
  intros H1 H2. unfold classify_precipitation_anomaly. now rewrite H1, H2.
Qed.

Lemma classify_band_p75 x st :
  py_le x (p10 st) = false -> py_le x (p25 st) = false ->
  py_le x (p75 st) = true ->
  classify_precipitation_anomaly x st = "Normal".
Proof.
  intros H1 H2 H3. unfold classify_precipitation_anomaly.
  now rewrite H1, H2, H3.
Qed.

Lemma classify_band_p90 x st :
  py_le x (p10 st) = false -> py_le x (p25 st) = false ->
  py_le x (p75 st) = false -> py_le x (p90 st) = true ->
  classify_precipitation_anomaly x st = "Wet".
Proof.
  intros H1 H2 H3 H4. unfold classify_precipitation_anomaly.
  now rewrite H1, H2, H3, H4.
Qed.

(** C8: with percentiles p10=20, p25=40, p75=100, p90=140 the inputs
    20, 40, 100, 140 and 141 are classified Extremely Dry, Dry, Normal,
    Wet and Extremely Wet: a value equal to a percentile falls into the
    drier of the two classes it separates.  Checked for float and for int
    inputs. *)
Theorem classify_precipitation_anomaly_boundaries :
  classify_precipitation_anomaly (PyFloat 20) example_stats = "Extremely Dry" /\
  classify_precipitation_anomaly (PyFloat 40) example_stats = "Dry" /\
  classify_precipitation_anomaly (PyFloat 100) example_stats = "Normal" /\
  classify_precipitation_anomaly (PyFloat 140) example_stats = "Wet" /\
  classify_precipitation_anomaly (PyFloat 141) example_stats = "Extremely Wet" /\
  classify_precipitation_anomaly (PyInt 20) example_stats = "Extremely Dry" /\
  classify_precipitation_anomaly (PyInt 40) example_stats = "Dry" /\
  classify_precipitation_anomaly (PyInt 100) example_stats = "Normal" /\
  classify_precipitation_anomaly (PyInt 140) example_stats = "Wet" /\
  classify_precipitation_anomaly (PyInt 141) example_stats = "Extremely Wet".
Proof. repeat split; vm_compute; reflexivity. Qed.

(** C2 (amended): the seasonal classifier puts -15 in Dry Season (the
    bound is inclusive), -16 in Dry Season as well, -30 and -31 in
    Extremely Dry Season, +15 in Normal Season, +16 in Wet Season and +31
    in Extremely Wet Season. *)
Theorem classify_seasonal_anomaly_boundaries :
  _classify_seasonal_anomaly (PyFloat (-15)) = "Dry Season" /\
  _classify_seasonal_anomaly (PyFloat (-16)) = "Dry Season" /\
  _classify_seasonal_anomaly (PyFloat (-30)) = "Extremely Dry Season" /\
  _classify_seasonal_anomaly (PyFloat (-31)) = "Extremely Dry Season" /\
  _classify_seasonal_anomaly (PyFloat 15) = "Normal Season" /\
  _classify_seasonal_anomaly (PyFloat 16) = "Wet Season" /\
  _classify_seasonal_anomaly (PyFloat 31) = "Extremely Wet Season".
Proof. repeat split; vm_compute; reflexivity. Qed.

(** C2, as stated: the classifier does not put -16 in Extremely Dry
    Season; that class starts at -30. *)
Lemma classify_seasonal_minus_16_not_extreme :
  _classify_seasonal_anomaly (PyFloat (-16)) <> "Extremely Dry Season" /\
  _classify_seasonal_anomaly (PyInt (-16)) <> "Extremely Dry Season".
Proof. split; vm_compute; discriminate. Qed.

End ClassifierFacts.

(** ** Splitting a text into source lines *)

Section LineFacts.
Import Nb Aux.

Lemma append_String c s t : String c s +:+ t = String c (s +:+ t).
Proof. reflexivity. Qed.

Lemma append_empty_r s : s +:+ EmptyString = s.
Proof. induction s as [|c s IH]; [reflexivity|]. now rewrite append_String, IH. Qed.

Lemma append_assoc s t u : (s +:+ t) +:+ u = s +:+ (t +:+ u).
Proof. induction s as [|c s IH]; [reflexivity|]. now rewrite !append_String, IH. Qed.

Lemma str_split_cons sep s : exists h t, str_split sep s = h :: t.
Proof.
  destruct s as [|c s]; cbn; [eauto|].
  destruct (Ascii.eqb c sep); [eauto|].
  destruct (str_split sep s); eauto.
Qed.

(** No line of a split contains the separator. *)
Lemma str_split_no_sep sep s :
  Forall (fun line => sep ∉ chars line) (str_split sep s).
Proof.
  induction s as [|c s IH]; cbn.
  - repeat constructor. cbn. apply not_elem_of_nil.
  - destruct (Ascii.eqb_spec c sep) as [->|Hne].
    + constructor; [cbn; apply not_elem_of_nil | exact IH].
    + destruct (str_split sep s) as [|h t].
      * repeat constructor. cbn.
        intros [?|[]%not_elem_of_nil]%elem_of_cons. congruence.
      * apply Forall_cons in IH as [Hh Ht]. constructor; [|exact Ht].
        cbn. intros [?|?]%elem_of_cons; [congruence | contradiction].
Qed.

(** Terminating every line but the last puts the text back together. *)
Lemma join_with_terminators s :
  str_join (with_terminators (str_split "010" s)) = s.
Proof.
  induction s as [|c s IH]; [reflexivity|].
  cbn [str_split]. destruct (Ascii.eqb_spec c "010"%char) as [->|Hne].
  - destruct (str_split_cons "010" s) as (h & t & E). rewrite E in *.
    cbn [with_terminators str_join fold_right] in *.
    change (fold_right append EmptyString) with str_join in *.
    now rewrite IH.
  - destruct (str_split_cons "010" s) as (h & t & E). rewrite E in *.
    destruct t as [|h' t].
    + cbn in *. rewrite append_String. now rewrite IH.
    + cbn [with_terminators str_join fold_right] in *.
      rewrite !append_String. now rewrite IH.
Qed.

(** Terminating every line, the last one too, leaves one terminator more
    than the text has. *)
Lemma join_all_terminated s :
  str_join ((fun line => line +:+ nl) <$> str_split "010" s) = s +:+ nl.
Proof.
  induction s as [|c s IH]; [reflexivity|].
  cbn [str_split]. destruct (Ascii.eqb_spec c "010"%char) as [->|Hne].
  - rewrite fmap_cons. cbn [str_join fold_right].
    change (fold_right append EmptyString) with str_join. now rewrite IH.
  - destruct (str_split_cons "010" s) as (h & t & E). rewrite E in *.
    rewrite fmap_cons in *. cbn [str_join fold_right] in *.
    rewrite !append_String. now rewrite IH.
Qed.

Lemma length_append s t :
  String.length (s +:+ t) = (String.length s + String.length t)%nat.
Proof.
  induction s as [|c s IH]; [reflexivity|].
  rewrite append_String. cbn. now rewrite IH.
Qed.

Lemma append_nl_neq s : s +:+ nl <> s.
Proof.
  intros E. apply (f_equal String.length) in E.
  rewrite length_append in E. cbn in E. lia.
Qed.

End LineFacts.

(** ** The cell patched by fix_embeddings.py *)

Section EmbeddingFixFacts.
Import Nb Aux Embeddings.

Lemma terminate_from (done lines : list string) :
  foldl (fun lines i => alter (fun line => line +:+ nl) i lines)
        (done ++ lines) (seq (length done) (length lines - 1))
  = done ++ with_terminators lines.
Proof.
  revert done. induction lines as [|x [|y rest] IH]; intros done; try reflexivity.
  replace (length (x :: y :: rest) - 1)%nat with (S (length (y :: rest) - 1))
    by (cbn; lia).
  cbn [seq foldl].
  replace (alter (fun line => line +:+ nl) (length done) (done ++ x :: y :: rest))
    with ((done ++ [x +:+ nl]) ++ y :: rest).
  - replace (S (length done)) with (length (done ++ [x +:+ nl]))
      by (rewrite length_app; cbn; lia).
    rewrite IH. now rewrite <- app_assoc.
  - rewrite alter_app_r_alt by lia. rewrite Nat.sub_diag.
    now rewrite <- app_assoc.
Qed.

(** The index loop of the script terminates every line but the last. *)
Lemma terminate_all_but_last_eq lines :
  terminate_all_but_last lines = with_terminators lines.
Proof. exact (terminate_from [] lines). Qed.

Lemma with_terminators_lookup lines i line :
  with_terminators lines !! i = Some line ->
  (S i < length lines)%nat ->
  exists body, lines !! i = Some body /\ line = body +:+ nl.
Proof.
  revert i. induction lines as [|x [|y rest] IH]; intros i Hi Hlt.
  - cbn in Hlt. lia.
  - cbn in Hlt. lia.
  - destruct i as [|i].
    + cbn in Hi. injection Hi as <-. eauto.
    + change (with_terminators (y :: rest) !! i = Some line) in Hi.
      apply IH in Hi; [exact Hi | cbn in *; lia].
Qed.

Lemma with_terminators_last lines :
  last (with_terminators lines) = last lines.
Proof.
  induction lines as [|x [|y rest] IH]; try reflexivity.
  change (with_terminators (x :: y :: rest))
    with ((x +:+ nl) :: with_terminators (y :: rest)).
  rewrite (last_cons (x +:+ nl)), (last_cons x (y :: rest)), IH.
  destruct (last (y :: rest)) eqn:E; [reflexivity|].
  apply last_None in E. discriminate.
Qed.

(** The source written by [fix_embeddings]: every line but the last ends
    with a terminator, the last line holds none, and the lines put
    together are the fixed text. *)
Lemma fix_embeddings_lines :
  let lines := terminate_all_but_last (str_split "010" fixed_source) in
  str_join lines = fixed_source /\
  (forall i line, lines !! i = Some line -> (S i < length lines)%nat ->
     terminated line) /\
  (exists final, last lines = Some final /\ "010"%char ∉ chars final).
Proof.
  cbv zeta. rewrite terminate_all_but_last_eq. split; [|split].
  - apply join_with_terminators.
  - intros i line Hi Hlt.
    assert (length (with_terminators (str_split "010" fixed_source))
            = length (str_split "010" fixed_source)) as Hlen.
    { generalize (str_split "010" fixed_source). intros l.
      induction l as [|x [|y rest] IH]; try reflexivity.
      change (S (length (with_terminators (y :: rest))) = S (length (y :: rest))).
      now rewrite IH. }
    rewrite Hlen in Hlt.
    destruct (with_terminators_lookup _ _ _ Hi Hlt) as (body & _ & ->).
    now exists body.
  - rewrite with_terminators_last.
    pose proof (str_split_no_sep "010" fixed_source) as Hall.
    destruct (str_split_cons "010" fixed_source) as (h & t & E).
    rewrite E in *.
    destruct (last (h :: t)) as [final|] eqn:Hlast.
    + exists final. split; [reflexivity|].
      rewrite Forall_forall in Hall. apply Hall.
      rewrite last_lookup in Hlast. eapply list_elem_of_lookup_2, Hlast.
    + apply last_None in Hlast. discriminate.
Qed.

End EmbeddingFixFacts.

(** ** The cells written by fix_notebook_comprehensive.py *)

Section NotebookLineFacts.
Import Nb Aux Notebook Examples.

(** Every line that [cell_lines] produces ends with a terminator, the
    last one included, so the lines put together are the text and one
    terminator more. *)
Lemma cell_lines_terminated code :
  Forall terminated (cell_lines code) /\
  str_join (cell_lines code) = code +:+ nl /\
  str_join (cell_lines code) <> code.
Proof.
  split; [|split].
  - unfold cell_lines. apply Forall_fmap, Forall_forall.
    intros line _. now exists line.
  - apply join_all_terminated.
  - unfold cell_lines. rewrite join_all_terminated. apply append_nl_neq.
Qed.

Lemma fix_notebook_upload_only :
  fst (fix_notebook upload_only)
  = new_cell :: (set_source (cell_lines file_upload_widgets_code) <$> upload_only).
Proof. vm_compute. reflexivity. Qed.

(** C4: on a notebook whose only cell creates the upload widget, the
    comprehensive patcher writes an upload cell (and a widget cell) whose
    final source line ends with a line terminator: the lines put together
    are the fixed text followed by one more terminator, not the fixed
    text. *)
Theorem fix_notebook_terminates_final_line :
  exists widget upload,
    fst (fix_notebook upload_only) = [widget; upload] /\
    source widget = cell_lines widget_setup_code /\
    source upload = cell_lines file_upload_widgets_code /\
    (exists final, last (source upload) = Some final /\ terminated final) /\
    (exists final, last (source widget) = Some final /\ terminated final) /\
    str_join (source upload) = file_upload_widgets_code +:+ nl /\
    str_join (source upload) <> file_upload_widgets_code /\
    str_join (source widget) <> widget_setup_code.
Proof.
  rewrite fix_notebook_upload_only. eexists _, _. split; [reflexivity|].
  cbn [source new_cell set_source].
  assert (forall code, exists final,
            last (cell_lines code) = Some final /\ terminated final) as Hlast.
  { intros code. pose proof (cell_lines_terminated code) as [Hall _].
    destruct (last (cell_lines code)) as [final|] eqn:E.
    - exists final. split; [reflexivity|].
      rewrite Forall_forall in Hall. apply Hall.
      rewrite last_lookup in E. eapply list_elem_of_lookup_2, E.
    - apply last_None in E. unfold cell_lines in E.
      destruct (str_split_cons "010" code) as (h & t & Hs).
      rewrite Hs in E. discriminate. }
  repeat split; try apply Hlast; apply cell_lines_terminated.
Qed.

End NotebookLineFacts.

(** ** Scans over the cells *)

Section ScanFacts.
Import Nb Aux.

Variables (test : nat -> string -> bool) (lines : list string).

Lemma replace_first_cons i c rest :
  fst (replace_first test lines i (c :: rest))
  = if is_code c && test i (str_join (source c))
    then set_source lines c :: rest
    else c :: fst (replace_first test lines (S i) rest).
Proof.
  cbn. destruct (is_code c && test i (str_join (source c))); [reflexivity|].
  now destruct (replace_first test lines (S i) rest).
Qed.

Lemma insert_before_first_cons w i c rest :
  fst (insert_before_first test w i (c :: rest))
  = if is_code c && test i (str_join (source c))
    then w :: c :: rest
    else c :: fst (insert_before_first test w (S i) rest).
Proof.
  cbn. destruct (is_code c && test i (str_join (source c))); [reflexivity|].
  now destruct (insert_before_first test w (S i) rest).
Qed.

Lemma replace_first_length i cells :
  length (fst (replace_first test lines i cells)) = length cells.
Proof.
  revert i. induction cells as [|c rest IH]; intros i; [reflexivity|].
  rewrite replace_first_cons.
  destruct (is_code c && test i (str_join (source c))); cbn; [reflexivity|].
  now rewrite IH.
Qed.

Lemma insert_before_first_length w i cells :
  (length (fst (insert_before_first test w i cells)) <= S (length cells))%nat.
Proof.
  revert i. induction cells as [|c rest IH]; intros i; [cbn; lia|].
  rewrite insert_before_first_cons.
  destruct (is_code c && test i (str_join (source c))); cbn; [lia|].
  specialize (IH (S i)). lia.
Qed.

(** What the insertion scan does: nothing when no code cell passes the
    test, and otherwise one new cell right before the first that does,
    which is the cell a replacement scan with the same test rewrites. *)
Lemma insert_and_replace (test' : nat -> string -> bool) w i cells :
  (forall j s, test' j s = test j s) ->
  (fst (insert_before_first test' w i cells) = cells /\
   snd (insert_before_first test' w i cells) = None) \/
  (exists before c after,
     cells = before ++ c :: after /\
     is_code c = true /\
     fst (insert_before_first test' w i cells) = before ++ w :: c :: after /\
     fst (replace_first test lines i cells) = before ++ set_source lines c :: after).
Proof.
  intros Hext. revert i.
  induction cells as [|c rest IH]; intros i; [left; split; reflexivity|].
  rewrite replace_first_cons. cbn [insert_before_first].
  rewrite Hext.
  destruct (is_code c && test i (str_join (source c))) eqn:E.
  - right. apply andb_true_iff in E as [Hc Ht].
    exists [], c, rest. repeat split; assumption.
  - destruct (IH (S i)) as [[Hf Hs]|(before & c' & after & -> & Hc & Hf & Hr)].
    + left. destruct (insert_before_first test' w (S i) rest).
      cbn in *. now subst.
    + right. exists (c :: before), c', after.
      destruct (insert_before_first test' w (S i) (before ++ c' :: after)).
      cbn in *. subst. repeat split; try assumption. now rewrite Hr.
Qed.

Lemma set_source_source c : set_source (source c) c = c.
Proof. now destruct c. Qed.

Lemma set_source_eq c : set_source lines c = c -> source c = lines.
Proof. intros E. apply (f_equal source) in E. now rewrite <- E. Qed.

(** A scan leaves the notebook settled for itself when its new lines
    still pass its own test. *)
Lemma replace_first_settles i cells :
  (forall j s, test j s = true -> test j (str_join lines) = true) ->
  settled test lines i (fst (replace_first test lines i cells)).
Proof.
  intros Hself. unfold settled. revert i.
  induction cells as [|c rest IH]; intros i; [reflexivity|].
  rewrite replace_first_cons.
  destruct (is_code c && test i (str_join (source c))) eqn:E.
  - apply andb_true_iff in E as [Hc Ht].
    rewrite replace_first_cons. cbn [source set_source].
    change (is_code (set_source lines c)) with (is_code c).
    now rewrite Hc, (Hself _ _ Ht).
  - rewrite replace_first_cons, E. now rewrite IH.
Qed.

(** In a settled notebook the selected cell holds the new lines. *)
Lemma settled_cons i c rest :
  settled test lines i (c :: rest) ->
  (is_code c && test i (str_join (source c)) = true /\ source c = lines) \/
  (is_code c && test i (str_join (source c)) = false /\
   settled test lines (S i) rest).
Proof.
  unfold settled. rewrite replace_first_cons.
  destruct (is_code c && test i (str_join (source c))); intros E.
  - left. split; [reflexivity|]. injection E as E. now apply set_source_eq.
  - right. split; [reflexivity|]. now injection E.
Qed.

Lemma settled_intro_hit i c rest :
  source c = lines -> is_code c && test i (str_join (source c)) = true ->
  settled test lines i (c :: rest).
Proof.
  intros Hs E. unfold settled. rewrite replace_first_cons, E.
  now rewrite <- Hs, set_source_source.
Qed.

Lemma settled_intro_miss i c rest :
  is_code c && test i (str_join (source c)) = false ->
  settled test lines (S i) rest ->
  settled test lines i (c :: rest).
Proof.
  intros E H. unfold settled in *. now rewrite replace_first_cons, E, H.
Qed.

(** Beyond the index bound a scan changes nothing. *)
Lemma settled_out_of_bound marks within i cells :
  (forall j s, test j s = marks s && within j) ->
  (forall j, within (S j) = true -> within j = true) ->
  within i = false ->
  settled test lines i cells.
Proof.
  intros Htest Hdown. revert i.
  induction cells as [|c rest IH]; intros i Hi; [reflexivity|].
  apply settled_intro_miss.
  - rewrite Htest, Hi. now rewrite !andb_false_r.
  - apply IH. destruct (within (S i)) eqn:E; [|reflexivity].
    apply Hdown in E. congruence.
Qed.

(** A settled notebook stays settled when its cells move one place
    down. *)
Lemma settled_shift i cells :
  bounded test -> settled test lines i cells -> settled test lines (S i) cells.
Proof.
  intros (marks & within & Htest & Hdown). revert i.
  induction cells as [|c rest IH]; intros i H; [reflexivity|].
  destruct (within (S i)) eqn:Hin.
  - destruct (settled_cons _ _ _ H) as [[E Hs]|[E Hrest]].
    + apply settled_intro_hit; [exact Hs|].
      rewrite Htest in *. rewrite Hin.
      apply andb_true_iff in E as [Hc E]. apply andb_true_iff in E as [Hm _].
      now rewrite Hc, Hm.
    + apply settled_intro_miss; [|now apply IH].
      rewrite Htest in *. rewrite Hin. rewrite (Hdown _ Hin) in E. exact E.
  - eapply settled_out_of_bound; eassumption.
Qed.

End ScanFacts.

Section TwoScans.
Import Nb Aux.

Variables (testX testY : nat -> string -> bool) (linesX linesY : list string).

(** The lines written by one scan are not selected by the other. *)
Hypothesis X_skips_Y : forall j, testX j (str_join linesY) = false.
Hypothesis Y_skips_X : forall j, testY j (str_join linesX) = false.

(** A notebook settled for one scan stays so under the other scan. *)
Lemma settled_replace_first i cells :
  settled testX linesX i cells ->
  settled testX linesX i (fst (replace_first testY linesY i cells)).
Proof.
  revert i. induction cells as [|c rest IH]; intros i H; [reflexivity|].
  rewrite replace_first_cons.
  destruct (settled_cons _ _ _ _ _ H) as [[E Hs]|[E Hrest]].
  - rewrite Hs, Y_skips_X, andb_false_r.
    apply settled_intro_hit; [exact Hs | exact E].
  - destruct (is_code c && testY i (str_join (source c))) eqn:EY.
    + apply settled_intro_miss; [|exact Hrest].
      cbn [source set_source]. now rewrite X_skips_Y, andb_false_r.
    + apply settled_intro_miss; [exact E | now apply IH].
Qed.

(** ... and under the insertion of a cell that the scan does not
    select. *)
Lemma settled_insert_before_first w i cells :
  bounded testX ->
  (forall j, testX j (str_join (source w)) = false) ->
  settled testX linesX i cells ->
  settled testX linesX i (fst (insert_before_first testY w i cells)).
Proof.
  intros Hb Hw. revert i.
  induction cells as [|c rest IH]; intros i H; [reflexivity|].
  rewrite insert_before_first_cons.
  destruct (is_code c && testY i (str_join (source c))) eqn:EY.
  - apply settled_intro_miss; [now rewrite Hw, andb_false_r|].
    now apply settled_shift.
  - destruct (settled_cons _ _ _ _ _ H) as [[E Hs]|[E Hrest]].
    + apply settled_intro_hit; assumption.
    + apply settled_intro_miss; [exact E | now apply IH].
Qed.

End TwoScans.

(** ** Running fix_notebook again *)

Section SecondRun.
Import Nb Aux Notebook Examples.

Lemma fix_notebook_cells cells :
  fst (fix_notebook cells)
  = scan is_clipping_cell clipping_cell_code
     (scan is_alignment_cell alignment_cell_code
       (scan is_loading_cell loading_cell_code
         (scan is_upload_cell file_upload_widgets_code
           (fst (insert_widget_setup
             (scan is_imports_cell imports_cell_code cells)))))).
Proof.
  unfold fix_notebook, scan.
  destruct (replace_first is_imports_cell _ 0 cells) as [c1 h1]. cbn [fst].
  destruct (insert_widget_setup c1) as [c2 h2]. cbn [fst].
  destruct (replace_first is_upload_cell _ 0 c2) as [c3 h3]. cbn [fst].
  destruct (replace_first is_loading_cell _ 0 c3) as [c4 h4]. cbn [fst].
  destruct (replace_first is_alignment_cell _ 0 c4) as [c5 h5]. cbn [fst].
  destruct (replace_first is_clipping_cell _ 0 c5) as [c6 h6]. reflexivity.
Qed.

(** The tests: only the imports scan looks at the index. *)
Lemma bounded_imports : bounded is_imports_cell.
Proof.
  exists (fun s => str_contains "import geopandas" s && str_contains "import rasterio" s),
         (fun i => (i <? 10)%nat).
  split; [reflexivity|]. intros i H.
  apply Nat.ltb_lt in H. apply Nat.ltb_lt. lia.
Qed.

Lemma bounded_free (marks : string -> bool) : bounded (fun _ s => marks s).
Proof.
  exists marks, (fun _ => true). split; [|reflexivity].
  intros i s. now rewrite andb_true_r.
Qed.

Lemma bounded_upload : bounded is_upload_cell.
Proof. apply (bounded_free (is_upload_cell 0)). Qed.
Lemma bounded_loading : bounded is_loading_cell.
Proof. apply (bounded_free (is_loading_cell 0)). Qed.
Lemma bounded_alignment : bounded is_alignment_cell.
Proof. apply (bounded_free (is_alignment_cell 0)). Qed.
Lemma bounded_clipping : bounded is_clipping_cell.
Proof. apply (bounded_free (is_clipping_cell 0)). Qed.

(** Each fixed text still carries the marks of its own scan ... *)
Lemma imports_self j s :
  is_imports_cell j s = true ->
  is_imports_cell j (str_join (cell_lines imports_cell_code)) = true.
Proof.
  unfold is_imports_cell. intros H. apply andb_true_iff in H as [_ ->].
  vm_compute. reflexivity.
Qed.

Lemma upload_self j s :
  is_upload_cell j s = true ->
  is_upload_cell j (str_join (cell_lines file_upload_widgets_code)) = true.
Proof. by_marks. Qed.
Lemma loading_self j s :
  is_loading_cell j s = true ->
  is_loading_cell j (str_join (cell_lines loading_cell_code)) = true.
Proof. by_marks. Qed.
Lemma alignment_self j s :
  is_alignment_cell j s = true ->
  is_alignment_cell j (str_join (cell_lines alignment_cell_code)) = true.
Proof. by_marks. Qed.
Lemma clipping_self j s :
  is_clipping_cell j s = true ->
  is_clipping_cell j (str_join (cell_lines clipping_cell_code)) = true.
Proof. by_marks. Qed.

(** ... and none of the marks of another scan. *)
Lemma imports_skips :
  other_texts is_imports_cell
    [widget_setup_code; file_upload_widgets_code; loading_cell_code;
     alignment_cell_code; clipping_cell_code].
Proof. intros j. repeat constructor; by_marks. Qed.

Lemma upload_skips :
  other_texts is_upload_cell
    [imports_cell_code; widget_setup_code; loading_cell_code;
     alignment_cell_code; clipping_cell_code].
Proof. intros j. repeat constructor; by_marks. Qed.

Lemma loading_skips :
  other_texts is_loading_cell
    [imports_cell_code; widget_setup_code; file_upload_widgets_code;
     alignment_cell_code; clipping_cell_code].
Proof. intros j. repeat constructor; by_marks. Qed.

Lemma alignment_skips :
  other_texts is_alignment_cell
    [imports_cell_code; widget_setup_code; file_upload_widgets_code;
     loading_cell_code; clipping_cell_code].
Proof. intros j. repeat constructor; by_marks. Qed.

Lemma clipping_skips :
  other_texts is_clipping_cell
    [imports_cell_code; widget_setup_code; file_upload_widgets_code;
     loading_cell_code; alignment_cell_code].
Proof. intros j. repeat constructor; by_marks. Qed.

Lemma skips test codes code :
  other_texts test codes -> code ∈ codes ->
  forall j, test j (str_join (cell_lines code)) = false.
Proof.
  intros H Hin j. specialize (H j). rewrite Forall_forall in H. now apply H.
Qed.

(** After one run the notebook is settled for each of the five scans. *)
Lemma settled_after_run cells :
  let once := fst (fix_notebook cells) in
  settled is_imports_cell (cell_lines imports_cell_code) 0 once /\
  settled is_upload_cell (cell_lines file_upload_widgets_code) 0 once /\
  settled is_loading_cell (cell_lines loading_cell_code) 0 once /\
  settled is_alignment_cell (cell_lines alignment_cell_code) 0 once /\
  settled is_clipping_cell (cell_lines clipping_cell_code) 0 once.
Proof.
  cbv zeta. rewrite fix_notebook_cells. unfold scan.
  repeat split.
  - repeat (apply settled_replace_first;
            [eapply skips; [apply imports_skips | set_solver]
            |first [eapply skips; [apply upload_skips | set_solver]
                   |eapply skips; [apply loading_skips | set_solver]
                   |eapply skips; [apply alignment_skips | set_solver]
                   |eapply skips; [apply clipping_skips | set_solver]] |]).
    apply settled_insert_before_first;
      [apply bounded_imports
      |eapply skips; [apply imports_skips | set_solver] |].
    apply replace_first_settles, imports_self.
  - repeat (apply settled_replace_first;
            [eapply skips; [apply upload_skips | set_solver]
            |first [eapply skips; [apply loading_skips | set_solver]
                   |eapply skips; [apply alignment_skips | set_solver]
                   |eapply skips; [apply clipping_skips | set_solver]] |]).
    apply replace_first_settles, upload_self.
  - repeat (apply settled_replace_first;
            [eapply skips; [apply loading_skips | set_solver]
            |first [eapply skips; [apply alignment_skips | set_solver]
                   |eapply skips; [apply clipping_skips | set_solver]] |]).
    apply replace_first_settles, loading_self.
  - apply settled_replace_first;
      [eapply skips; [apply alignment_skips | set_solver]
      |eapply skips; [apply clipping_skips | set_solver] |].
    apply replace_first_settles, alignment_self.
  - apply replace_first_settles, clipping_self.
Qed.

(** C1 (amended): a run of [fix_notebook] adds at most one cell.  A second
    run leaves every cell of the first run's result as it is - the five
    replaced cells keep their fixed content - and changes the notebook in
    one way only: where the result holds an upload-widgets cell, one more
    widget cell is inserted right before it. *)
Theorem fix_notebook_second_run cells :
  let once := fst (fix_notebook cells) in
  let twice := fst (fix_notebook once) in
  (length once <= S (length cells))%nat /\
  ((twice = once /\ snd (insert_widget_setup once) = None) \/
   (exists before upload after,
      once = before ++ upload :: after /\
      is_code upload = true /\
      source upload = cell_lines file_upload_widgets_code /\
      twice = before ++ new_cell :: upload :: after)).
Proof.
  cbv zeta. split.
  - rewrite fix_notebook_cells. unfold scan. rewrite !replace_first_length.
    etransitivity; [apply insert_before_first_length|].
    now rewrite replace_first_length.
  - pose proof (settled_after_run cells) as (Himp & Hupl & Hload & Halign & Hclip).
    cbv zeta in *. set (once := fst (fix_notebook cells)) in *.
    assert (fst (fix_notebook once) = fst (insert_widget_setup once)) as Htwice.
    { rewrite fix_notebook_cells. unfold scan. rewrite Himp.
      assert (forall test code,
                bounded test ->
                (forall j, test j (str_join (source new_cell)) = false) ->
                settled test (cell_lines code) 0 once ->
                fst (replace_first test (cell_lines code) 0
                       (fst (insert_widget_setup once)))
                = fst (insert_widget_setup once)) as Hkeep.
      { intros test code Hb Hw Hs. unfold insert_widget_setup.
        now apply settled_insert_before_first. }
      rewrite (Hkeep _ _ bounded_upload); [
      | eapply skips; [apply upload_skips | set_solver] | exact Hupl].
      rewrite (Hkeep _ _ bounded_loading); [
      | eapply skips; [apply loading_skips | set_solver] | exact Hload].
      rewrite (Hkeep _ _ bounded_alignment); [
      | eapply skips; [apply alignment_skips | set_solver] | exact Halign].
      rewrite (Hkeep _ _ bounded_clipping); [
      | eapply skips; [apply clipping_skips | set_solver] | exact Hclip].
      reflexivity. }
    rewrite Htwice. unfold insert_widget_setup.
    destruct (insert_and_replace is_upload_cell (cell_lines file_upload_widgets_code)
                (fun i s => is_upload_cell i s && negb false) new_cell 0 once)
      as [[Hf Hs]|(before & c & after & Honce & Hc & Hf & Hr)].
    + intros j s. now rewrite andb_true_r.
    + left. split; assumption.
    + right. exists before, c, after. repeat split; try assumption.
      unfold settled in Hupl. rewrite Hr in Hupl. rewrite Honce in Hupl.
      apply app_inv_head in Hupl. injection Hupl as Hupl.
      now apply set_source_eq.
Qed.

(** C1, as stated: on a notebook whose only cell creates the upload
    widget, the first run inserts a widget cell and the second run inserts
    another one. *)
Lemma fix_notebook_inserts_again :
  let once := fst (fix_notebook upload_only) in
  let twice := fst (fix_notebook once) in
  once = new_cell :: (set_source (cell_lines file_upload_widgets_code) <$> upload_only) /\
  twice = new_cell :: once /\
  length (filter (fun c => source c = source new_cell) twice) = 2%nat /\
  twice <> once.
Proof.
  cbv zeta. rewrite fix_notebook_upload_only.
  assert (fst (fix_notebook
            (new_cell :: (set_source (cell_lines file_upload_widgets_code) <$> upload_only)))
          = new_cell :: new_cell
              :: (set_source (cell_lines file_upload_widgets_code) <$> upload_only)) as E
    by (vm_compute; reflexivity).
  rewrite E. split; [reflexivity|]. split; [reflexivity|]. split.
  - vm_compute. reflexivity.
  - intros E'. apply (f_equal length) in E'. cbn in E'. lia.
Qed.

End SecondRun.

(** ** The functions of the corrected embedding cell *)

Section EmbeddingFacts.
Import Aux Embeddings Examples.
Context `{EE : EarthEngine} `{BI : Builtins}.

Lemma is_finite_zero : is_finite 0 = true.
Proof. reflexivity. Qed.

Lemma res_bind_ret {A B} (a : A) (k : A -> res B) : (Ret a ≫= k) = k a.
Proof. reflexivity. Qed.

(** What the coercion makes of one value. *)
Lemma coerce_band_plain val :
  plain_band val = true ->
  exists x, coerce_band val = Ret x /\ is_finite x = true /\
            (rejected_band val = true -> x = 0%float).
Proof.
  destruct val as [|b|z|f|s|l]; cbn; intros H.
  - exists 0%float. repeat split.
  - exists (if b then 1 else 0)%float. split; [reflexivity|].
    split; [now destruct b | discriminate].
  - exists (float_of_Z z). unfold float_of_int. cbv zeta.
    pose proof H as Hfin. unfold is_finite in H.
    apply andb_true_iff in H as [_ H]. apply negb_true_iff in H. rewrite H.
    repeat split; [exact Hfin | discriminate].
  - exists f. repeat split; [assumption | discriminate].
  - destruct (float_of_str s) as [f|]; cbn.
    + exists f. repeat split; [assumption | discriminate].
    + exists 0%float. repeat split.
  - exists 0%float. repeat split.
Qed.

(** The coercion of a list keeps its length and works value by value. *)
Lemma coerce_all_plain vals :
  forallb plain_band vals = true ->
  exists xs, coerce_all vals = Ret xs /\ length xs = length vals /\
             Forall (fun x => is_finite x = true) xs /\
             (forall i val, vals !! i = Some val -> rejected_band val = true ->
                xs !! i = Some 0%float).
Proof.
  induction vals as [|val rest IH]; intros H.
  - exists []. repeat split; [constructor|]. intros i val Hi. discriminate.
  - cbn in H. apply andb_true_iff in H as [Hval Hrest].
    destruct (coerce_band_plain _ Hval) as (x & Ex & Hx & Hzero).
    destruct (IH Hrest) as (xs & Exs & Hlen & Hfin & Hz).
    exists (x :: xs). cbn [coerce_all]. rewrite Ex. cbn. rewrite Exs. cbn.
    repeat split.
    + now rewrite Hlen.
    + now constructor.
    + intros [|i] v Hi Hv; cbn in *.
      * injection Hi as ->. now rewrite Hzero.
      * eapply Hz; eassumption.
Qed.

Lemma coerce_all_length vals xs :
  coerce_all vals = Ret xs -> length xs = length vals.
Proof.
  revert xs. induction vals as [|val rest IH]; intros xs; cbn.
  - now intros [= <-].
  - destruct (coerce_band val) as [x|e]; cbn; [|discriminate].
    destruct (coerce_all rest) as [xs'|e]; cbn; [|discriminate].
    intros [= <-]. cbn. now rewrite (IH xs').
Qed.

(** What the coercion makes of the pixel count. *)
Lemma count_plain val :
  plain_count val = true ->
  exists n, coerce_count val = Ret n /\ 0 <= n /\
            (rejected_count val = true -> n = 0).
Proof.
  destruct val as [|b|z|f|s|l]; cbn; intros H.
  - exists 0. split; [reflexivity|]. split; [lia | reflexivity].
  - exists (if b then 1 else 0). split; [reflexivity|].
    split; [destruct b; lia | discriminate].
  - exists z. split; [reflexivity|]. split; [lia | discriminate].
  - unfold int_of_float. destruct (Prim2SF f) as [sg|sg| |sg m e]; cbn.
    + exists 0. split; [reflexivity|]. split; [lia | discriminate].
    + discriminate.
    + exists 0. split; [reflexivity|]. split; [lia | reflexivity].
    + destruct sg; [discriminate|].
      eexists. split; [reflexivity|]. split; [|discriminate].
      destruct (0 <=? e) eqn:E.
      * apply Z.leb_le in E. apply Z.mul_nonneg_nonneg; [lia|].
        now apply Z.pow_nonneg.
      * apply Z.shiftr_nonneg. lia.
  - destruct (int_of_str s) as [z|]; cbn.
    + exists z. split; [reflexivity|]. split; [lia | discriminate].
    + exists 0. split; [reflexivity|]. split; [lia | reflexivity].
  - exists 0. split; [reflexivity|]. split; [lia | reflexivity].
Qed.

Lemma band_values_length result : length (band_values result) = 64%nat.
Proof. unfold band_values. now rewrite length_fmap. Qed.

(** The coercions, value by value. *)
Lemma coerce_band_float val x : py_float val = Ret x -> coerce_band val = Ret x.
Proof.
  destruct val; cbn; try discriminate; intros H; try exact H; now rewrite H.
Qed.

Lemma coerce_band_rejected val :
  val = VNone \/ py_float val = Raise TypeError \/ py_float val = Raise ValueError ->
  coerce_band val = Ret 0%float.
Proof.
  intros [->|[H|H]]; [reflexivity|..];
    (destruct val; [reflexivity|..]; unfold coerce_band; now rewrite H).
Qed.

Lemma coerce_all_lookup vals xs i val :
  coerce_all vals = Ret xs -> vals !! i = Some val ->
  exists x, coerce_band val = Ret x /\ xs !! i = Some x.
Proof.
  revert xs i. induction vals as [|v rest IH]; intros xs i H Hi; [discriminate|].
  cbn [coerce_all] in H.
  destruct (coerce_band v) as [x|] eqn:Ex; [|discriminate].
  rewrite res_bind_ret in H.
  destruct (coerce_all rest) as [xs'|] eqn:Exs; [|discriminate].
  rewrite res_bind_ret in H. injection H as <-.
  destruct i as [|i]; cbn in Hi.
  - injection Hi as <-. now exists x.
  - now apply (IH xs' i).
Qed.

Lemma coerce_count_int val n : py_int val = Ret n -> coerce_count val = Ret n.
Proof.
  destruct val; cbn; try discriminate; intros H; try exact H; now rewrite H.
Qed.

Lemma coerce_count_rejected val :
  val = VNone \/ py_int val = Raise TypeError \/ py_int val = Raise ValueError ->
  coerce_count val = Ret 0.
Proof.
  intros [->|[H|H]]; [reflexivity|..];
    (destruct val; [reflexivity|..]; unfold coerce_count; now rewrite H).
Qed.

(** C6 (amended): when every band mean answered by the reduction is
    missing, a finite number, or something [float] rejects, and the count
    is missing, not negative, or something [int] rejects, then
    [get_embeddings] returns exactly 64 finite floats - 0.0 for each band
    that is missing, None or rejected by [float] with a TypeError or
    ValueError, and [float(val)] itself for every other band -, a pixel
    count that is not negative - 0 for a count that is missing, None or
    rejected by [int], and [int(A00_count)] itself otherwise -, and the
    input year. *)
Theorem get_embeddings_plain (geometry : ee_geometry) (yr : Z) (scale : pynum) :
  let result := aef_reduce_region geometry yr scale in
  forallb plain_band (band_values result) = true ->
  plain_count (default (VInt 0) (result !! "A00_count")) = true ->
  exists r,
    get_embeddings geometry yr scale = Ret r /\
    length (embedding r) = 64%nat /\
    Forall (fun x => is_finite x = true) (embedding r) /\
    (forall i val, band_values result !! i = Some val ->
       rejected_band val = true -> embedding r !! i = Some 0%float) /\
    (forall i val, band_values result !! i = Some val ->
       val = VNone \/ py_float val = Raise TypeError \/ py_float val = Raise ValueError ->
       embedding r !! i = Some 0%float) /\
    (forall i val x, band_values result !! i = Some val ->
       py_float val = Ret x -> embedding r !! i = Some x) /\
    0 <= pixel_count r /\
    (result !! "A00_count" = None \/
     rejected_count (default (VInt 0) (result !! "A00_count")) = true ->
     pixel_count r = 0) /\
    (forall val, result !! "A00_count" = Some val ->
       val = VNone \/ py_int val = Raise TypeError \/ py_int val = Raise ValueError ->
       pixel_count r = 0) /\
    (forall val n, result !! "A00_count" = Some val ->
       py_int val = Ret n -> pixel_count r = n) /\
    year r = yr.
Proof.
  cbv zeta. intros Hbands Hcount.
  destruct (coerce_all_plain _ Hbands) as (xs & Exs & Hlen & Hfin & Hzero).
  destruct (count_plain _ Hcount) as (n & En & Hn & Hn0).
  exists {| embedding := xs; pixel_count := n; year := yr |}.
  unfold get_embeddings. fold (band_values (aef_reduce_region geometry yr scale)).
  cbv zeta. rewrite Exs, res_bind_ret, En, res_bind_ret.
  split; [reflexivity|]. cbn [embedding pixel_count year].
  split; [now rewrite Hlen, band_values_length|].
  split; [exact Hfin|]. split; [exact Hzero|].
  split.
  { intros i val Hi Hrej.
    destruct (coerce_all_lookup _ _ _ _ Exs Hi) as (x & Ex & Hx).
    rewrite (coerce_band_rejected _ Hrej) in Ex. now injection Ex as <-. }
  split.
  { intros i val x Hi Hfloat.
    destruct (coerce_all_lookup _ _ _ _ Exs Hi) as (x' & Ex & Hx).
    rewrite (coerce_band_float _ _ Hfloat) in Ex. now injection Ex as <-. }
  split; [exact Hn|].
  split.
  { intros [Habsent|Hrej]; [|now apply Hn0].
    rewrite Habsent in En. cbn in En. now injection En. }
  split.
  { intros val Hval Hrej. rewrite Hval in En. cbn [default from_option id] in En.
    change (coerce_count val = Ret n) in En.
    rewrite (coerce_count_rejected _ Hrej) in En. now injection En. }
  split; [|reflexivity].
  intros val m Hval Hint. rewrite Hval in En.
  change (coerce_count val = Ret n) in En.
  rewrite (coerce_count_int _ _ Hint) in En. now injection En.
Qed.

Lemma gtb_le n m : n <= m -> (n >? m) = false.
Proof. intros H. rewrite Z.gtb_ltb. now apply Z.ltb_ge. Qed.

(** C7: [get_regional_reference] tries the radii radius_km,
    2 x radius_km and max_radius_km in that order and returns at the first
    one whose sample count exceeds 100, with that count and that radius;
    when only the third radius yields 150 samples it returns
    actual_radius = max_radius_km and sample_count = 150; when none of the
    three exceeds 100 it returns 64 zeros, sample_count 0 and
    actual_radius = max_radius_km. *)
Theorem get_regional_reference_radii
    (center : ee_geometry) (crop yr : Z) (radius_km : pynum)
    (sample_pixels : Z) (max_radius_km : pynum) :
  let count radius := aef_sample_count center crop yr radius sample_pixels in
  let means radius := aef_sample_mean center crop yr radius sample_pixels in
  let returned :=
    get_regional_reference center crop yr radius_km sample_pixels max_radius_km in
  let fallback :=
    {| ref_embedding := replicate 64 0%float; sample_count := 0;
       actual_radius := max_radius_km |} in
  match List.find (fun radius => count radius >? 100)
          [radius_km; py_mul radius_km (PyInt 2); max_radius_km] with
  | Some radius =>
      returned = (values ← coerce_all (means radius);
                  Ret {| ref_embedding := values; sample_count := count radius;
                         actual_radius := radius |})
  | None => returned = Ret fallback
  end /\
  (count radius_km <= 100 -> count (py_mul radius_km (PyInt 2)) <= 100 ->
   count max_radius_km = 150 ->
   forall values, coerce_all (means max_radius_km) = Ret values ->
   returned = Ret {| ref_embedding := values; sample_count := 150;
                     actual_radius := max_radius_km |}) /\
  (count radius_km <= 100 -> count (py_mul radius_km (PyInt 2)) <= 100 ->
   count max_radius_km <= 100 ->
   returned = Ret fallback /\ length (ref_embedding fallback) = 64%nat /\
   Forall (fun x => x = 0%float) (ref_embedding fallback)).
Proof.
  cbv zeta. unfold get_regional_reference. cbn [try_radii List.find].
  split; [|split].
  - destruct (aef_sample_count center crop yr radius_km sample_pixels >? 100);
      [reflexivity|].
    destruct (aef_sample_count center crop yr (py_mul radius_km (PyInt 2))
                sample_pixels >? 100); [reflexivity|].
    destruct (aef_sample_count center crop yr max_radius_km sample_pixels >? 100);
      reflexivity.
  - intros H1 H2 H3 values Hvalues.
    rewrite (gtb_le _ _ H1), (gtb_le _ _ H2), H3.
    change (150 >? 100) with true. cbv iota. now rewrite Hvalues.
  - intros H1 H2 H3.
    rewrite (gtb_le _ _ H1), (gtb_le _ _ H2), (gtb_le _ _ H3).
    split; [reflexivity|]. split; [reflexivity|].
    apply Forall_replicate. reflexivity.
Qed.

End EmbeddingFacts.

Section EmbeddingExamples.
Import Aux Embeddings Examples.

Lemma get_embeddings_plain_witness :
  let result := @aef_reduce_region sparse_service tt 2021 (PyInt 10) in
  (forallb (@plain_band no_parsing) (band_values result) = true /\
   @plain_count no_parsing (default (VInt 0) (result !! "A00_count")) = true) /\
  exists r,
    @get_embeddings sparse_service no_parsing tt 2021 (PyInt 10) = Ret r /\
    length (embedding r) = 64%nat /\
    Forall (fun x => is_finite x = true) (embedding r) /\
    (forall i val, band_values result !! i = Some val ->
       @rejected_band no_parsing val = true -> embedding r !! i = Some 0%float) /\
    (forall i val, band_values result !! i = Some val ->
       val = VNone \/ @py_float no_parsing val = Raise TypeError
       \/ @py_float no_parsing val = Raise ValueError ->
       embedding r !! i = Some 0%float) /\
    (forall i val x, band_values result !! i = Some val ->
       @py_float no_parsing val = Ret x -> embedding r !! i = Some x) /\
    0 <= pixel_count r /\
    (result !! "A00_count" = None \/
     @rejected_count no_parsing (default (VInt 0) (result !! "A00_count")) = true ->
     pixel_count r = 0) /\
    (forall val, result !! "A00_count" = Some val ->
       val = VNone \/ @py_int no_parsing val = Raise TypeError
       \/ @py_int no_parsing val = Raise ValueError ->
       pixel_count r = 0) /\
    (forall val n, result !! "A00_count" = Some val ->
       @py_int no_parsing val = Ret n -> pixel_count r = n) /\
    year r = 2021.
Proof.
  cbv zeta.
  assert (forallb (@plain_band no_parsing)
            (band_values (@aef_reduce_region sparse_service tt 2021 (PyInt 10))) = true)
    as H1 by (vm_compute; reflexivity).
  assert (@plain_count no_parsing
            (default (VInt 0)
               (@aef_reduce_region sparse_service tt 2021 (PyInt 10) !! "A00_count"))
          = true) as H2 by (vm_compute; reflexivity).
  split; [split; assumption|].
  exact (@get_embeddings_plain sparse_service no_parsing tt 2021 (PyInt 10) H1 H2).
Defined.

(** C6, as stated: a NaN answered by the reduction for a band is passed
    through [float] unchanged and ends up in the embedding, which is then
    not made of finite values. *)
Lemma get_embeddings_passes_nan :
  exists r x,
    @get_embeddings nan_service no_parsing tt 2021 (PyInt 10) = Ret r /\
    length (embedding r) = 64%nat /\
    embedding r !! 0%nat = Some x /\
    PrimFloat.is_nan x = true /\ is_finite x = false.
Proof.
  assert (@get_embeddings nan_service no_parsing tt 2021 (PyInt 10)
          = Ret {| embedding := nan :: replicate 63 0%float;
                   pixel_count := 12; year := 2021 |}) as E
    by (vm_compute; reflexivity).
  rewrite E. exists {| embedding := nan :: replicate 63 0%float;
                       pixel_count := 12; year := 2021 |}, nan.
  repeat split.
Qed.

Lemma get_regional_reference_radii_witness :
  let count := @aef_sample_count sparse_service tt 147 2021 in
  (count (PyInt 15) 1000 <= 100 /\ count (py_mul (PyInt 15) (PyInt 2)) 1000 <= 100 /\
   count (PyInt 50) 1000 = 150 /\
   @coerce_all no_parsing (@aef_sample_mean sparse_service tt 147 2021 (PyInt 50) 1000)
   = Ret (replicate 64 0.25%float)) /\
  @get_regional_reference sparse_service no_parsing tt 147 2021 (PyInt 15) 1000 (PyInt 50)
  = Ret {| ref_embedding := replicate 64 0.25%float; sample_count := 150;
           actual_radius := PyInt 50 |} /\
  @get_regional_reference empty_service no_parsing tt 147 2021 (PyInt 15) 1000 (PyInt 50)
  = Ret {| ref_embedding := replicate 64 0%float; sample_count := 0;
           actual_radius := PyInt 50 |}.
Proof.
  cbv zeta.
  assert (@aef_sample_count sparse_service tt 147 2021 (PyInt 15) 1000 <= 100) as H1
    by (vm_compute; discriminate).
  assert (@aef_sample_count sparse_service tt 147 2021 (py_mul (PyInt 15) (PyInt 2)) 1000
          <= 100) as H2 by (vm_compute; discriminate).
  assert (@aef_sample_count sparse_service tt 147 2021 (PyInt 50) 1000 = 150) as H3
    by (vm_compute; reflexivity).
  assert (@coerce_all no_parsing
            (@aef_sample_mean sparse_service tt 147 2021 (PyInt 50) 1000)
          = Ret (replicate 64 0.25%float)) as H4 by (vm_compute; reflexivity).
  split; [repeat split; assumption|]. split.
  - exact (proj1 (proj2 (@get_regional_reference_radii sparse_service no_parsing
                           tt 147 2021 (PyInt 15) 1000 (PyInt 50)))
             H1 H2 H3 _ H4).
  - refine (proj1 (proj2 (proj2 (@get_regional_reference_radii empty_service no_parsing
                           tt 147 2021 (PyInt 15) 1000 (PyInt 50))) _ _ _));
      vm_compute; discriminate.
Defined.

End EmbeddingExamples.

(** ** The growing-season table *)

Section SeasonFacts.
Import Aux Precip Examples.
Context `{EE : EarthEngine} `{NP : NumPy} `{BI : Builtins}.

Lemma py_range_4_11 : py_range 4 11 = [4; 5; 6; 7; 8; 9; 10].
Proof. reflexivity. Qed.

(** The dictionary of one year holds one entry per requested month. *)
Lemma extract_fold self yr months (acc : gmap Z month_record) month :
  foldl (fun monthly_data month =>
    if era5_collection_size yr month >? 0
    then <[month := {| precipitation_mm := era5_mean_precip (geometry self) yr month;
                       rec_month_name := calendar_month_name month;
                       rec_year := yr |}]> monthly_data
    else <[month := {| precipitation_mm := None;
                       rec_month_name := calendar_month_name month;
                       rec_year := yr |}]> monthly_data) acc months !! month
  = if decide (month ∈ months) then Some (month_entry self yr month) else acc !! month.
Proof.
  revert acc. induction months as [|m rest IH]; intros acc.
  - cbn. rewrite decide_False; [reflexivity | apply not_elem_of_nil].
  - cbn [foldl]. rewrite IH.
    destruct (decide (month ∈ rest)) as [Hin|Hnotin].
    + rewrite decide_True; [reflexivity | now right].
    + destruct (decide (month = m)) as [->|Hne].
      * rewrite decide_True by left. unfold month_entry.
        destruct (era5_collection_size yr m >? 0); now rewrite lookup_insert_eq.
      * rewrite decide_False by (intros [?|?]%elem_of_cons; contradiction).
        destruct (era5_collection_size yr m >? 0);
          now rewrite lookup_insert_ne by congruence.
Qed.

Lemma extract_lookup self yr month :
  month ∈ py_range 4 11 ->
  extract_monthly_precipitation self yr None !! month
  = Some (month_entry self yr month).
Proof.
  intros Hin. unfold extract_monthly_precipitation. cbn [default].
  rewrite extract_fold. now rewrite decide_True.
Qed.

(** Appending to the list of a month keeps the months of the baseline
    table. *)
Lemma baseline_items_keep (items : list (Z * month_record))
    (baseline_data : gmap Z (list float)) month :
  is_Some (baseline_data !! month) ->
  is_Some (foldl (fun baseline_data '(month, values) =>
             match precipitation_mm values with
             | Some v => alter (fun l => l ++ [v]) month baseline_data
             | None => baseline_data
             end) baseline_data items !! month).
Proof.
  revert baseline_data. induction items as [|[m values] rest IH]; intros bd H.
  - exact H.
  - cbn [foldl]. apply IH.
    destruct (precipitation_mm values); [|exact H].
    now apply lookup_alter_is_Some.
Qed.

Lemma baseline_years_keep self (years : list Z)
    (baseline_data : gmap Z (list float)) month :
  is_Some (baseline_data !! month) ->
  is_Some (foldl (fun baseline_data year =>
             foldl (fun baseline_data '(month, values) =>
               match precipitation_mm values with
               | Some v => alter (fun l => l ++ [v]) month baseline_data
               | None => baseline_data
               end) baseline_data
               (map_to_list (extract_monthly_precipitation self year None)))
             baseline_data years !! month).
Proof.
  revert baseline_data. induction years as [|y rest IH]; intros bd H.
  - exact H.
  - cbn [foldl]. apply IH. now apply baseline_items_keep.
Qed.

(** The computed baseline has statistics for each month from April to
    October, under the month's name, with a mean that is a float or the
    int 0. *)
Lemma baseline_lookup self month :
  month ∈ py_range 4 11 ->
  exists baseline,
    calculate_baseline_statistics self !! month = Some baseline /\
    month_name baseline = calendar_month_name month.
Proof.
  intros Hin. unfold calculate_baseline_statistics. cbv zeta.
  rewrite map_lookup_imap.
  match goal with
  | |- context [foldl ?f ?init ?years] =>
      destruct (baseline_years_keep self years init month) as [vals Hvals]
  end.
  - rewrite py_range_4_11 in *.
    repeat (apply elem_of_cons in Hin as [->|Hin]; [vm_compute; eauto|]).
    now apply elem_of_nil in Hin.
  - rewrite Hvals. cbn [mbind option_bind].
    destruct (0 <? length vals)%nat; eexists; split; reflexivity.
Qed.

(** The loop over the months appends one row per month that both
    dictionaries know. *)
Lemma monthly_rows_fold self yr (stats : gmap Z month_stats) months rows acc :
  Forall2 (row_for self yr stats) months rows ->
  Forall (fun month => month ∈ py_range 4 11) months ->
  foldl (fun results month =>
    match extract_monthly_precipitation self yr None !! month, stats !! month with
    | Some current, Some baseline =>
        results ++ [month_row (precipitation_mm current) baseline]
    | _, _ => results
    end) acc months = acc ++ rows.
Proof.
  intros H. revert acc.
  induction H as [|month r months rows (b & Hb & _ & ->) _ IH]; intros acc Hin.
  - now rewrite app_nil_r.
  - apply Forall_cons in Hin as [Hmonth Hin]. cbn [foldl].
    rewrite (extract_lookup _ _ _ Hmonth), Hb, IH by assumption.
    now rewrite <- app_assoc.
Qed.

Lemma monthly_rows_exist self yr months :
  Forall (fun month => month ∈ py_range 4 11) months ->
  exists rows,
    Forall2 (row_for self yr (calculate_baseline_statistics self)) months rows.
Proof.
  induction months as [|month months IH]; intros Hin.
  - exists []. constructor.
  - apply Forall_cons in Hin as [Hmonth Hin].
    destruct (IH Hin) as (rows & Hrows).
    destruct (baseline_lookup self month Hmonth) as (b & Hb & Hname).
    eexists (_ :: rows). constructor; [|exact Hrows].
    exists b. repeat split; assumption.
Qed.

Lemma month_row_Month current baseline :
  Month (month_row current baseline) = month_name baseline.
Proof.
  unfold month_row. destruct current; [|reflexivity].
  now destruct (py_gt (mean baseline) (PyInt 0)).
Qed.

(** The table: the monthly rows, then the seasonal row. *)
Lemma analyze_growing_season_eq self yr :
  exists rows,
    Forall2 (row_for self yr (calculate_baseline_statistics self))
            (py_range 4 11) rows /\
    analyze_growing_season self yr None = rows ++ [seasonal_summary rows].
Proof.
  assert (Forall (fun month => month ∈ py_range 4 11) (py_range 4 11)) as Hall
    by (apply Forall_forall; auto).
  destruct (monthly_rows_exist self yr _ Hall) as (rows & Hrows).
  exists rows. split; [exact Hrows|].
  unfold analyze_growing_season. cbv zeta.
  now rewrite (monthly_rows_fold _ _ _ _ _ [] Hrows Hall).
Qed.

(** A table of "No Data" rows sums to nothing. *)
Lemma seasonal_summary_no_data rows :
  Forall (fun r => Classification r = "No Data") rows ->
  seasonal_summary rows
  = {| Month := "SEASONAL TOTAL"; Precipitation_mm := PyInt 0;
       Normal_mm := PyInt 0; Anomaly_mm := PyInt 0; Anomaly_pct := PyInt 0;
       Classification := "Normal Season" |}.
Proof.
  intros H. unfold seasonal_summary.
  replace (filter (fun r => Classification r ≠ "No Data") rows) with (@nil row).
  - reflexivity.
  - symmetry. induction H as [|r rows Hr _ IH]; [reflexivity|].
    rewrite filter_cons, decide_False by (intros Hne; now apply Hne).
    exact IH.
Qed.

Lemma seasonal_summary_Month rows : Month (seasonal_summary rows) = "SEASONAL TOTAL".
Proof.
  unfold seasonal_summary.
  now destruct (py_gt (py_sum (Normal_mm <$> filter _ rows)) (PyInt 0)).
Qed.

Lemma rows_without_data self yr stats months rows :
  Forall2 (row_for self yr stats) months rows ->
  (forall month, month ∈ months -> no_current_data self yr month) ->
  Forall (fun r => Classification r = "No Data") rows.
Proof.
  induction 1 as [|m r ms rs (b & _ & _ & ->) _ IH]; intros Hnone;
    constructor.
  - unfold no_current_data in Hnone. rewrite (Hnone m) by left. reflexivity.
  - apply IH. intros month Hin. apply Hnone. now right.
Qed.

(** C5 (amended): [analyze_growing_season(year)] returns eight rows: one
    for each month from April to October, in order, and the seasonal
    total.  A month without current data has the class "No Data" and 0 for
    precipitation and for both anomalies, while its normal is the rounded
    baseline mean where that is positive (0 otherwise).  When no month has
    current data, the seasonal row has 0 for precipitation, normal and both
    anomalies. *)
Theorem analyze_growing_season_rows self yr :
  let rows := analyze_growing_season self yr None in
  length rows = 8%nat /\
  Month <$> rows = ["April"; "May"; "June"; "July"; "August"; "September";
                    "October"; "SEASONAL TOTAL"] /\
  (forall k month r,
     py_range 4 11 !! k = Some month -> rows !! k = Some r ->
     no_current_data self yr month ->
     Classification r = "No Data" /\ Precipitation_mm r = PyInt 0 /\
     Anomaly_mm r = PyInt 0 /\ Anomaly_pct r = PyInt 0 /\
     exists baseline,
       calculate_baseline_statistics self !! month = Some baseline /\
       Normal_mm r = if py_gt (mean baseline) (PyInt 0)
                     then py_round1 (mean baseline) else PyInt 0) /\
  ((forall month, month ∈ py_range 4 11 -> no_current_data self yr month) ->
   exists total,
     rows !! 7%nat = Some total /\ Month total = "SEASONAL TOTAL" /\
     Precipitation_mm total = PyInt 0 /\ Normal_mm total = PyInt 0 /\
     Anomaly_mm total = PyInt 0 /\ Anomaly_pct total = PyInt 0 /\
     Classification total = "Normal Season").
Proof.
  cbv zeta. destruct (analyze_growing_season_eq self yr) as (rows & Hrows & ->).
  pose proof (Forall2_length _ _ _ Hrows) as Hlen.
  rewrite py_range_4_11 in Hlen. cbn in Hlen.
  split; [|split; [|split]].
  - rewrite length_app. cbn. lia.
  - rewrite fmap_app.
    replace (Month <$> rows) with (calendar_month_name <$> py_range 4 11);
      [cbn [fmap list_fmap]; now rewrite seasonal_summary_Month|].
    clear Hlen. induction Hrows as [|m r ms rs (b & _ & Hname & ->) _ IH];
      [reflexivity|].
    rewrite !fmap_cons, IH, month_row_Month. now rewrite Hname.
  - intros k month r Hk Hr Hnone.
    assert (k < length rows)%nat as Hlt
      by (rewrite <- Hlen; apply lookup_lt_Some in Hk;
          now rewrite py_range_4_11 in Hk).
    rewrite lookup_app_l in Hr by exact Hlt.
    destruct (Forall2_lookup_lr _ _ _ _ _ _ Hrows Hk Hr) as (b & Hb & _ & ->).
    unfold no_current_data in Hnone. rewrite Hnone. cbn.
    repeat split. exists b. split; [exact Hb | reflexivity].
  - intros Hnone. eexists. split.
    + rewrite lookup_app_r by lia. rewrite <- Hlen. reflexivity.
    + rewrite seasonal_summary_no_data; [repeat split|].
      eapply rows_without_data; eassumption.
Qed.

End SeasonFacts.

Section SeasonExamples.
Import Aux Precip Examples.

Lemma analyze_growing_season_rows_witness :
  let rows := @analyze_growing_season archive_until_2019 constant_sample no_parsing
                default_analyzer 2021 None in
  (forall month, month ∈ py_range 4 11 ->
     @no_current_data archive_until_2019 default_analyzer 2021 month) /\
  (exists total,
     rows !! 7%nat = Some total /\ Month total = "SEASONAL TOTAL" /\
     Precipitation_mm total = PyInt 0 /\ Normal_mm total = PyInt 0 /\
     Anomaly_mm total = PyInt 0 /\ Anomaly_pct total = PyInt 0 /\
     Classification total = "Normal Season").
Proof.
  cbv zeta.
  assert (forall month, month ∈ py_range 4 11 ->
            @no_current_data archive_until_2019 default_analyzer 2021 month) as H
    by (intros month _; reflexivity).
  split; [exact H|].
  exact (proj2 (proj2 (proj2
           (@analyze_growing_season_rows archive_until_2019 constant_sample
              no_parsing default_analyzer 2021))) H).
Defined.

(** C5, as stated: the row of a month without current data keeps the
    baseline mean as its normal; with a baseline of 50 mm the April row of
    2021 has the class "No Data" and a normal of 50.0, not 0. *)
Lemma no_data_row_keeps_normal :
  exists r,
    @analyze_growing_season archive_until_2019 constant_sample no_parsing
      default_analyzer 2021 None !! 0%nat = Some r /\
    Month r = "April" /\ Classification r = "No Data" /\
    Precipitation_mm r = PyInt 0 /\
    Normal_mm r = PyFloat 50 /\ py_gt (Normal_mm r) (PyInt 0) = true.
Proof.
  eexists. split; [vm_compute; reflexivity|].
  repeat split.
Qed.

End SeasonExamples.

(** ** The precipitation context integrator *)

Section IntegratorFacts.
Import Aux Integrate Examples.
Context `{PD : Pandas} `{BI : Builtins} `{FM : Formatting} `{OS : OperatingSystem}.

(** When the output directory cannot be made, the exception of
    [os.makedirs] leaves the call, and nothing else has happened. *)
Lemma integrate_directory_error results_df output_dir w e :
  os_makedirs output_dir w = Raise e ->
  integrate_precipitation_with_notebook results_df output_dir w = (Raise e, w).
Proof.
  intros H. unfold integrate_precipitation_with_notebook, makedirs. now rewrite H.
Qed.

(** C9: when the output directory has been made (or was there) and
    [output_dir/precipitation_context.json] does not exist, the call
    prints the two lines of the warning, returns the table it was given,
    with no column added, and leaves the files as they were: no CSV, no
    figure and no report is written (only directories are made, by
    [os.makedirs]). *)
Theorem integrate_without_context results_df output_dir w made :
  os_makedirs output_dir w = Ret made ->
  path_exists (output_dir +:+ "/precipitation_context.json")
    {| files := files w; dirs := made; stdout := stdout w |} = false ->
  integrate_precipitation_with_notebook results_df output_dir w
  = (Ret results_df,
     {| files := files w;
        dirs := made;
        stdout := stdout w ++
          ["⚠ Warning: precipitation_context.json not found.";
           "  Please run Precipitation_Context_Analysis.ipynb first to generate precipitation data."] |}).
Proof.
  intros Hmade H. unfold integrate_precipitation_with_notebook, makedirs.
  rewrite Hmade, res_bind_ret. cbv zeta. rewrite H.
  cbn [negb]. unfold print. cbn [files dirs stdout].
  now rewrite <- app_assoc.
Qed.

(** A conditional expression written after the colon of a replacement
    field is read as a format specification, and is not one. *)
Lemma conditional_is_no_format_spec (x : float) :
  format_float ".4f if len(dry_years) > 0 else 'N/A'" x = Raise ValueError /\
  format_float ".4f if len(normal_years) > 0 else 'N/A'" x = Raise ValueError /\
  format_float ".4f if len(wet_years) > 0 else 'N/A'" x = Raise ValueError.
Proof. repeat split. Qed.

Lemma bind_ret_inv {A B} (m : res A) (k : A -> res B) b :
  m ≫= k = Ret b -> exists a, m = Ret a /\ k a = Ret b.
Proof. destruct m as [a|e]; [eauto | discriminate]. Qed.

(** With a difference-in-differences column in the table the report is
    never returned. *)
Lemma generate_enhanced_summary_never_returns results_df summary :
  has_column "difference_in_differences" results_df = true ->
  generate_enhanced_summary results_df <> Ret summary.
Proof.
  intros Hcol H. unfold generate_enhanced_summary in H. rewrite Hcol in H.
  do 9 (apply bind_ret_inv in H as (? & _ & H)).
  apply bind_ret_inv in H as (? & H & _).
  do 3 (apply bind_ret_inv in H as (? & _ & H)).
  apply bind_ret_inv in H as (? & H & _).
  now rewrite (proj1 (conditional_is_no_format_spec _)) in H.
Qed.

(** C3: on a table of one dry year that has the difference-in-differences
    column and the precipitation columns, [generate_enhanced_summary]
    raises a ValueError - the format specification of the dry-years mean is
    not valid - and returns no report. *)
Theorem generate_enhanced_summary_raises :
  generate_enhanced_summary one_dry_year = Raise ValueError /\
  has_column "difference_in_differences" one_dry_year = true /\
  has_column "precip_anomaly_pct" one_dry_year = true.
Proof. repeat split. Qed.

(** The format specifications the report uses elsewhere are accepted. *)
Lemma plain_format_specs (x : float) :
  exists fs1 fs3 fs4,
    format_float ".1f" x = Ret (render_float fs1 x) /\ fs_precision fs1 = Some 1%nat /\
    format_float ".3f" x = Ret (render_float fs3 x) /\ fs_precision fs3 = Some 3%nat /\
    format_float ".4f" x = Ret (render_float fs4 x) /\ fs_precision fs4 = Some 4%nat /\
    fs_type fs4 = Some "f"%char.
Proof. do 3 eexists. repeat split. Qed.

(** *** Columns of a table *)

Lemma has_column_assign name name' v df :
  has_column name' (assign_scalar name v df)
  = has_column name' df || String.eqb name name'.
Proof.
  unfold assign_scalar, has_column at 1. cbn [columns].
  destruct (has_column name df) eqn:Hhas.
  - assert (existsb (fun c => String.eqb (fst c) name')
              ((fun c => if String.eqb (fst c) name
                         then (name, replicate (nrows df) v) else c) <$> columns df)
            = has_column name' df) as ->.
    { unfold has_column. induction (columns df) as [|[n vs] cs IH]; [reflexivity|].
      cbn. rewrite IH. now destruct (String.eqb_spec n name) as [->|Hne]. }
    destruct (String.eqb_spec name name') as [<-|Hne].
    + now rewrite Hhas.
    + now rewrite orb_false_r.
  - rewrite existsb_app. cbn. now rewrite orb_false_r.
Qed.

Lemma column_assign_eq name v df :
  column name (assign_scalar name v df) = Ret (replicate (nrows df) v).
Proof.
  unfold assign_scalar, column. cbn [columns nrows].
  destruct (has_column name df) eqn:Hhas; unfold has_column in Hhas.
  - induction (columns df) as [|[n vs] cs IH]; [discriminate|].
    cbn in *. destruct (String.eqb_spec n name) as [->|Hne]; cbn.
    + now rewrite String.eqb_refl.
    + destruct (String.eqb_spec n name); [contradiction|]. now apply IH.
  - induction (columns df) as [|[n vs] cs IH]; cbn in *.
    + now rewrite String.eqb_refl.
    + apply orb_false_iff in Hhas as [-> Hhas]. now apply IH.
Qed.

Lemma column_assign_ne name name' v df :
  name <> name' ->
  column name' (assign_scalar name v df) = column name' df.
Proof.
  intros Hne. unfold assign_scalar, column. cbn [columns].
  destruct (has_column name df).
  - induction (columns df) as [|[n vs] cs IH]; [reflexivity|].
    cbn. destruct (String.eqb_spec n name) as [->|Hn]; cbn.
    + destruct (String.eqb_spec name name'); [contradiction|]. exact IH.
    + destruct (String.eqb n name'); [reflexivity | exact IH].
  - induction (columns df) as [|[n vs] cs IH]; cbn.
    + now destruct (String.eqb_spec name name').
    + destruct (String.eqb n name'); [reflexivity | exact IH].
Qed.

Lemma has_column_at_set idx name name' v df :
  has_column name' (at_set idx name v df) = has_column name' df.
Proof.
  unfold at_set, has_column. cbn [columns].
  induction (columns df) as [|[n vs] cs IH]; [reflexivity|].
  cbn. rewrite IH. now destruct (String.eqb n name).
Qed.

Lemma column_at_set_ne idx name name' v df :
  name <> name' ->
  column name' (at_set idx name v df) = column name' df.
Proof.
  intros Hne. unfold at_set, column. cbn [columns].
  induction (columns df) as [|[n vs] cs IH]; [reflexivity|].
  cbn. destruct (String.eqb_spec n name) as [->|Hn]; cbn.
  - destruct (String.eqb_spec name name'); [contradiction|]. exact IH.
  - destruct (String.eqb n name'); [reflexivity | exact IH].
Qed.

Lemma length_write_label labels idx v vs :
  length (write_label labels idx v vs) = length vs.
Proof. unfold write_label. apply length_imap. Qed.

Lemma lookup_write_label labels idx v vs p :
  write_label labels idx v vs !! p
  = (fun x => if labels p =? idx then v else x) <$> vs !! p.
Proof. unfold write_label. apply list_lookup_imap. Qed.

Lemma column_at_set_eq idx name v df vs :
  column name df = Ret vs ->
  column name (at_set idx name v df) = Ret (write_label (index df) idx v vs).
Proof.
  unfold at_set, column. cbn [columns].
  induction (columns df) as [|[n ws] cs IH]; [discriminate|].
  cbn. destruct (String.eqb_spec n name) as [->|Hn]; cbn.
  - rewrite String.eqb_refl. now intros [= ->].
  - destruct (String.eqb_spec n name); [contradiction|]. exact IH.
Qed.

Lemma column_well_formed name df :
  well_formed df -> has_column name df = true ->
  exists vs, column name df = Ret vs /\ length vs = nrows df.
Proof.
  unfold well_formed, has_column, column.
  induction (columns df) as [|[n vs] cs IH]; intros Hwf Hhas; [discriminate|].
  apply Forall_cons in Hwf as [Hlen Hwf]. cbn in *.
  destruct (String.eqb n name); cbn; [eauto|]. now apply IH.
Qed.

(** *** The loop over the rows, without a difference-in-differences
    column *)

Lemma add_context_row_unadjusted yearly rows years n acc label idx :
  column "year" rows = Ret years -> length years = n -> (idx < n)%nat ->
  unadjusted n acc ->
  exists out,
    add_context_row yearly rows (Ret acc) (label, idx) = Ret out /\ unadjusted n out.
Proof.
  intros Hyears Hlen Hidx (Hn & Hdid & Hadj & Hcols).
  unfold add_context_row. rewrite res_bind_ret.
  unfold cell. rewrite Hyears, res_bind_ret.
  destruct (lookup_lt_is_Some_2 years idx) as [y Hy]; [lia|]. rewrite Hy.
  rewrite res_bind_ret.
  destruct (yearly !! py_str y) as [year_data|]; [|exists acc; repeat split; assumption].
  cbv zeta. rewrite !has_column_at_set, Hdid.
  eexists. split; [reflexivity|]. repeat split.
  - exact Hn.
  - now rewrite !has_column_at_set.
  - now rewrite !column_at_set_ne by discriminate.
  - apply Forall_cons in Hcols as [(v1 & E1 & L1) Hcols].
    apply Forall_cons in Hcols as [(v2 & E2 & L2) Hcols].
    apply Forall_cons in Hcols as [(v3 & E3 & L3) _].
    repeat constructor.
    + eexists. split.
      * rewrite !column_at_set_ne by discriminate.
        apply column_at_set_eq, E1.
      * now rewrite length_write_label.
    + eexists. split.
      * rewrite column_at_set_ne by discriminate.
        apply column_at_set_eq. rewrite column_at_set_ne by discriminate.
        exact E2.
      * now rewrite length_write_label.
    + eexists. split.
      * apply column_at_set_eq. rewrite !column_at_set_ne by discriminate.
        exact E3.
      * now rewrite length_write_label.
Qed.

Lemma add_context_rows_unadjusted yearly rows years n (idxs : list (Z * nat)) acc :
  column "year" rows = Ret years -> length years = n ->
  Forall (fun row => (snd row < n)%nat) idxs ->
  unadjusted n acc ->
  exists out,
    foldl (add_context_row yearly rows) (Ret acc) idxs = Ret out /\ unadjusted n out.
Proof.
  intros Hyears Hlen Hidxs. revert acc.
  induction Hidxs as [|[label idx] idxs Hidx _ IH]; intros acc Hacc.
  - exists acc. split; [reflexivity | exact Hacc].
  - cbn [foldl].
    destruct (add_context_row_unadjusted yearly rows years n acc label idx
                Hyears Hlen Hidx Hacc) as (mid & -> & Hmid).
    now apply IH.
Qed.

(** C10: on a well-formed table with a year column and no
    difference_in_differences column, and with the context file in place,
    [add_precipitation_context_to_results] returns a table with the four
    columns precip_anomaly_pct, precip_classification, precip_impact and
    adjusted_performance, one value per row each, and adjusted_performance
    is 0.0 in every row, whatever the precipitation records say. *)
Theorem no_did_no_adjustment results_df precipitation_file w yearly :
  files w !! precipitation_file = Some (PrecipContextFile yearly) ->
  well_formed results_df ->
  has_column "year" results_df = true ->
  has_column "difference_in_differences" results_df = false ->
  exists enhanced,
    add_precipitation_context_to_results results_df precipitation_file w
    = Ret enhanced /\
    nrows enhanced = nrows results_df /\
    Forall (fun name => exists vs, column name enhanced = Ret vs /\
                                   length vs = nrows results_df)
      ["precip_anomaly_pct"; "precip_classification"; "precip_impact";
       "adjusted_performance"] /\
    column "adjusted_performance" enhanced
    = Ret (replicate (nrows results_df) (VFloat 0)).
Proof.
  intros Hfile Hwf Hyear Hdid.
  unfold add_precipitation_context_to_results. rewrite Hfile, res_bind_ret.
  cbv zeta.
  destruct (column_well_formed _ _ Hwf Hyear) as (years & Hyears & Hlen).
  match goal with
  | |- context [foldl _ (Ret ?df4) _] => set (table := df4)
  end.
  destruct (add_context_rows_unadjusted yearly table years (nrows results_df)
              (iterrows table) table) as (out & -> & Hout).
  - unfold table. now rewrite !column_assign_ne by discriminate.
  - exact Hlen.
  - apply Forall_forall. intros row Hin. unfold iterrows in Hin.
    apply list_elem_of_fmap in Hin as (pos & -> & Hin).
    apply elem_of_seq in Hin. cbn in *. lia.
  - unfold table. repeat split.
    + rewrite !has_column_assign, Hdid. reflexivity.
    + now rewrite column_assign_eq.
    + repeat constructor.
      * eexists. split.
        -- rewrite !column_assign_ne by discriminate. apply column_assign_eq.
        -- now rewrite length_replicate.
      * eexists. split.
        -- rewrite !column_assign_ne by discriminate. apply column_assign_eq.
        -- now rewrite length_replicate.
      * eexists. split.
        -- rewrite !column_assign_ne by discriminate. apply column_assign_eq.
        -- now rewrite length_replicate.
  - destruct Hout as (Hn & _ & Hadj & Hcols).
    exists out. split; [reflexivity|]. split; [exact Hn|]. split; [|exact Hadj].
    apply Forall_cons in Hcols as [H1 Hcols].
    apply Forall_cons in Hcols as [H2 Hcols].
    apply Forall_cons in Hcols as [H3 _].
    repeat constructor; try assumption.
    eexists. split; [exact Hadj|]. now rewrite length_replicate.
Qed.

End IntegratorFacts.

Section IntegratorExamples.
Import Aux Integrate Examples.

Lemma integrate_without_context_witness :
  (@os_makedirs flat_directories "output_data" empty_world
   = Ret ({["output_data"]} ∪ dirs empty_world) /\
   path_exists ("output_data" +:+ "/precipitation_context.json")
     {| files := files empty_world;
        dirs := {["output_data"]} ∪ dirs empty_world;
        stdout := stdout empty_world |} = false) /\
  @integrate_precipitation_with_notebook first_value no_parsing no_digits
    flat_directories one_dry_year "output_data" empty_world
  = (Ret one_dry_year,
     {| files := files empty_world;
        dirs := {["output_data"]} ∪ dirs empty_world;
        stdout := stdout empty_world ++
          ["⚠ Warning: precipitation_context.json not found.";
           "  Please run Precipitation_Context_Analysis.ipynb first to generate precipitation data."] |}).
Proof.
  assert (@os_makedirs flat_directories "output_data" empty_world
          = Ret ({["output_data"]} ∪ dirs empty_world)) as H1 by reflexivity.
  assert (path_exists ("output_data" +:+ "/precipitation_context.json")
            {| files := files empty_world;
               dirs := {["output_data"]} ∪ dirs empty_world;
               stdout := stdout empty_world |} = false) as H2
    by (vm_compute; reflexivity).
  split; [split; assumption|].
  exact (@integrate_without_context first_value no_parsing no_digits flat_directories
           one_dry_year "output_data" empty_world _ H1 H2).
Defined.

(** A regular file in the place of the output directory: the call raises
    the FileExistsError of [os.makedirs] before it looks for the context
    file. *)
Lemma integrate_directory_is_a_file :
  @integrate_precipitation_with_notebook first_value no_parsing no_digits
    flat_directories one_dry_year "output_data" world_with_file
  = (Raise (FileExistsError "output_data"), world_with_file).
Proof.
  apply (@integrate_directory_error first_value no_parsing no_digits flat_directories).
  vm_compute. reflexivity.
Qed.

Lemma no_did_no_adjustment_witness :
  (files world_with_context !! "output_data/precipitation_context.json"
   = Some (PrecipContextFile context_2021) /\
   well_formed similarity_only /\
   has_column "year" similarity_only = true /\
   has_column "difference_in_differences" similarity_only = false) /\
  exists enhanced,
    @add_precipitation_context_to_results no_parsing similarity_only
      "output_data/precipitation_context.json" world_with_context = Ret enhanced /\
    nrows enhanced = nrows similarity_only /\
    Forall (fun name => exists vs, column name enhanced = Ret vs /\
                                   length vs = nrows similarity_only)
      ["precip_anomaly_pct"; "precip_classification"; "precip_impact";
       "adjusted_performance"] /\
    column "adjusted_performance" enhanced
    = Ret (replicate (nrows similarity_only) (VFloat 0)).
Proof.
  assert (files world_with_context !! "output_data/precipitation_context.json"
          = Some (PrecipContextFile context_2021)) as H1
    by (vm_compute; reflexivity).
  assert (well_formed similarity_only) as H2 by (repeat constructor).
  assert (has_column "year" similarity_only = true) as H3 by reflexivity.
  assert (has_column "difference_in_differences" similarity_only = false) as H4
    by reflexivity.
  split; [repeat split; assumption|].
  exact (@no_did_no_adjustment no_parsing similarity_only
           "output_data/precipitation_context.json" world_with_context
           context_2021 H1 H2 H3 H4).
Defined.

(** The table of the example after the call: the row of 2021 has its
    precipitation record copied in, and its adjusted performance is 0.0 all
    the same. *)
Lemma similarity_only_enhanced :
  @add_precipitation_context_to_results no_parsing similarity_only
    "output_data/precipitation_context.json" world_with_context
  = Ret {| nrows := 2;
           index := range_index;
           columns :=
             [("year", [VInt 2021; VInt 2022]);
              ("crop", [VStr "Canola"; VStr "Wheat"]);
              ("lease_vs_background", [VFloat 0.9; VFloat 0.8]);
              ("precip_anomaly_pct", [VFloat (-20); VFloat 0]);
              ("precip_classification", [VStr "Dry Season"; VStr EmptyString]);
              ("precip_impact", [VStr "Drought stress likely"; VStr EmptyString]);
              ("adjusted_performance", [VFloat 0; VFloat 0])] |}.
Proof. vm_compute. reflexivity. Qed.

End IntegratorExamples.

(** ** More on the scans *)

Section ScanShape.
Import Nb Aux More.

Variables (test : nat -> string -> bool) (lines : list string).

(** What a replacement scan does: nothing when no code cell passes the
    test at its index, and otherwise it rewrites the source of the first
    one that does and leaves every other cell alone. *)
Lemma replace_first_spec i cells :
  (replace_first test lines i cells = (cells, None) /\
   forall k c, cells !! k = Some c ->
     is_code c && test (i + k)%nat (str_join (source c)) = false) \/
  (exists before c after,
     cells = before ++ c :: after /\
     is_code c = true /\
     test (i + length before)%nat (str_join (source c)) = true /\
     (forall k c', before !! k = Some c' ->
        is_code c' && test (i + k)%nat (str_join (source c')) = false) /\
     replace_first test lines i cells
     = (before ++ set_source lines c :: after, Some (i + length before)%nat)).
Proof.
  revert i. induction cells as [|c rest IH]; intros i.
  - left. split; [reflexivity|]. intros k c Hk. discriminate.
  - cbn [replace_first].
    destruct (is_code c && test i (str_join (source c))) eqn:E.
    + right. apply andb_true_iff in E as [Hc Ht].
      exists [], c, rest. cbn [length app]. rewrite Nat.add_0_r.
      repeat split; try assumption. intros k c' Hk. discriminate.
    + destruct (IH (S i)) as [[-> Hnone]|(before & c' & after & -> & Hc & Ht & Hb & ->)].
      * left. split; [reflexivity|]. intros [|k] c' Hk; cbn in Hk.
        -- injection Hk as <-. now rewrite Nat.add_0_r.
        -- rewrite <- Nat.add_succ_comm. now apply Hnone.
      * right. exists (c :: before), c', after. cbn [length app].
        rewrite <- Nat.add_succ_comm in *.
        repeat split; try assumption.
        intros [|k] c'' Hk; cbn in Hk.
        -- injection Hk as <-. now rewrite Nat.add_0_r.
        -- rewrite <- Nat.add_succ_comm. now apply Hb.
Qed.

(** A scan changes sources only: types, metadata, counters, outputs and
    the order of the cells stay. *)
Lemma replace_first_erase i cells :
  erase <$> fst (replace_first test lines i cells) = erase <$> cells.
Proof.
  revert i. induction cells as [|c rest IH]; intros i; [reflexivity|].
  rewrite replace_first_cons.
  destruct (is_code c && test i (str_join (source c))); [reflexivity|].
  rewrite !fmap_cons. now rewrite IH.
Qed.

(** A scan leaves the narrative cells as they are. *)
Lemma replace_first_narrative i cells :
  narrative (fst (replace_first test lines i cells)) = narrative cells.
Proof.
  unfold narrative. revert i.
  induction cells as [|c rest IH]; intros i; [reflexivity|].
  rewrite replace_first_cons.
  destruct (is_code c && test i (str_join (source c))) eqn:E.
  - apply andb_true_iff in E as [Hc _].
    rewrite !filter_cons.
    change (is_code (set_source lines c)) with (is_code c).
    rewrite !decide_False by congruence. reflexivity.
  - rewrite !filter_cons, IH. reflexivity.
Qed.

Lemma insert_before_first_narrative w i cells :
  is_code w = true ->
  narrative (fst (insert_before_first test w i cells)) = narrative cells.
Proof.
  intros Hw. unfold narrative. revert i.
  induction cells as [|c rest IH]; intros i; [reflexivity|].
  rewrite insert_before_first_cons.
  destruct (is_code c && test i (str_join (source c))) eqn:E.
  - rewrite (filter_cons _ w), decide_False by congruence. reflexivity.
  - rewrite !filter_cons, IH. reflexivity.
Qed.

Lemma insert_before_first_erase w i cells :
  erase <$> fst (insert_before_first test w i cells) = erase <$> cells \/
  exists before after,
    erase <$> cells = before ++ after /\
    erase <$> fst (insert_before_first test w i cells) = before ++ erase w :: after.
Proof.
  revert i. induction cells as [|c rest IH]; intros i; [now left|].
  rewrite insert_before_first_cons.
  destruct (is_code c && test i (str_join (source c))).
  - right. exists [], (erase <$> c :: rest). split; reflexivity.
  - destruct (IH (S i)) as [E|(before & after & E1 & E2)].
    + left. rewrite !fmap_cons. now rewrite E.
    + right. exists (erase c :: before), after.
      rewrite !fmap_cons. rewrite E1, E2. split; reflexivity.
Qed.

End ScanShape.

(** ** What fix_embeddings.py changes *)

Section EmbeddingFixShape.
Import Nb Aux More Embeddings.

Lemma patched_source_joins :
  str_join (terminate_all_but_last (str_split "010" fixed_source)) = fixed_source.
Proof. exact (proj1 fix_embeddings_lines). Qed.

(** The corrected text no longer carries the outdated keyword. *)
Lemma fixed_source_is_no_target i : is_target i fixed_source = false.
Proof. vm_compute. reflexivity. Qed.

Lemma no_targets i cells :
  (forall k c, cells !! k = Some c ->
     is_code c && is_target (i + k)%nat (str_join (source c)) = false) ->
  targets cells = [].
Proof.
  unfold targets. induction cells as [|c rest IH]; intros H; [reflexivity|].
  rewrite filter_cons, decide_False.
  - apply IH. intros k c' Hk. apply (H (S k) c' Hk).
  - unfold is_target_cell. pose proof (H 0%nat c eq_refl) as H0.
    change (is_code c && is_target 0 (str_join (source c)) = false) in H0.
    now rewrite H0.
Qed.

(** X1: [fix_embeddings.py] either finds no code cell with both marks and
    leaves the notebook as it is, or rewrites the first such cell - its
    source then reads the corrected text exactly - and leaves every other
    cell, before and after, untouched; the index it reports is that
    cell's. *)
Theorem fix_embeddings_first_match_only cells :
  (fix_embeddings cells = (cells, None) /\ targets cells = []) \/
  (exists before c after patched,
     cells = before ++ c :: after /\
     is_target_cell c = true /\ targets before = [] /\
     fix_embeddings cells = (before ++ patched :: after, Some (length before)) /\
     erase patched = erase c /\
     str_join (source patched) = fixed_source).
Proof.
  unfold fix_embeddings.
  destruct (replace_first_spec is_target
              (terminate_all_but_last (str_split "010" fixed_source)) 0 cells)
    as [[E Hnone]|(before & c & after & -> & Hc & Ht & Hb & E)].
  - left. split; [exact E | exact (no_targets 0 cells Hnone)].
  - right. exists before, c, after. eexists. split; [reflexivity|].
    split; [unfold is_target_cell; now rewrite Hc|].
    split; [|split; [exact E|split; [reflexivity|]]].
    + exact (no_targets 0 before Hb).
    + cbn [source set_source]. apply patched_source_joins.
Qed.

(** X2: a run takes one cell off the list of cells that still hold the
    old function: the rewritten cell does not pass the test any more, and
    the other matching cells are those a later run finds. *)
Theorem fix_embeddings_one_target_less cells :
  length (targets (fst (fix_embeddings cells))) = pred (length (targets cells)).
Proof.
  unfold fix_embeddings.
  destruct (replace_first_spec is_target
              (terminate_all_but_last (str_split "010" fixed_source)) 0 cells)
    as [[-> Hnone]|(before & c & after & -> & Hc & Ht & Hb & ->)].
  - cbn [fst]. now rewrite (no_targets 0 cells Hnone).
  - cbn [fst]. pose proof (no_targets 0 before Hb) as Hbefore.
    assert (is_target_cell c = true) as Hold
      by (unfold is_target_cell; now rewrite Hc).
    assert (is_target_cell
              (set_source (terminate_all_but_last (str_split "010" fixed_source)) c)
            = false) as Hnew.
    { unfold is_target_cell. cbn [source set_source].
      rewrite patched_source_joins, fixed_source_is_no_target.
      apply andb_false_r. }
    unfold targets in *. rewrite !filter_app, Hbefore, !filter_cons.
    destruct (decide (is_target_cell (set_source _ c) = true)) as [H|_];
      [congruence|].
    destruct (decide (is_target_cell c = true)) as [_|H];
      [reflexivity | contradiction].
Qed.

End EmbeddingFixShape.

(** ** What fix_notebook_comprehensive.py changes *)

Section NotebookShape.
Import Nb Aux More Notebook.

Lemma replace_first_snd_cons test lines i c rest :
  snd (replace_first test lines i (c :: rest))
  = if is_code c && test i (str_join (source c))
    then Some i else snd (replace_first test lines (S i) rest).
Proof.
  cbn. destruct (is_code c && test i (str_join (source c))); [reflexivity|].
  now destruct (replace_first test lines (S i) rest).
Qed.

Lemma insert_before_first_snd_cons test w i c rest :
  snd (insert_before_first test w i (c :: rest))
  = if is_code c && test i (str_join (source c))
    then Some i else snd (insert_before_first test w (S i) rest).
Proof.
  cbn. destruct (is_code c && test i (str_join (source c))); [reflexivity|].
  now destruct (insert_before_first test w (S i) rest).
Qed.

(** The notebook grows by one cell exactly when the insertion scan finds
    its cell. *)
Lemma insert_before_first_grows test w i cells :
  length (fst (insert_before_first test w i cells))
  = (length cells
     + match snd (insert_before_first test w i cells) with Some _ => 1 | None => 0 end)%nat.
Proof.
  revert i. induction cells as [|c rest IH]; intros i; [reflexivity|].
  rewrite insert_before_first_cons, insert_before_first_snd_cons.
  destruct (is_code c && test i (str_join (source c))); cbn [length].
  - lia.
  - rewrite IH. lia.
Qed.

(** A replacement scan that runs after an insertion scan with the same
    test finds a cell exactly when the insertion did. *)
Lemma replace_after_insert_hits (marks : string -> bool) test' w lines i j cells :
  (forall k s, test' k s = marks s) ->
  marks (str_join (source w)) = false ->
  is_Some (snd (replace_first (fun _ s => marks s) lines j
                  (fst (insert_before_first test' w i cells))))
  <-> is_Some (snd (insert_before_first test' w i cells)).
Proof.
  intros Hext Hw. revert i j.
  induction cells as [|c rest IH]; intros i j.
  - cbn. reflexivity.
  - rewrite insert_before_first_cons, insert_before_first_snd_cons, Hext.
    destruct (is_code c && marks (str_join (source c))) eqn:E.
    + rewrite replace_first_snd_cons, Hw, andb_false_r.
      rewrite replace_first_snd_cons, E. split; eauto.
    + rewrite replace_first_snd_cons, E. apply IH.
Qed.

Lemma elem_of_record_fix note hit n fixes :
  note ∈ record_fix hit n fixes <-> (is_Some hit /\ note = n) \/ note ∈ fixes.
Proof.
  destruct hit as [k|]; cbn.
  - rewrite elem_of_app, list_elem_of_singleton. split.
    + intros [?|?]; [now right | left; eauto].
    + intros [[_ ?]|?]; [now right | now left].
  - split; [now right|]. intros [[[? [=]] _]|?]. assumption.
Qed.

(** [fix_notebook] as the six scans and the notes they leave. *)
Lemma fix_notebook_eq cells :
  let s1 := replace_first is_imports_cell (cell_lines imports_cell_code) 0 cells in
  let s2 := insert_widget_setup (fst s1) in
  let s3 := replace_first is_upload_cell (cell_lines file_upload_widgets_code) 0 (fst s2) in
  let s4 := replace_first is_loading_cell (cell_lines loading_cell_code) 0 (fst s3) in
  let s5 := replace_first is_alignment_cell (cell_lines alignment_cell_code) 0 (fst s4) in
  let s6 := replace_first is_clipping_cell (cell_lines clipping_cell_code) 0 (fst s5) in
  fix_notebook cells
  = (fst s6,
     record_fix (snd s6) "Updated clipping cell"
       (record_fix (snd s5) "Updated alignment cell"
          (record_fix (snd s4) "Fixed loading cell for both environments"
             (record_fix (snd s3) "Updated file upload widgets"
                (record_fix (snd s2) "Added skip_alignment widget setup"
                   (record_fix (snd s1)
                      "Updated imports cell for environment compatibility" [])))))).
Proof.
  cbv zeta. unfold fix_notebook.
  destruct (replace_first is_imports_cell _ 0 cells) as [c1 h1]. cbn [fst snd].
  destruct (insert_widget_setup c1) as [c2 h2]. cbn [fst snd].
  destruct (replace_first is_upload_cell _ 0 c2) as [c3 h3]. cbn [fst snd].
  destruct (replace_first is_loading_cell _ 0 c3) as [c4 h4]. cbn [fst snd].
  destruct (replace_first is_alignment_cell _ 0 c4) as [c5 h5]. cbn [fst snd].
  destruct (replace_first is_clipping_cell _ 0 c5) as [c6 h6]. reflexivity.
Qed.

(** X3: [fix_notebook] changes sources only.  The cell types, metadata,
    execution counts and outputs of the cells and their order are those of
    the input, with at most one new cell - the widget cell - put in
    between. *)
Theorem fix_notebook_keeps_structure cells :
  let out := fst (fix_notebook cells) in
  erase <$> out = erase <$> cells \/
  exists before after,
    erase <$> cells = before ++ after /\
    erase <$> out = before ++ erase new_cell :: after.
Proof.
  cbv zeta. rewrite fix_notebook_cells. unfold scan.
  rewrite !replace_first_erase. unfold insert_widget_setup.
  destruct (insert_before_first_erase
              (fun i source => is_upload_cell i source && negb false) new_cell 0
              (fst (replace_first is_imports_cell (cell_lines imports_cell_code) 0 cells)))
    as [E|(before & after & E1 & E2)].
  - left. now rewrite E, replace_first_erase.
  - right. exists before, after. rewrite replace_first_erase in E1.
    split; assumption.
Qed.

(** X4: [fix_notebook] never touches a narrative cell: the non-code cells
    of the result are those of the input, with their sources, in the same
    order. *)
Theorem fix_notebook_keeps_narrative cells :
  narrative (fst (fix_notebook cells)) = narrative cells.
Proof.
  rewrite fix_notebook_cells. unfold scan, insert_widget_setup.
  rewrite !replace_first_narrative.
  rewrite insert_before_first_narrative by reflexivity.
  apply replace_first_narrative.
Qed.

(** X5: the notes [fix_notebook] prints come in the fixed order of the
    six fixes; the widget cell is reported exactly when the upload cell is
    reported as updated; and the notebook is one cell longer exactly when
    the widget cell is reported. *)
Theorem fix_notebook_notes cells :
  let out := fix_notebook cells in
  sublist (snd out)
    ["Updated imports cell for environment compatibility";
     "Added skip_alignment widget setup";
     "Updated file upload widgets";
     "Fixed loading cell for both environments";
     "Updated alignment cell";
     "Updated clipping cell"] /\
  ("Added skip_alignment widget setup" ∈ snd out
   <-> "Updated file upload widgets" ∈ snd out) /\
  length (fst out)
  = (length cells
     + if bool_decide ("Added skip_alignment widget setup" ∈ snd out) then 1 else 0)%nat.
Proof.
  cbv zeta. rewrite fix_notebook_eq. cbv zeta. cbn [fst snd].
  set (s1 := replace_first is_imports_cell _ 0 cells).
  set (s2 := insert_widget_setup (fst s1)).
  set (s3 := replace_first is_upload_cell _ 0 (fst s2)).
  set (s4 := replace_first is_loading_cell _ 0 (fst s3)).
  set (s5 := replace_first is_alignment_cell _ 0 (fst s4)).
  set (s6 := replace_first is_clipping_cell _ 0 (fst s5)).
  assert (is_Some (snd s3) <-> is_Some (snd s2)) as Hboth.
  { unfold s3, s2, insert_widget_setup.
    apply (replace_after_insert_hits (is_upload_cell 0)).
    - intros k s. now rewrite andb_true_r.
    - vm_compute. reflexivity. }
  assert (length (fst s6)
          = (length cells + match snd s2 with Some _ => 1 | None => 0 end)%nat) as Hlen.
  { unfold s6, s5, s4, s3. rewrite !replace_first_length.
    unfold s2, insert_widget_setup. rewrite insert_before_first_grows.
    unfold s1. now rewrite replace_first_length. }
  split; [|split].
  - destruct (snd s1), (snd s2), (snd s3), (snd s4), (snd s5), (snd s6);
      cbn; repeat constructor.
  - rewrite !elem_of_record_fix. split.
    + intros [[_ [=]]|[[_ [=]]|[[_ [=]]|[[_ [=]]|[[H2 _]|[[_ [=]]|[]%elem_of_nil]]]]]].
      right. right. right. left. split; [now apply Hboth | reflexivity].
    + intros [[_ [=]]|[[_ [=]]|[[_ [=]]|[[H3 _]|[[_ [=]]|[[_ [=]]|[]%elem_of_nil]]]]]].
      right. right. right. right. left. split; [now apply Hboth | reflexivity].
  - rewrite Hlen. f_equal.
    destruct (snd s2) as [k|] eqn:E2.
    + rewrite bool_decide_eq_true_2; [reflexivity|].
      rewrite !elem_of_record_fix. right. right. right. right. left.
      split; [eauto | reflexivity].
    + rewrite bool_decide_eq_false_2; [reflexivity|].
      rewrite !elem_of_record_fix.
      intros [[_ [=]]|[[_ [=]]|[[_ [=]]|[[_ [=]]|[[[? [=]] _]|[[_ [=]]|[]%elem_of_nil]]]]]].
Qed.

(** X6: the imports scan looks at the first ten cells only: when none of
    them is a code cell with both import marks, no imports fix is
    reported, even if a later cell has the marks. *)
Theorem fix_notebook_imports_bound cells :
  (forall k c, cells !! k = Some c -> (k < 10)%nat -> has_import_marks c = false) ->
  ("Updated imports cell for environment compatibility" ∉ snd (fix_notebook cells)) /\
  replace_first is_imports_cell (cell_lines imports_cell_code) 0 cells = (cells, None).
Proof.
  intros H.
  assert (replace_first is_imports_cell (cell_lines imports_cell_code) 0 cells
          = (cells, None)) as E.
  { destruct (replace_first_spec is_imports_cell (cell_lines imports_cell_code) 0 cells)
      as [[E _]|(before & c & after & -> & Hc & Ht & _ & _)]; [exact E|].
    exfalso. unfold is_imports_cell in Ht. cbn [Nat.add] in Ht.
    apply andb_true_iff in Ht as [Ht Hk]. apply andb_true_iff in Ht as [Hg Hr].
    apply Nat.ltb_lt in Hk.
    specialize (H (length before) c (list_lookup_middle _ _ _ _ eq_refl) Hk).
    unfold has_import_marks in H. now rewrite Hc, Hg, Hr in H. }
  split; [|exact E].
  rewrite fix_notebook_eq. cbv zeta. cbn [snd]. rewrite E. cbn [snd].
  rewrite !elem_of_record_fix.
  intros [[_ [=]]|[[_ [=]]|[[_ [=]]|[[_ [=]]|[[_ [=]]|[[[? [=]] _]|[]%elem_of_nil]]]]]].
Qed.

End NotebookShape.

Section NotebookShapeExamples.
Import Nb Aux More Notebook.

Lemma fix_notebook_imports_bound_witness :
  (forall k c, late_imports !! k = Some c -> (k < 10)%nat -> has_import_marks c = false) /\
  (exists c, late_imports !! 10%nat = Some c /\ has_import_marks c = true) /\
  ("Updated imports cell for environment compatibility" ∉ snd (fix_notebook late_imports)) /\
  replace_first is_imports_cell (cell_lines imports_cell_code) 0 late_imports
  = (late_imports, None).
Proof.
  assert (forall k c, late_imports !! k = Some c -> (k < 10)%nat ->
                      has_import_marks c = false) as H.
  { intros k c Hk Hlt.
    do 10 (destruct k as [|k]; [cbn in Hk; injection Hk as <-; reflexivity|]).
    lia. }
  split; [exact H|]. split; [eexists; split; reflexivity|].
  exact (fix_notebook_imports_bound late_imports H).
Defined.

End NotebookShapeExamples.

(** ** Outcomes of the embedding functions *)

Section EmbeddingOutcomes.
Import Aux Embeddings.
Context `{EE : EarthEngine} `{BI : Builtins}.

Lemma coerce_band_raises val e : coerce_band val = Raise e -> e = OverflowError.
Proof.
  destruct val as [|b|z|f|s|l]; cbn; try discriminate.
  - unfold float_of_int. cbv zeta.
    destruct (PrimFloat.is_infinity (float_of_Z z)); cbn; [|discriminate].
    now intros [= <-].
  - destruct (float_of_str s); discriminate.
Qed.

Lemma coerce_count_raises val e : coerce_count val = Raise e -> e = OverflowError.
Proof.
  destruct val as [|b|z|f|s|l]; cbn; try discriminate.
  - unfold int_of_float. destruct (Prim2SF f); cbn; try discriminate.
    now intros [= <-].
  - destruct (int_of_str s); discriminate.
Qed.

Lemma coerce_all_raises vals e : coerce_all vals = Raise e -> e = OverflowError.
Proof.
  induction vals as [|val rest IH]; cbn; [discriminate|].
  destruct (coerce_band val) as [x|e'] eqn:E; cbn.
  - destruct (coerce_all rest) as [xs|e'']; cbn; [discriminate|].
    intros [= <-]. now apply IH.
  - intros [= <-]. now apply coerce_band_raises in E.
Qed.

(** X7: whatever the reduction answers, [get_embeddings] either returns
    exactly 64 values together with the year it was given, or raises
    OverflowError (an int too large for a float, an infinite count); the
    TypeError and ValueError of the conversions never leave it. *)
Theorem get_embeddings_outcome (geometry : ee_geometry) (yr : Z) (scale : pynum) :
  match get_embeddings geometry yr scale with
  | Ret r => length (embedding r) = 64%nat /\ year r = yr
  | Raise e => e = OverflowError
  end.
Proof.
  unfold get_embeddings. cbv zeta.
  fold (band_values (aef_reduce_region geometry yr scale)).
  destruct (coerce_all (band_values (aef_reduce_region geometry yr scale)))
    as [xs|e] eqn:E; cbn.
  - destruct (coerce_count _) as [n|e] eqn:En; cbn.
    + split; [|reflexivity].
      now rewrite (coerce_all_length _ _ E), band_values_length.
    + now apply coerce_count_raises in En.
  - now apply coerce_all_raises in E.
Qed.

(** X8: a reference returned by [get_regional_reference] is never built
    on 1 to 100 samples: it is the zero fallback (64 zeros, count 0, the
    maximal radius), or it has more than 100 samples, the radius is one of
    the three tried, the count is the one sampled at that radius and the
    embedding has one value per answered mean.  Nothing but OverflowError
    is raised. *)
Theorem get_regional_reference_outcome
    (center : ee_geometry) (crop yr : Z) (radius_km : pynum)
    (sample_pixels : Z) (max_radius_km : pynum) :
  let count radius := aef_sample_count center crop yr radius sample_pixels in
  let means radius := aef_sample_mean center crop yr radius sample_pixels in
  match get_regional_reference center crop yr radius_km sample_pixels max_radius_km with
  | Ret r =>
      (r = {| ref_embedding := replicate 64 0%float; sample_count := 0;
              actual_radius := max_radius_km |} /\
       Forall (fun radius => count radius <= 100)
         [radius_km; py_mul radius_km (PyInt 2); max_radius_km]) \/
      (100 < sample_count r /\
       actual_radius r ∈ [radius_km; py_mul radius_km (PyInt 2); max_radius_km] /\
       sample_count r = count (actual_radius r) /\
       length (ref_embedding r) = length (means (actual_radius r)))
  | Raise e => e = OverflowError
  end.
Proof.
  cbv zeta. unfold get_regional_reference. cbn [try_radii].
  assert (forall radius,
            radius ∈ [radius_km; py_mul radius_km (PyInt 2); max_radius_km] ->
            (aef_sample_count center crop yr radius sample_pixels >? 100) = true ->
            match
              coerce_all (aef_sample_mean center crop yr radius sample_pixels) ≫=
              (fun values =>
                 Ret {| ref_embedding := values;
                        sample_count := aef_sample_count center crop yr radius sample_pixels;
                        actual_radius := radius |})
            with
            | Ret r =>
                (r = {| ref_embedding := replicate 64 0%float; sample_count := 0;
                        actual_radius := max_radius_km |} /\
                 Forall (fun radius =>
                           aef_sample_count center crop yr radius sample_pixels <= 100)
                   [radius_km; py_mul radius_km (PyInt 2); max_radius_km]) \/
                (100 < sample_count r /\
                 actual_radius r ∈ [radius_km; py_mul radius_km (PyInt 2); max_radius_km] /\
                 sample_count r
                 = aef_sample_count center crop yr (actual_radius r) sample_pixels /\
                 length (ref_embedding r)
                 = length (aef_sample_mean center crop yr (actual_radius r) sample_pixels))
            | Raise e => e = OverflowError
            end) as Hhit.
  { intros radius Hin Hgt.
    destruct (coerce_all _) as [values|e] eqn:E; cbn.
    - right. cbn. apply Z.gtb_lt in Hgt.
      repeat split; [lia | exact Hin | now apply coerce_all_length].
    - now apply coerce_all_raises in E. }
  destruct (aef_sample_count center crop yr radius_km sample_pixels >? 100) eqn:E1.
  { apply Hhit; [set_solver | exact E1]. }
  destruct (aef_sample_count center crop yr (py_mul radius_km (PyInt 2)) sample_pixels
            >? 100) eqn:E2.
  { apply Hhit; [set_solver | exact E2]. }
  destruct (aef_sample_count center crop yr max_radius_km sample_pixels >? 100) eqn:E3.
  { apply Hhit; [set_solver | exact E3]. }
  left. split; [reflexivity|].
  rewrite Z.gtb_ltb in E1, E2, E3. apply Z.ltb_ge in E1, E2, E3.
  repeat constructor; assumption.
Qed.

End EmbeddingOutcomes.

(** ** The baseline table and tables over several years *)

Section BaselineFacts.
Import Aux Precip PrecipMore.
Context `{EE : EarthEngine} `{NP : NumPy} `{BI : Builtins}.

(** Walking the entries of one year appends the month's value, if there
    is one, to the month's list, whatever the order of the walk. *)
Lemma baseline_items_fold (items : list (Z * month_record))
    (baseline_data : gmap Z (list float)) month :
  NoDup items.*1 ->
  foldl (fun baseline_data '(month, values) =>
           match precipitation_mm values with
           | Some v => alter (fun l => l ++ [v]) month baseline_data
           | None => baseline_data
           end) baseline_data items !! month
  = match (list_to_map items : gmap Z month_record) !! month ≫= precipitation_mm with
    | Some v => (fun l => l ++ [v]) <$> baseline_data !! month
    | None => baseline_data !! month
    end.
Proof.
  revert baseline_data. induction items as [|[m0 vals] rest IH]; intros bd Hnd.
  - reflexivity.
  - apply NoDup_cons in Hnd as [Hnotin Hnd]. cbn [foldl]. rewrite IH by exact Hnd.
    cbn [list_to_map foldr uncurry]. cbn [fst snd] in *.
    change (foldr _ ∅ rest) with (list_to_map rest : gmap Z month_record).
    destruct (decide (month = m0)) as [->|Hne].
    + rewrite lookup_insert_eq.
      rewrite (not_elem_of_list_to_map_1 _ _ Hnotin). cbn.
      destruct (precipitation_mm vals); [now rewrite lookup_alter_eq | reflexivity].
    + rewrite lookup_insert_ne by congruence.
      destruct (precipitation_mm vals);
        [now rewrite lookup_alter_ne by congruence | reflexivity].
Qed.

Lemma baseline_years_fold self (years : list Z)
    (baseline_data : gmap Z (list float)) month :
  foldl (fun baseline_data year =>
           foldl (fun baseline_data '(month, values) =>
             match precipitation_mm values with
             | Some v => alter (fun l => l ++ [v]) month baseline_data
             | None => baseline_data
             end) baseline_data
             (map_to_list (extract_monthly_precipitation self year None)))
        baseline_data years !! month
  = (fun l => l ++ omap (fun year =>
                 extract_monthly_precipitation self year None !! month
                   ≫= precipitation_mm) years)
      <$> baseline_data !! month.
Proof.
  revert baseline_data. induction years as [|y rest IH]; intros bd.
  - cbn. destruct (bd !! month); cbn; [now rewrite app_nil_r | reflexivity].
  - cbn [foldl]. rewrite IH.
    rewrite baseline_items_fold by apply NoDup_fst_map_to_list.
    rewrite list_to_map_to_list. cbn [omap list_omap].
    destruct (extract_monthly_precipitation self y None !! month ≫= precipitation_mm)
      as [v|]; [|reflexivity].
    destruct (bd !! month) as [l|]; cbn; [|reflexivity].
    now rewrite <- app_assoc.
Qed.

Lemma omap_ext_in {A B} (f g : A -> option B) (l : list A) :
  (forall x, f x = g x) -> omap f l = omap g l.
Proof.
  intros H. induction l as [|x l IH]; [reflexivity|].
  cbn. now rewrite H, IH.
Qed.

(** X9: the baseline table has an entry for the months April to October
    and for no other; the sample behind a month's statistics is made of the
    values the service has for that month over the baseline years, in the
    order of the years, a year without a value being skipped; a month with
    an empty sample gets the int 0 for every statistic. *)
Theorem calculate_baseline_statistics_lookup self month :
  calculate_baseline_statistics self !! month
  = if decide (month ∈ py_range 4 11)
    then Some (month_statistics month (baseline_sample self month))
    else None.
Proof.
  unfold calculate_baseline_statistics. cbv zeta.
  rewrite map_lookup_imap, baseline_years_fold.
  destruct (decide (month ∈ py_range 4 11)) as [Hin|Hnotin].
  - assert ((list_to_map ((fun month => (month, [])) <$> py_range 4 11)
               : gmap Z (list float)) !! month = Some []) as ->.
    { pose proof Hin as Hin'. rewrite py_range_4_11 in Hin'.
      repeat (apply elem_of_cons in Hin' as [->|Hin']; [vm_compute; reflexivity|]).
      now apply elem_of_nil in Hin'. }
    cbn [fmap option_fmap option_map mbind option_bind app].
    rewrite (omap_ext_in _
               (fun year => precipitation_mm (month_entry self year month)))
      by (intros y; now rewrite extract_lookup).
    reflexivity.
  - rewrite not_elem_of_list_to_map_1; [reflexivity|].
    rewrite <- list_fmap_compose.
    intros Hin. apply Hnotin. apply list_elem_of_fmap in Hin as (m & -> & Hm).
    exact Hm.
Qed.

(** The rows of the months, when the table of statistics is given. *)
Lemma supplied_rows_fold self yr (stats : gmap Z month_stats) months acc :
  Forall (fun month => month ∈ py_range 4 11) months ->
  foldl (fun results month =>
    match extract_monthly_precipitation self yr None !! month, stats !! month with
    | Some current, Some baseline =>
        results ++ [month_row (precipitation_mm current) baseline]
    | _, _ => results
    end) acc months
  = acc ++ omap (fun month =>
             month_row (precipitation_mm (month_entry self yr month))
               <$> stats !! month) months.
Proof.
  intros H. revert acc. induction H as [|month months Hmonth _ IH]; intros acc.
  - now rewrite app_nil_r.
  - cbn [foldl omap list_omap]. rewrite (extract_lookup _ _ _ Hmonth), IH.
    destruct (stats !! month); cbn; [now rewrite <- app_assoc | reflexivity].
Qed.

Lemma supplied_rows self yr (stats : gmap Z month_stats) :
  analyze_growing_season self yr (Some stats)
  = monthly_rows self yr stats ++ [seasonal_summary (monthly_rows self yr stats)].
Proof.
  unfold analyze_growing_season. cbv zeta.
  rewrite (supplied_rows_fold self yr stats (py_range 4 11) []);
    [reflexivity | apply Forall_forall; auto].
Qed.

(** X10: with a table of statistics supplied by the caller, a month the
    table has no entry for is left out without a word: the result has one
    row per month from April to October that the table knows, then the
    seasonal row computed from those rows. *)
Theorem analyze_growing_season_supplied self yr (stats : gmap Z month_stats) :
  analyze_growing_season self yr (Some stats)
  = monthly_rows self yr stats ++ [seasonal_summary (monthly_rows self yr stats)] /\
  length (analyze_growing_season self yr (Some stats))
  = S (length (filter (fun month => is_Some (stats !! month)) (py_range 4 11))).
Proof.
  pose proof (supplied_rows self yr stats) as E.
  split; [exact E|]. rewrite E, length_app. cbn [length].
  rewrite Nat.add_1_r. f_equal. unfold monthly_rows.
  induction (py_range 4 11) as [|m ms IH]; [reflexivity|].
  cbn [omap list_omap]. rewrite filter_cons.
  destruct (stats !! m) as [b|]; cbn [fmap option_fmap option_map].
  - rewrite decide_True by eauto. cbn [length]. f_equal. exact IH.
  - rewrite decide_False by (intros [? [=]]). exact IH.
Qed.

(** X11: a value that is not a number is put in the wettest class by both
    classifiers, because every comparison with it is false. *)
Theorem classify_not_a_number (f : float) :
  Prim2SF f = S754_nan ->
  _classify_seasonal_anomaly (PyFloat f) = "Extremely Wet Season" /\
  forall baseline, classify_precipitation_anomaly (PyFloat f) baseline = "Extremely Wet".
Proof.
  intros Hnan.
  assert (forall y, py_le (PyFloat f) y = false) as Hle.
  { intros [z|g]; unfold py_le, py_compare.
    - unfold float_compare_Z. now rewrite Hnan.
    - rewrite FloatAxioms.compare_spec, Hnan. reflexivity. }
  split.
  - unfold _classify_seasonal_anomaly. now rewrite !Hle.
  - intros baseline. unfold classify_precipitation_anomaly. now rewrite !Hle.
Qed.

Lemma monthly_rows_names self yr r :
  r ∈ monthly_rows self yr (calculate_baseline_statistics self) ->
  Month r <> "SEASONAL TOTAL".
Proof.
  unfold monthly_rows. intros Hin.
  apply list_elem_of_omap in Hin as (month & Hmonth & Hr).
  destruct (baseline_lookup self month Hmonth) as (b & Hb & Hname).
  rewrite Hb in Hr. cbn in Hr. injection Hr as <-.
  rewrite month_row_Month, Hname.
  rewrite py_range_4_11 in Hmonth.
  repeat (apply elem_of_cons in Hmonth as [->|Hmonth]; [discriminate|]).
  now apply elem_of_nil in Hmonth.
Qed.

Lemma seasonal_total_row_last rows s :
  Month s = "SEASONAL TOTAL" ->
  (forall r, r ∈ rows -> Month r <> "SEASONAL TOTAL") ->
  seasonal_total_row (rows ++ [s]) = Some s.
Proof.
  intros Hs Hrows. unfold seasonal_total_row. rewrite filter_app.
  replace (filter (fun r => Month r = "SEASONAL TOTAL") rows) with (@nil row).
  - rewrite filter_cons, decide_True by exact Hs. reflexivity.
  - symmetry. induction rows as [|r rows IH]; [reflexivity|].
    rewrite filter_cons, decide_False by (apply Hrows; left).
    apply IH. intros r' Hr'. apply Hrows. now right.
Qed.

Lemma seasonal_total_row_some rows s :
  Month s = "SEASONAL TOTAL" -> is_Some (seasonal_total_row (rows ++ [s])).
Proof.
  intros Hs. unfold seasonal_total_row. rewrite filter_app.
  rewrite (filter_cons _ s), decide_True by exact Hs.
  destruct (filter _ rows); cbn; eauto.
Qed.

(** X12: [compare_multiple_years] returns one row per requested year, in
    the order of the request, and never fails to find a seasonal row; with
    the baseline it computes itself, the row of a year carries the total,
    normal, percent anomaly and class of that year's seasonal summary. *)
Theorem compare_multiple_years_rows self years baseline_stats :
  exists results,
    compare_multiple_years self years baseline_stats = Some results /\
    Year <$> results = years /\
    (baseline_stats = None ->
     results
     = (fun year =>
          summary_of year
            (seasonal_summary
               (monthly_rows self year (calculate_baseline_statistics self))))
         <$> years).
Proof.
  unfold compare_multiple_years. cbv zeta.
  set (stats := match baseline_stats with
                | Some given => given
                | None => calculate_baseline_statistics self
                end).
  assert (forall acc,
            exists results,
              foldl (fun results year =>
                results ← results;
                season_row ← seasonal_total_row
                               (analyze_growing_season self year (Some stats));
                Some (results ++
                      [{| Year := year;
                          Total_Precip_mm := Precipitation_mm season_row;
                          Season_Normal_mm := Normal_mm season_row;
                          Season_Anomaly_pct := Anomaly_pct season_row;
                          Season_Classification := Classification season_row |}]))
                (Some acc) years = Some (acc ++ results) /\
              Year <$> results = years /\
              (baseline_stats = None ->
               results
               = (fun year =>
                    summary_of year
                      (seasonal_summary
                         (monthly_rows self year (calculate_baseline_statistics self))))
                   <$> years)) as H.
  { induction years as [|y ys IH]; intros acc.
    - exists []. rewrite app_nil_r. repeat split.
    - cbn [foldl]. cbn [mbind option_bind].
      rewrite (supplied_rows self y stats).
      destruct (seasonal_total_row_some (monthly_rows self y stats)
                  (seasonal_summary (monthly_rows self y stats))
                  (seasonal_summary_Month _)) as [s Hs].
      rewrite Hs. cbn [mbind option_bind].
      destruct (IH (acc ++ [summary_of y s])) as (results & E & Hyears & Hcomputed).
      unfold summary_of in E at 1. rewrite E.
      exists (summary_of y s :: results). split; [now rewrite <- app_assoc|].
      split; [cbn; now rewrite Hyears|].
      intros Hnone. rewrite fmap_cons, <- (Hcomputed Hnone). f_equal. f_equal.
      unfold stats in Hs. rewrite Hnone in Hs.
      rewrite seasonal_total_row_last in Hs.
      + now injection Hs.
      + apply seasonal_summary_Month.
      + intros r. apply monthly_rows_names. }
  destruct (H []) as (results & E & Hyears & Hcomputed).
  exists results. split; [exact E|]. split; assumption.
Qed.

End BaselineFacts.

Section BaselineExamples.
Import Aux Precip PrecipMore Examples.

Lemma classify_not_a_number_witness :
  Prim2SF nan = S754_nan /\
  _classify_seasonal_anomaly (PyFloat nan) = "Extremely Wet Season" /\
  forall baseline, classify_precipitation_anomaly (PyFloat nan) baseline = "Extremely Wet".
Proof.
  assert (Prim2SF nan = S754_nan) as H by reflexivity.
  split; [exact H|]. exact (classify_not_a_number nan H).
Defined.

Lemma compare_multiple_years_rows_witness :
  exists results,
    @compare_multiple_years archive_until_2019 constant_sample no_parsing
      default_analyzer [2021; 2015; 2021] None = Some results /\
    Year <$> results = [2021; 2015; 2021] /\
    (@None (gmap Z month_stats) = None ->
     results
     = (fun year =>
          summary_of year
            (@seasonal_summary no_parsing
               (@monthly_rows archive_until_2019 no_parsing default_analyzer year
                  (@calculate_baseline_statistics archive_until_2019 constant_sample
                     default_analyzer))))
         <$> [2021; 2015; 2021]).
Proof.
  exact (@compare_multiple_years_rows archive_until_2019 constant_sample no_parsing
           default_analyzer [2021; 2015; 2021] None).
Defined.

End BaselineExamples.

(** ** Row by row through the integrator *)

Section IntegratorRows.
Import Aux Integrate IntegrateMore.
Context `{BI : Builtins}.

Lemma add_context_rows_raise yearly rows e idxs :
  foldl (add_context_row yearly rows) (Raise e) idxs = Raise e.
Proof. induction idxs as [|[label pos] idxs IH]; [reflexivity | exact IH]. Qed.

Lemma column_missing name df :
  has_column name df = false -> column name df = Raise (KeyError name).
Proof.
  unfold has_column, column.
  induction (columns df) as [|[n vs] cs IH]; [reflexivity|].
  cbn. destruct (String.eqb n name); [discriminate | exact IH].
Qed.

Lemma column_present name df :
  has_column name df = true -> exists vs, column name df = Ret vs.
Proof.
  unfold has_column, column.
  induction (columns df) as [|[n vs] cs IH]; [discriminate|].
  cbn. destruct (String.eqb n name); cbn; [eauto | exact IH].
Qed.

Lemma has_column_step yearly rows acc idx name :
  has_column name (context_step yearly rows acc idx) = has_column name acc.
Proof.
  unfold context_step. destruct (cell idx "year" rows) as [y|]; [|reflexivity].
  destruct (yearly !! py_str y) as [yd|]; [|reflexivity]. cbv zeta.
  destruct (has_column "difference_in_differences" _); [|now rewrite !has_column_at_set].
  destruct (did_at rows idx); now rewrite !has_column_at_set.
Qed.

Lemma nrows_step yearly rows acc idx :
  nrows (context_step yearly rows acc idx) = nrows acc.
Proof.
  unfold context_step. destruct (cell idx "year" rows) as [y|]; [|reflexivity].
  destruct (yearly !! py_str y) as [yd|]; [|reflexivity]. cbv zeta.
  destruct (has_column "difference_in_differences" _); [|reflexivity].
  now destruct (did_at rows idx).
Qed.

Lemma index_step yearly rows acc idx :
  index (context_step yearly rows acc idx) = index acc.
Proof.
  unfold context_step. destruct (cell idx "year" rows) as [y|]; [|reflexivity].
  destruct (yearly !! py_str y) as [yd|]; [|reflexivity]. cbv zeta.
  destruct (has_column "difference_in_differences" _); [|reflexivity].
  now destruct (did_at rows idx).
Qed.

(** A turn of the loop leaves the columns it does not own alone. *)
Lemma column_step_other yearly rows acc idx name :
  name ∉ context_columns ->
  column name (context_step yearly rows acc idx) = column name acc.
Proof.
  intros Hname. unfold context_columns in Hname.
  assert ("precip_anomaly_pct" <> name /\ "precip_classification" <> name /\
          "precip_impact" <> name /\ "adjusted_performance" <> name)
    as (H1 & H2 & H3 & H4).
  { repeat split; intros <-; apply Hname; listed. }
  unfold context_step. destruct (cell idx "year" rows) as [y|]; [|reflexivity].
  destruct (yearly !! py_str y) as [yd|]; [|reflexivity]. cbv zeta.
  destruct (has_column "difference_in_differences" _);
    [destruct (did_at rows idx)|]; now rewrite ?column_at_set_ne by assumption.
Qed.

(** What a turn of the loop writes into each of its four columns. *)
Lemma column_step_anomaly yearly rows acc idx vs :
  index acc = index rows ->
  column "precip_anomaly_pct" acc = Ret vs ->
  column "precip_anomaly_pct" (context_step yearly rows acc idx)
  = Ret (write_at (index rows)
           ((fun yd => of_num (anomaly_percent yd)) <$> record_at yearly rows idx)
           idx vs).
Proof.
  intros Hidx Hvs. unfold context_step, record_at.
  destruct (cell idx "year" rows) as [y|]; [|exact Hvs].
  destruct (yearly !! py_str y) as [yd|]; [|exact Hvs]. cbv zeta.
  assert (column "precip_anomaly_pct"
            (at_set (index rows idx) "precip_impact" (VStr (vegetation_impact yd))
               (at_set (index rows idx) "precip_classification"
                  (VStr (classification yd))
                  (at_set (index rows idx) "precip_anomaly_pct"
                     (of_num (anomaly_percent yd)) acc)))
          = Ret (write_label (index rows) (index rows idx)
                   (of_num (anomaly_percent yd)) vs)) as E.
  { rewrite !column_at_set_ne by discriminate.
    rewrite (column_at_set_eq _ _ _ _ _ Hvs). now rewrite Hidx. }
  destruct (has_column "difference_in_differences" _); [|exact E].
  destruct (did_at rows idx); [|exact E].
  now rewrite column_at_set_ne by discriminate.
Qed.

Lemma column_step_class yearly rows acc idx vs :
  index acc = index rows ->
  column "precip_classification" acc = Ret vs ->
  column "precip_classification" (context_step yearly rows acc idx)
  = Ret (write_at (index rows)
           ((fun yd => VStr (classification yd)) <$> record_at yearly rows idx)
           idx vs).
Proof.
  intros Hidx Hvs. unfold context_step, record_at.
  destruct (cell idx "year" rows) as [y|]; [|exact Hvs].
  destruct (yearly !! py_str y) as [yd|]; [|exact Hvs]. cbv zeta.
  assert (column "precip_classification"
            (at_set (index rows idx) "precip_impact" (VStr (vegetation_impact yd))
               (at_set (index rows idx) "precip_classification"
                  (VStr (classification yd))
                  (at_set (index rows idx) "precip_anomaly_pct"
                     (of_num (anomaly_percent yd)) acc)))
          = Ret (write_label (index rows) (index rows idx)
                   (VStr (classification yd)) vs)) as E.
  { rewrite column_at_set_ne by discriminate.
    erewrite column_at_set_eq;
      [|rewrite column_at_set_ne by discriminate; exact Hvs].
    cbn [index at_set]. now rewrite Hidx. }
  destruct (has_column "difference_in_differences" _); [|exact E].
  destruct (did_at rows idx); [|exact E].
  now rewrite column_at_set_ne by discriminate.
Qed.

Lemma column_step_impact yearly rows acc idx vs :
  index acc = index rows ->
  column "precip_impact" acc = Ret vs ->
  column "precip_impact" (context_step yearly rows acc idx)
  = Ret (write_at (index rows)
           ((fun yd => VStr (vegetation_impact yd)) <$> record_at yearly rows idx)
           idx vs).
Proof.
  intros Hidx Hvs. unfold context_step, record_at.
  destruct (cell idx "year" rows) as [y|]; [|exact Hvs].
  destruct (yearly !! py_str y) as [yd|]; [|exact Hvs]. cbv zeta.
  assert (column "precip_impact"
            (at_set (index rows idx) "precip_impact" (VStr (vegetation_impact yd))
               (at_set (index rows idx) "precip_classification"
                  (VStr (classification yd))
                  (at_set (index rows idx) "precip_anomaly_pct"
                     (of_num (anomaly_percent yd)) acc)))
          = Ret (write_label (index rows) (index rows idx)
                   (VStr (vegetation_impact yd)) vs)) as E.
  { erewrite column_at_set_eq;
      [|rewrite !column_at_set_ne by discriminate; exact Hvs].
    cbn [index at_set]. now rewrite Hidx. }
  destruct (has_column "difference_in_differences" _); [|exact E].
  destruct (did_at rows idx); [|exact E].
  now rewrite column_at_set_ne by discriminate.
Qed.

Lemma column_step_adjusted yearly rows acc idx vs :
  index acc = index rows ->
  column "adjusted_performance" acc = Ret vs ->
  column "adjusted_performance" (context_step yearly rows acc idx)
  = Ret (write_at (index rows)
           (yd ← record_at yearly rows idx;
            if has_column "difference_in_differences" acc
            then (fun x => of_num (py_add x (PyFloat (adjustment_factor yd))))
                   <$> did_at rows idx
            else None)
           idx vs).
Proof.
  intros Hidx Hvs. unfold context_step, record_at.
  destruct (cell idx "year" rows) as [y|]; [|exact Hvs].
  destruct (yearly !! py_str y) as [yd|]; [|exact Hvs]. cbv zeta.
  rewrite !has_column_at_set. cbn [mbind option_bind].
  destruct (has_column "difference_in_differences" acc);
    [|now rewrite !column_at_set_ne by discriminate].
  destruct (did_at rows idx) as [x|]; cbn.
  - erewrite column_at_set_eq;
      [|rewrite !column_at_set_ne by discriminate; exact Hvs].
    cbn [index at_set]. now rewrite Hidx.
  - now rewrite !column_at_set_ne by discriminate.
Qed.

End IntegratorRows.

Section IntegratorLoop.
Import Aux Integrate IntegrateMore.
Context `{BI : Builtins}.

Lemma cell_of_column idx name df vs v :
  column name df = Ret vs -> vs !! idx = Some v -> cell idx name df = Ret v.
Proof. intros Hc Hv. unfold cell. now rewrite Hc, res_bind_ret, Hv. Qed.

Lemma did_at_cell rows idx x :
  did_at rows idx = Some x ->
  exists d, cell idx "difference_in_differences" rows = Ret d /\ as_num d = Ret x.
Proof.
  unfold did_at. destruct (column "difference_in_differences" rows) as [ds|] eqn:E;
    [|discriminate].
  destruct (ds !! idx) as [d|] eqn:Hd; [|discriminate]. cbn. unfold numeric.
  destruct (as_num d) as [x'|] eqn:Hx; [|discriminate]. intros [= <-].
  exists d. split; [now apply (cell_of_column _ _ _ ds) | exact Hx].
Qed.

(** On rows that can be read, a turn of the loop is [context_step]. *)
Lemma add_context_row_step yearly rows acc idx year :
  cell idx "year" rows = Ret year ->
  (has_column "difference_in_differences" acc = true -> is_Some (did_at rows idx)) ->
  add_context_row yearly rows (Ret acc) (index rows idx, idx)
  = Ret (context_step yearly rows acc idx).
Proof.
  intros Hyear Hdid. unfold add_context_row, context_step.
  rewrite res_bind_ret, Hyear, res_bind_ret.
  destruct (yearly !! py_str year) as [yd|]; [|reflexivity]. cbv zeta.
  rewrite !has_column_at_set.
  destruct (has_column "difference_in_differences" acc); [|reflexivity].
  destruct (Hdid eq_refl) as [x Hx]. rewrite Hx.
  destruct (did_at_cell _ _ _ Hx) as (d & -> & Hd).
  now rewrite res_bind_ret, Hd, res_bind_ret.
Qed.

Lemma add_context_rows_steps yearly rows idxs acc :
  Forall (fun idx => exists year, cell idx "year" rows = Ret year) idxs ->
  (has_column "difference_in_differences" acc = true ->
   Forall (fun idx => is_Some (did_at rows idx)) idxs) ->
  foldl (add_context_row yearly rows) (Ret acc)
    ((fun pos => (index rows pos, pos)) <$> idxs)
  = Ret (foldl (context_step yearly rows) acc idxs).
Proof.
  intros Hyears. revert acc.
  induction Hyears as [|idx idxs [year Hyear] _ IH]; intros acc Hdid; [reflexivity|].
  rewrite fmap_cons. cbn [foldl]. rewrite (add_context_row_step _ _ _ _ year Hyear).
  - apply IH. rewrite has_column_step. intros H.
    now apply Forall_cons in Hdid as [_ Hdid].
  - intros H. now apply Forall_cons in Hdid as [Hdid _].
Qed.

Lemma steps_keep yearly rows idxs acc :
  nrows (foldl (context_step yearly rows) acc idxs) = nrows acc /\
  index (foldl (context_step yearly rows) acc idxs) = index acc /\
  (forall name, has_column name (foldl (context_step yearly rows) acc idxs)
                = has_column name acc) /\
  (forall name, name ∉ context_columns ->
     column name (foldl (context_step yearly rows) acc idxs) = column name acc).
Proof.
  revert acc. induction idxs as [|idx idxs IH]; intros acc; [repeat split|].
  cbn [foldl].
  destruct (IH (context_step yearly rows acc idx)) as (H1 & H0 & H2 & H3).
  split; [|split; [|split]].
  - now rewrite H1, nrows_step.
  - now rewrite H0, index_step.
  - intros name. now rewrite H2, has_column_step.
  - intros name Hname. now rewrite (H3 name Hname), column_step_other.
Qed.

(** A column through the whole loop, given what a turn writes into it. *)
Lemma steps_column yearly rows name (keeps : DataFrame -> Prop)
    (update : nat -> option pyval) idxs :
  (forall acc idx, keeps acc -> keeps (context_step yearly rows acc idx)) ->
  (forall acc idx vs, keeps acc -> column name acc = Ret vs ->
     column name (context_step yearly rows acc idx)
     = Ret (write_at (index rows) (update idx) idx vs)) ->
  forall acc vs, keeps acc -> column name acc = Ret vs ->
    column name (foldl (context_step yearly rows) acc idxs)
    = Ret (foldl (fun vs idx => write_at (index rows) (update idx) idx vs) vs idxs).
Proof.
  intros Hkeeps Hstep.
  induction idxs as [|idx idxs IH]; intros acc vs Hacc Hvs; [exact Hvs|].
  cbn [foldl]. apply IH; [now apply Hkeeps | now apply Hstep].
Qed.

(** Writing row by row into a column of defaults, when no two of the
    rows carry the same label. *)
Lemma write_fold (labels : nat -> Z) (update : nat -> option pyval) default n idxs :
  (forall p q, (p < n)%nat -> (q < n)%nat -> labels p = labels q -> p = q) ->
  Forall (fun idx => (idx < n)%nat) idxs ->
  let vs := foldl (fun vs idx => write_at labels (update idx) idx vs)
                  (replicate n default) idxs in
  length vs = n /\
  forall i, (i < n)%nat ->
    vs !! i = Some (if bool_decide (i ∈ idxs)
                    then from_option id default (update i) else default).
Proof.
  intros Hunique Hidxs. cbv zeta.
  induction idxs as [|idx idxs IH] using rev_ind.
  - cbn. split; [apply length_replicate|].
    intros i Hi. now apply lookup_replicate_2.
  - apply Forall_app in Hidxs as [Hidxs Hidx].
    apply Forall_cons in Hidx as [Hidx _].
    destruct (IH Hidxs) as [Hlen Hval]. rewrite foldl_app. cbn [foldl].
    set (vs := foldl _ (replicate n default) idxs) in *.
    split.
    + unfold write_at.
      destruct (update idx); [now rewrite length_write_label | exact Hlen].
    + intros i Hi. specialize (Hval i Hi).
      destruct (decide (i = idx)) as [->|Hne].
      * rewrite (bool_decide_eq_true_2 (idx ∈ idxs ++ [idx]))
          by (apply elem_of_app; right; apply list_elem_of_here).
        unfold write_at. destruct (update idx) as [v|] eqn:Hu; cbn.
        -- rewrite lookup_write_label, Hval, Z.eqb_refl. reflexivity.
        -- rewrite Hval. cbn. now destruct (bool_decide _).
      * assert (bool_decide (i ∈ idxs ++ [idx]) = bool_decide (i ∈ idxs)) as ->.
        { apply bool_decide_ext. rewrite elem_of_app, list_elem_of_singleton.
          intuition congruence. }
        unfold write_at. destruct (update idx) as [v|]; [|exact Hval].
        rewrite lookup_write_label, Hval. cbn.
        destruct (Z.eqb_spec (labels i) (labels idx)) as [E|_]; [|reflexivity].
        exfalso. apply Hne. now apply Hunique.
Qed.

End IntegratorLoop.

Section IntegratorTable.
Import Aux Integrate IntegrateMore.
Context `{BI : Builtins}.

(** The table before the loop: the four columns hold their defaults, the
    others are those of the input. *)
Lemma initial_table results_df :
  let table :=
    assign_scalar "adjusted_performance" (VFloat 0)
      (assign_scalar "precip_impact" (VStr EmptyString)
         (assign_scalar "precip_classification" (VStr EmptyString)
            (assign_scalar "precip_anomaly_pct" (VFloat 0) results_df))) in
  nrows table = nrows results_df /\
  (forall name, name ∉ context_columns -> column name table = column name results_df) /\
  has_column "difference_in_differences" table
  = has_column "difference_in_differences" results_df /\
  column "precip_anomaly_pct" table = Ret (replicate (nrows results_df) (VFloat 0)) /\
  column "precip_classification" table
  = Ret (replicate (nrows results_df) (VStr EmptyString)) /\
  column "precip_impact" table = Ret (replicate (nrows results_df) (VStr EmptyString)) /\
  column "adjusted_performance" table = Ret (replicate (nrows results_df) (VFloat 0)).
Proof.
  cbv zeta. split; [reflexivity|]. split; [|split; [|repeat split]].
  - intros name Hname. unfold context_columns in Hname.
    rewrite !column_assign_ne; [reflexivity|..]; intros <-; apply Hname; listed.
  - rewrite !has_column_assign. now rewrite !orb_false_r.
  - rewrite !column_assign_ne by discriminate. now rewrite column_assign_eq.
  - rewrite !column_assign_ne by discriminate. now rewrite column_assign_eq.
  - rewrite !column_assign_ne by discriminate. now rewrite column_assign_eq.
  - now rewrite column_assign_eq.
Qed.

Lemma did_at_other_columns (df df' : DataFrame) idx :
  column "difference_in_differences" df' = column "difference_in_differences" df ->
  did_at df' idx = did_at df idx.
Proof. unfold did_at. now intros ->. Qed.

(** X13: what [add_precipitation_context_to_results] returns, row by
    row, on a table where no two rows carry the same index label.  On
    such a table, well formed, with a year column (and numbers in its
    difference_in_differences column, if it has one), the call returns a
    table with the same rows whose other columns are untouched; a row
    whose year, as text, has a record in the context file gets the
    record's anomaly, class and impact, and its adjusted performance is
    the difference-in-differences value plus 0.05 when the anomaly is
    below -15, minus 0.03 when it is above 15, plus 0.0 otherwise (0.0
    without that column); a row without a record keeps 0.0, '', '' and
    0.0. *)
Theorem add_precipitation_context_rows results_df precipitation_file w yearly years :
  files w !! precipitation_file = Some (PrecipContextFile yearly) ->
  well_formed results_df ->
  unique_index results_df ->
  column "year" results_df = Ret years ->
  (has_column "difference_in_differences" results_df = true ->
   forall idx, (idx < nrows results_df)%nat -> is_Some (did_at results_df idx)) ->
  exists enhanced,
    add_precipitation_context_to_results results_df precipitation_file w = Ret enhanced /\
    nrows enhanced = nrows results_df /\
    (forall name, name ∉ context_columns ->
       column name enhanced = column name results_df) /\
    (forall idx year, years !! idx = Some year ->
       let cells := expected_cells yearly year (did_at results_df idx) in
       cell idx "precip_anomaly_pct" enhanced = Ret (c_anomaly cells) /\
       cell idx "precip_classification" enhanced = Ret (c_class cells) /\
       cell idx "precip_impact" enhanced = Ret (c_impact cells) /\
       cell idx "adjusted_performance" enhanced = Ret (c_adjusted cells)).
Proof.
  intros Hfile Hwf Hunique Hyears Hdid.
  unfold add_precipitation_context_to_results. rewrite Hfile, res_bind_ret.
  cbv zeta.
  pose proof (initial_table results_df) as Hinit. cbv zeta in Hinit.
  set (table := assign_scalar "adjusted_performance" _ _) in *.
  destruct Hinit as (Hn & Hother & Hhas & Ha & Hc & Hi & Hadj).
  assert (index table = index results_df) as Hlabels by reflexivity.
  unfold iterrows. rewrite Hn.
  set (n := nrows results_df) in *.
  assert (length years = n) as Hlen.
  { unfold well_formed in Hwf. unfold column in Hyears.
    destruct (find _ (columns results_df)) as [c|] eqn:Hfind; [|discriminate].
    injection Hyears as <-. apply find_some in Hfind as [Hin _].
    rewrite Forall_forall in Hwf. apply Hwf. now apply list_elem_of_In. }
  assert (column "year" table = Ret years) as Hyt.
  { rewrite Hother; [exact Hyears|]. unfold context_columns. not_listed. }
  assert (forall idx, did_at table idx = did_at results_df idx) as Hdt.
  { intros idx. apply did_at_other_columns, Hother.
    unfold context_columns. not_listed. }
  assert (forall idx year, years !! idx = Some year -> cell idx "year" table = Ret year)
    as Hcell.
  { intros idx year Hy. now apply (cell_of_column _ _ _ years). }
  assert (Forall (fun idx => (idx < n)%nat) (seq 0 n)) as Hseq.
  { apply Forall_forall. intros idx Hin. apply elem_of_seq in Hin. lia. }
  assert (forall p q, (p < n)%nat -> (q < n)%nat ->
            index table p = index table q -> p = q) as Hu
    by (intros p q; rewrite Hlabels; apply Hunique).
  rewrite (add_context_rows_steps yearly table (seq 0 n) table).
  2:{ apply Forall_forall. intros idx Hin. apply elem_of_seq in Hin.
      destruct (lookup_lt_is_Some_2 years idx) as [year Hy]; [lia|]. eauto. }
  2:{ intros H. apply Forall_forall. intros idx Hin. apply elem_of_seq in Hin.
      rewrite Hdt. apply Hdid; [now rewrite <- Hhas | lia]. }
  eexists. split; [reflexivity|].
  destruct (steps_keep yearly table (seq 0 n) table) as (Hk1 & _ & Hk2 & Hk3).
  split; [now rewrite Hk1|]. split.
  { intros name Hname. now rewrite Hk3, Hother. }
  intros idx year Hy. cbv zeta.
  assert (idx < n)%nat as Hidx by (rewrite <- Hlen; now apply lookup_lt_Some in Hy).
  assert (bool_decide (idx ∈ seq 0 n) = true) as Hmem
    by (apply bool_decide_eq_true_2, elem_of_seq; lia).
  assert (record_at yearly table idx = yearly !! py_str year) as Hrec
    by (unfold record_at; now rewrite (Hcell idx year Hy)).
  repeat split.
  - eapply cell_of_column.
    + apply (steps_column yearly table "precip_anomaly_pct"
               (fun acc => index acc = index table)
               (fun idx => (fun yd => of_num (anomaly_percent yd))
                             <$> record_at yearly table idx));
        [intros acc i Hacc; now rewrite index_step
        |intros; now apply column_step_anomaly | reflexivity | exact Ha].
    + rewrite (proj2 (write_fold _ _ (VFloat 0) n (seq 0 n) Hu Hseq) idx Hidx),
        Hmem, Hrec.
      unfold expected_cells. now destruct (yearly !! py_str year).
  - eapply cell_of_column.
    + apply (steps_column yearly table "precip_classification"
               (fun acc => index acc = index table)
               (fun idx => (fun yd => VStr (classification yd))
                             <$> record_at yearly table idx));
        [intros acc i Hacc; now rewrite index_step
        |intros; now apply column_step_class | reflexivity | exact Hc].
    + rewrite (proj2 (write_fold _ _ (VStr EmptyString) n (seq 0 n) Hu Hseq) idx Hidx),
        Hmem, Hrec.
      unfold expected_cells. now destruct (yearly !! py_str year).
  - eapply cell_of_column.
    + apply (steps_column yearly table "precip_impact"
               (fun acc => index acc = index table)
               (fun idx => (fun yd => VStr (vegetation_impact yd))
                             <$> record_at yearly table idx));
        [intros acc i Hacc; now rewrite index_step
        |intros; now apply column_step_impact | reflexivity | exact Hi].
    + rewrite (proj2 (write_fold _ _ (VStr EmptyString) n (seq 0 n) Hu Hseq) idx Hidx),
        Hmem, Hrec.
      unfold expected_cells. now destruct (yearly !! py_str year).
  - eapply cell_of_column.
    + apply (steps_column yearly table "adjusted_performance"
               (fun acc => index acc = index table /\
                           has_column "difference_in_differences" acc
                           = has_column "difference_in_differences" results_df)
               (fun idx =>
                  yd ← record_at yearly table idx;
                  if has_column "difference_in_differences" results_df
                  then (fun x => of_num (py_add x (PyFloat (adjustment_factor yd))))
                         <$> did_at table idx
                  else None)).
      * intros acc i [Hacc1 Hacc2]. now rewrite index_step, has_column_step.
      * intros acc i vs [Hacc1 Hacc2] Hvs. rewrite <- Hacc2.
        now apply column_step_adjusted.
      * split; [reflexivity | exact Hhas].
      * exact Hadj.
    + rewrite (proj2 (write_fold _ _ (VFloat 0) n (seq 0 n) Hu Hseq) idx Hidx),
        Hmem, Hrec, Hdt.
      unfold expected_cells. destruct (yearly !! py_str year) as [yd|]; [|reflexivity].
      cbn [mbind option_bind c_adjusted].
      destruct (has_column "difference_in_differences" results_df) eqn:Hd.
      * now destruct (did_at results_df idx).
      * unfold did_at. now rewrite (column_missing _ _ Hd).
Qed.

(** X14: a table with rows and no year column makes the call raise
    KeyError('year'), after the context file has been read. *)
Theorem add_precipitation_context_needs_year results_df precipitation_file w yearly :
  files w !! precipitation_file = Some (PrecipContextFile yearly) ->
  has_column "year" results_df = false ->
  (0 < nrows results_df)%nat ->
  add_precipitation_context_to_results results_df precipitation_file w
  = Raise (KeyError "year").
Proof.
  intros Hfile Hyear Hrows.
  unfold add_precipitation_context_to_results. rewrite Hfile, res_bind_ret.
  cbv zeta.
  pose proof (initial_table results_df) as Hinit. cbv zeta in Hinit.
  set (table := assign_scalar "adjusted_performance" _ _) in *.
  destruct Hinit as (Hn & Hother & _).
  unfold iterrows. rewrite Hn. destruct (nrows results_df) as [|n]; [lia|].
  cbn [seq]. rewrite fmap_cons. cbn [foldl].
  assert (add_context_row yearly table (Ret table) (index table 0%nat, 0%nat)
          = Raise (KeyError "year")) as ->.
  { unfold add_context_row. rewrite res_bind_ret. unfold cell.
    rewrite (Hother "year") by (unfold context_columns; not_listed).
    now rewrite (column_missing _ _ Hyear). }
  apply add_context_rows_raise.
Qed.

End IntegratorTable.

(** ** Calling the integrator again *)

Section IntegratorAgain.
Import Aux Integrate IntegrateMore.
Context `{PD : Pandas} `{BI : Builtins} `{FM : Formatting}.

Lemma at_set_absent idx name v df :
  has_column name df = false -> at_set idx name v df = df.
Proof.
  destruct df as [n labels cols]. unfold has_column, at_set.
  cbn [columns nrows index]. intros Hhas. f_equal.
  induction cols as [|[m vs] cs IH]; [reflexivity|].
  cbn in *. apply orb_false_iff in Hhas as [-> Hhas]. now rewrite IH.
Qed.

(** Overwriting a column forgets what was written into it. *)
Lemma assign_at_set_same idx name v v' df :
  assign_scalar name v (at_set idx name v' df) = assign_scalar name v df.
Proof.
  destruct (has_column name df) eqn:Hhas; [|now rewrite at_set_absent].
  unfold assign_scalar. rewrite has_column_at_set, Hhas.
  unfold at_set. cbn [columns nrows index]. f_equal.
  rewrite <- list_fmap_compose. apply list_fmap_ext. intros _ [m vs] _. cbn.
  destruct (String.eqb_spec m name) as [->|Hne]; cbn.
  - now rewrite String.eqb_refl.
  - now destruct (String.eqb_spec m name).
Qed.

Lemma assign_at_set_comm idx name name' v v' df :
  name <> name' ->
  assign_scalar name v (at_set idx name' v' df)
  = at_set idx name' v' (assign_scalar name v df).
Proof.
  intros Hne. unfold assign_scalar. rewrite has_column_at_set.
  unfold at_set. cbn [columns nrows index]. f_equal.
  destruct (has_column name df).
  - rewrite <- !list_fmap_compose. apply list_fmap_ext. intros _ [m vs] _. cbn.
    destruct (String.eqb_spec m name') as [->|Hm]; cbn.
    + destruct (String.eqb_spec name' name) as [->|_]; [contradiction|].
      cbn. now rewrite String.eqb_refl.
    + destruct (String.eqb_spec m name) as [->|Hm']; cbn.
      * now destruct (String.eqb_spec name name').
      * now destruct (String.eqb_spec m name').
  - rewrite fmap_app. cbn. now destruct (String.eqb_spec name name').
Qed.

Lemma blank_at_set idx name v df :
  name ∈ context_columns ->
  blank_context (at_set idx name v df) = blank_context df.
Proof.
  unfold context_columns, blank_context. intros Hname.
  repeat (apply elem_of_cons in Hname as [->|Hname]);
    [..|now apply elem_of_nil in Hname];
    repeat (rewrite assign_at_set_same || rewrite assign_at_set_comm by discriminate);
    reflexivity.
Qed.

Lemma blank_row yearly rows acc row out :
  add_context_row yearly rows (Ret acc) row = Ret out ->
  blank_context out = blank_context acc.
Proof.
  destruct row as [idx pos].
  unfold add_context_row. rewrite res_bind_ret. intros H.
  apply bind_ret_inv in H as (year & _ & H).
  destruct (yearly !! py_str year) as [yd|]; [|now injection H as <-].
  cbv zeta in H.
  destruct (has_column "difference_in_differences" _).
  - apply bind_ret_inv in H as (did & _ & H).
    apply bind_ret_inv in H as (x & _ & H). injection H as <-.
    rewrite !blank_at_set; [reflexivity|..]; unfold context_columns;
      listed.
  - injection H as <-.
    rewrite !blank_at_set; [reflexivity|..]; unfold context_columns;
      listed.
Qed.

Lemma blank_rows yearly rows idxs acc out :
  foldl (add_context_row yearly rows) (Ret acc) idxs = Ret out ->
  blank_context out = blank_context acc.
Proof.
  revert acc. induction idxs as [|idx idxs IH]; intros acc H.
  - now injection H as <-.
  - cbn [foldl] in H.
    destruct (add_context_row yearly rows (Ret acc) idx) as [mid|e] eqn:Hrow.
    + rewrite (IH _ H). now apply (blank_row yearly rows acc idx).
    + now rewrite add_context_rows_raise in H.
Qed.

(** A column that exists and holds the default already is left as it
    is. *)
Definition holds (name : string) (vs : list pyval) (df : DataFrame) : Prop :=
  Forall (fun c => fst c = name -> c = (name, vs)) (columns df).

Lemma assign_holds name v df n :
  n = nrows df -> holds name (replicate n v) (assign_scalar name v df).
Proof.
  intros ->. unfold holds, assign_scalar. cbn [columns].
  destruct (has_column name df) eqn:Hhas.
  - apply Forall_fmap, Forall_forall. intros [m vs] _. cbn.
    destruct (String.eqb_spec m name); [reflexivity | contradiction].
  - apply Forall_app. split.
    + apply Forall_forall. intros [m vs] Hin Hm. cbn in Hm. subst m.
      unfold has_column in Hhas. exfalso.
      assert (existsb (fun c => String.eqb (fst c) name) (columns df) = true) as Hex.
      { apply existsb_exists. exists (name, vs). split.
        - now apply list_elem_of_In.
        - cbn. apply String.eqb_refl. }
      congruence.
    + now repeat constructor.
Qed.

Lemma assign_keeps_holds name name' v vs df :
  name <> name' -> holds name' vs df -> holds name' vs (assign_scalar name v df).
Proof.
  intros Hne Hholds. unfold holds, assign_scalar in *. cbn [columns].
  destruct (has_column name df).
  - apply Forall_fmap. eapply Forall_impl; [exact Hholds|].
    intros [m ws] Hc. cbn in *.
    destruct (String.eqb_spec m name) as [->|_]; [|exact Hc].
    cbn. intros ->. contradiction.
  - apply Forall_app. split; [exact Hholds|].
    repeat constructor. cbn. intros ->. contradiction.
Qed.

Lemma assign_fixed name v df :
  has_column name df = true -> holds name (replicate (nrows df) v) df ->
  assign_scalar name v df = df.
Proof.
  destruct df as [n labels cols]. unfold holds, assign_scalar.
  cbn [columns nrows index]. intros -> Hholds. f_equal.
  induction Hholds as [|[m vs] cs Hc _ IH]; [reflexivity|].
  cbn in *. rewrite IH. destruct (String.eqb_spec m name) as [->|_]; [|reflexivity].
  now rewrite Hc.
Qed.

Lemma blank_blank df : blank_context (blank_context df) = blank_context df.
Proof.
  set (t := blank_context df).
  assert (has_column "precip_anomaly_pct" t = true /\
          has_column "precip_classification" t = true /\
          has_column "precip_impact" t = true /\
          has_column "adjusted_performance" t = true) as (H1 & H2 & H3 & H4).
  { unfold t, blank_context. rewrite !has_column_assign. cbn.
    rewrite !orb_true_r. now rewrite ?orb_true_l. }
  assert (holds "precip_anomaly_pct" (replicate (nrows df) (VFloat 0)) t /\
          holds "precip_classification" (replicate (nrows df) (VStr EmptyString)) t /\
          holds "precip_impact" (replicate (nrows df) (VStr EmptyString)) t /\
          holds "adjusted_performance" (replicate (nrows df) (VFloat 0)) t)
    as (K1 & K2 & K3 & K4).
  { unfold t, blank_context. repeat split.
    - do 3 (apply assign_keeps_holds; [discriminate|]). now apply assign_holds.
    - do 2 (apply assign_keeps_holds; [discriminate|]). now apply assign_holds.
    - apply assign_keeps_holds; [discriminate|]. now apply assign_holds.
    - now apply assign_holds. }
  unfold blank_context at 1.
  rewrite (assign_fixed "precip_anomaly_pct" _ t H1 K1).
  rewrite (assign_fixed "precip_classification" _ t H2 K2).
  rewrite (assign_fixed "precip_impact" _ t H3 K3).
  exact (assign_fixed "adjusted_performance" _ t H4 K4).
Qed.

Lemma add_precipitation_context_eq results_df precipitation_file w :
  add_precipitation_context_to_results results_df precipitation_file w
  = match files w !! precipitation_file with
    | Some (PrecipContextFile yearly) =>
        foldl (add_context_row yearly (blank_context results_df))
          (Ret (blank_context results_df)) (iterrows results_df)
    | Some _ => Raise ValueError
    | None => Raise (FileNotFoundError precipitation_file)
    end.
Proof.
  unfold add_precipitation_context_to_results.
  now destruct (files w !! precipitation_file) as [[yearly| | |]|].
Qed.

(** What the call returns blanks to the same table as its input. *)
Lemma enhanced_blank results_df precipitation_file w enhanced :
  add_precipitation_context_to_results results_df precipitation_file w = Ret enhanced ->
  blank_context enhanced = blank_context results_df /\
  iterrows enhanced = iterrows results_df.
Proof.
  rewrite add_precipitation_context_eq.
  destruct (files w !! precipitation_file) as [[yearly| | |]|]; try discriminate.
  intros H. apply blank_rows in H. rewrite blank_blank in H.
  split; [exact H|].
  change (iterrows (blank_context enhanced) = iterrows (blank_context results_df)).
  now rewrite H.
Qed.

(** X15: calling [add_precipitation_context_to_results] on the table it
    returned returns that table again: the four columns are reset where
    they stand and filled from the same rows. *)
Theorem add_precipitation_context_again results_df precipitation_file w enhanced :
  add_precipitation_context_to_results results_df precipitation_file w = Ret enhanced ->
  add_precipitation_context_to_results enhanced precipitation_file w = Ret enhanced.
Proof.
  intros H. destruct (enhanced_blank _ _ _ _ H) as [Hblank Hrows].
  rewrite add_precipitation_context_eq in *.
  now rewrite Hblank, Hrows.
Qed.

(** The returned table has the columns of the input and the four added
    ones. *)
Lemma enhanced_columns results_df precipitation_file w enhanced name :
  add_precipitation_context_to_results results_df precipitation_file w = Ret enhanced ->
  name ∉ context_columns ->
  has_column name enhanced = has_column name results_df.
Proof.
  intros H Hname. apply enhanced_blank in H as [H _].
  assert (forall df, has_column name (blank_context df) = has_column name df) as Hb.
  { intros df. unfold blank_context. rewrite !has_column_assign.
    unfold context_columns in Hname.
    destruct (String.eqb_spec "precip_anomaly_pct" name) as [<-|_];
      [exfalso; apply Hname; listed|].
    destruct (String.eqb_spec "precip_classification" name) as [<-|_];
      [exfalso; apply Hname; listed|].
    destruct (String.eqb_spec "precip_impact" name) as [<-|_];
      [exfalso; apply Hname; listed|].
    destruct (String.eqb_spec "adjusted_performance" name) as [<-|_];
      [exfalso; apply Hname; listed|].
    now rewrite !orb_false_r. }
  now rewrite <- (Hb enhanced), H, Hb.
Qed.

End IntegratorAgain.

(** ** The report and the files of the integrator *)

Section IntegratorReport.
Import Aux Integrate IntegrateMore.
Context `{PD : Pandas} `{BI : Builtins} `{FM : Formatting} `{OS : OperatingSystem}.

Lemma append_cancel (p a b : string) : p +:+ a = p +:+ b -> a = b.
Proof. induction p as [|c p IH]; cbn; [auto|]. intros [= H]. auto. Qed.

(** The three tests on one number: a number that is not a NaN passes
    exactly one of them, a NaN none. *)
Lemma one_bucket (a : pynum) :
  (Nat.b2n (is_dry a) + Nat.b2n (is_normal a) + Nat.b2n (is_wet a)
   = Nat.b2n (negb (is_nan_num a)))%nat.
Proof.
  unfold is_dry, is_normal, is_wet, is_nan_num, py_gt, py_ge, py_le, py_lt.
  destruct a as [z|f]; cbn [py_compare option_map].
  - destruct (Z.compare_spec z (-15)), (Z.compare_spec (-15) z),
      (Z.compare_spec z 15), (Z.compare_spec 15 z); cbn; try reflexivity; lia.
  - unfold float_compare_Z.
    destruct (Prim2SF f) as [s|s| |s m e]; [reflexivity | now destruct s | reflexivity |].
    cbv zeta. cbn [option_map].
    destruct (0 <=? e).
    + set (v := (if s then Z.neg m else Z.pos m) * 2 ^ e).
      destruct (Z.compare_spec v (-15)), (Z.compare_spec v 15);
        cbn; try reflexivity; lia.
    + set (v := if s then Z.neg m else Z.pos m).
      set (p := 2 ^ (- e)).
      destruct (Z.compare_spec v (-15 * p)), (Z.compare_spec v (15 * p));
        cbn; try reflexivity; destruct s; subst v; lia.
Qed.

Lemma filter_mask_cons (b : bool) (mask : list bool) :
  length (filter (fun b => b = true) (b :: mask))
  = (Nat.b2n b + length (filter (fun b => b = true) mask))%nat.
Proof. now destruct b. Qed.

(** X16: the three groups of years of the report.  When the three
    masks over the anomaly column can be computed, the rows kept as dry,
    normal and wet years, together with the rows whose anomaly is a NaN,
    are as many as the column has cells: a year with a number for its
    anomaly is in exactly one group, a year with a NaN in none. *)
Theorem summary_year_groups results_df anomaly dry_mask normal_mask wet_mask :
  series_test (fun a => py_lt a (PyInt (-15))) anomaly = Ret dry_mask ->
  series_test (fun a => py_ge a (PyInt (-15)) && py_le a (PyInt 15)) anomaly
  = Ret normal_mask ->
  series_test (fun a => py_gt a (PyInt 15)) anomaly = Ret wet_mask ->
  (nrows (select_rows dry_mask results_df)
   + nrows (select_rows normal_mask results_df)
   + nrows (select_rows wet_mask results_df)
   + nan_cells anomaly = length anomaly)%nat.
Proof.
  unfold select_rows, nan_cells. cbn [nrows].
  revert dry_mask normal_mask wet_mask.
  induction anomaly as [|v rest IH]; intros dry_mask normal_mask wet_mask Hd Hn Hw.
  - cbn in *. now injection Hd as <-; injection Hn as <-; injection Hw as <-.
  - cbn [series_test] in *.
    apply bind_ret_inv in Hd as (a & Ha & Hd).
    apply bind_ret_inv in Hd as (dry & Hdry & Hd). injection Hd as <-.
    apply bind_ret_inv in Hn as (a' & Ha' & Hn).
    apply bind_ret_inv in Hn as (normal & Hnormal & Hn). injection Hn as <-.
    apply bind_ret_inv in Hw as (a'' & Ha'' & Hw).
    apply bind_ret_inv in Hw as (wet & Hwet & Hw). injection Hw as <-.
    rewrite Ha in Ha', Ha''. injection Ha' as <-. injection Ha'' as <-.
    specialize (IH dry normal wet Hdry Hnormal Hwet).
    rewrite !filter_mask_cons.
    pose proof (one_bucket a) as Hone. unfold is_dry, is_normal, is_wet in Hone.
    assert (numeric v = Some a) as Hnum by (unfold numeric; now rewrite Ha).
    rewrite filter_cons, Hnum.
    destruct (is_nan_num a); cbn [negb Nat.b2n] in Hone.
    + rewrite decide_True by reflexivity. cbn [length]. lia.
    + rewrite decide_False by discriminate. cbn [length]. lia.
Qed.

(** X17: with a difference-in-differences column in the table, and a
    context file (or anything else) at the path tested once the output
    directory is made, [integrate_precipitation_with_notebook] never
    returns a table: it raises, and what the two result paths held before
    the call is what they hold after it - neither the CSV nor the text
    report is written.  (When [os.makedirs] raises, that is the exception
    raised.) *)
Theorem integrate_with_did_column results_df output_dir w :
  has_column "difference_in_differences" results_df = true ->
  (forall made, os_makedirs output_dir w = Ret made ->
     path_exists (output_dir +:+ "/precipitation_context.json")
       {| files := files w; dirs := made; stdout := stdout w |} = true) ->
  (exists e, fst (integrate_precipitation_with_notebook results_df output_dir w)
             = Raise e) /\
  files (snd (integrate_precipitation_with_notebook results_df output_dir w))
    !! (output_dir +:+ "/enhanced_reclamation_results.csv")
  = files w !! (output_dir +:+ "/enhanced_reclamation_results.csv") /\
  files (snd (integrate_precipitation_with_notebook results_df output_dir w))
    !! (output_dir +:+ "/enhanced_summary.txt")
  = files w !! (output_dir +:+ "/enhanced_summary.txt").
Proof.
  intros Hdid Hpath. unfold integrate_precipitation_with_notebook, makedirs.
  destruct (os_makedirs output_dir w) as [made|e] eqn:Hmade;
    [|cbn; split; [eauto | split; reflexivity]].
  rewrite res_bind_ret. cbv zeta. rewrite (Hpath made eq_refl). cbn [negb].
  destruct (add_precipitation_context_to_results _ _ _) as [enhanced|e] eqn:Hadd.
  - destruct (generate_enhanced_summary enhanced) as [summary|e] eqn:Hsum.
    + exfalso. apply (generate_enhanced_summary_never_returns enhanced summary);
        [|exact Hsum].
      rewrite (enhanced_columns _ _ _ _ _ Hadd); [exact Hdid|].
      unfold context_columns. not_listed.
    + cbn. split; [eauto|].
      split; apply lookup_insert_ne; intros Heq;
        apply append_cancel in Heq; discriminate.
  - cbn. split; [eauto|]. split; reflexivity.
Qed.

End IntegratorReport.

(** ** The summary table of the figure *)

Section SummaryTable.
Import Precip IntegrateMore.

(** X18: the 'Precip' cell of the summary table for a class given by
    [_classify_seasonal_anomaly].  The cell shows the first word of the
    class and is shaded by that word: pink for 'Dry Season', blue for
    'Wet Season', and green for 'Normal Season' and for both extremes,
    whose first word is 'Extremely'. *)
Theorem summary_table_shading (anomaly_percent : pynum) :
  exists precip_class,
    table_class (_classify_seasonal_anomaly anomaly_percent) = Some precip_class /\
    precip_class
    = (if py_le anomaly_percent (PyInt (-30)) then "Extremely"
       else if py_le anomaly_percent (PyInt (-15)) then "Dry"
       else if py_le anomaly_percent (PyInt 15) then "Normal"
       else if py_le anomaly_percent (PyInt 30) then "Wet"
       else "Extremely") /\
    facecolor precip_class
    = (if py_le anomaly_percent (PyInt (-30)) then "#ccffcc"
       else if py_le anomaly_percent (PyInt (-15)) then "#ffcccc"
       else if py_le anomaly_percent (PyInt 15) then "#ccffcc"
       else if py_le anomaly_percent (PyInt 30) then "#ccccff"
       else "#ccffcc").
Proof.
  unfold _classify_seasonal_anomaly.
  destruct (py_le anomaly_percent (PyInt (-30)));
    [|destruct (py_le anomaly_percent (PyInt (-15)));
      [|destruct (py_le anomaly_percent (PyInt 15));
        [|destruct (py_le anomaly_percent (PyInt 30))]]];
    eexists; (split; [vm_compute; reflexivity|]); split; reflexivity.
Qed.

End SummaryTable.

(** ** The months of one year *)

Section MonthlyEntries.
Import Aux Precip.
Context `{EE : EarthEngine}.

(** X19: [extract_monthly_precipitation] on a list of calendar months.
    The dictionary returned has an entry for each month of the list and
    for no other; the entry holds the month's name and the year, and the
    region mean of the month, or None where the collection has no image
    for it or the mean is null.  A month listed twice has one entry. *)
Theorem extract_monthly_precipitation_entries self year months month :
  Forall (fun m => 1 <= m <= 12) months ->
  extract_monthly_precipitation self year (Some months) !! month
  = (if decide (month ∈ months) then Some (month_entry self year month) else None) /\
  (month ∈ months ->
   exists r, extract_monthly_precipitation self year (Some months) !! month = Some r /\
     rec_year r = year /\
     rec_month_name r <> EmptyString /\
     (era5_collection_size year month <= 0 -> precipitation_mm r = None)).
Proof.
  intros Hmonths.
  assert (extract_monthly_precipitation self year (Some months) !! month
          = if decide (month ∈ months) then Some (month_entry self year month) else None)
    as Hlookup.
  { unfold extract_monthly_precipitation.
    change (default (py_range 4 11) (Some months)) with months. rewrite extract_fold.
    destruct (decide (month ∈ months)); [reflexivity | apply lookup_empty]. }
  split; [exact Hlookup|].
  intros Hin. rewrite Hlookup, decide_True by exact Hin.
  eexists. split; [reflexivity|]. split; [reflexivity|]. split.
  - rewrite Forall_forall in Hmonths. specialize (Hmonths month Hin).
    cbn. unfold calendar_month_name.
    assert (month = 1 \/ month = 2 \/ month = 3 \/ month = 4 \/ month = 5 \/ month = 6 \/
            month = 7 \/ month = 8 \/ month = 9 \/ month = 10 \/ month = 11 \/ month = 12)
      as Hcases by lia.
    repeat (destruct Hcases as [->|Hcases]; [discriminate|]). now subst.
  - intros Hsize. cbn. destruct (Z.gtb_spec (era5_collection_size year month) 0);
      [lia | reflexivity].
Qed.

End MonthlyEntries.

Section IntegratorMoreExamples.
Import Aux Precip Integrate IntegrateMore Examples MoreExamples.

Lemma add_precipitation_context_rows_witness :
  (files world_with_context !! "output_data/precipitation_context.json"
   = Some (PrecipContextFile context_2021) /\
   well_formed two_years /\
   unique_index two_years /\
   column "year" two_years = Ret [VInt 2021; VInt 2022] /\
   (has_column "difference_in_differences" two_years = true ->
    forall idx, (idx < nrows two_years)%nat -> is_Some (did_at two_years idx))) /\
  exists enhanced,
    @add_precipitation_context_to_results no_parsing two_years
      "output_data/precipitation_context.json" world_with_context = Ret enhanced /\
    nrows enhanced = nrows two_years /\
    (forall name, name ∉ context_columns ->
       column name enhanced = column name two_years) /\
    (forall idx year, [VInt 2021; VInt 2022] !! idx = Some year ->
       let cells :=
         @expected_cells no_parsing context_2021 year (did_at two_years idx) in
       cell idx "precip_anomaly_pct" enhanced = Ret (c_anomaly cells) /\
       cell idx "precip_classification" enhanced = Ret (c_class cells) /\
       cell idx "precip_impact" enhanced = Ret (c_impact cells) /\
       cell idx "adjusted_performance" enhanced = Ret (c_adjusted cells)).
Proof.
  assert (files world_with_context !! "output_data/precipitation_context.json"
          = Some (PrecipContextFile context_2021)) as H1
    by (vm_compute; reflexivity).
  assert (well_formed two_years) as H2 by (repeat constructor).
  assert (unique_index two_years) as Hu.
  { intros p q Hp Hq. unfold two_years, range_index. cbn in *. lia. }
  assert (column "year" two_years = Ret [VInt 2021; VInt 2022]) as H3 by reflexivity.
  assert (has_column "difference_in_differences" two_years = true ->
          forall idx, (idx < nrows two_years)%nat -> is_Some (did_at two_years idx))
    as H4.
  { intros _ [|[|idx]] Hidx; [eexists; reflexivity | eexists; reflexivity |].
    cbn in Hidx. lia. }
  split; [repeat split; assumption|].
  exact (@add_precipitation_context_rows no_parsing two_years
           "output_data/precipitation_context.json" world_with_context
           context_2021 [VInt 2021; VInt 2022] H1 H2 Hu H3 H4).
Defined.

(** Where two rows carry the same label, what is written for one of them
    is written into both: the row of 2022, which has no record, ends up
    with the record of 2021. *)
Lemma stacked_years_enhanced :
  @add_precipitation_context_to_results no_parsing stacked_years
    "output_data/precipitation_context.json" world_with_context
  = Ret {| nrows := 2;
           index := fun _ => 0;
           columns :=
             [("year", [VInt 2021; VInt 2022]);
              ("crop", [VStr "Canola"; VStr "Wheat"]);
              ("precip_anomaly_pct", [VFloat (-20); VFloat (-20)]);
              ("precip_classification", [VStr "Dry Season"; VStr "Dry Season"]);
              ("precip_impact",
               [VStr "Drought stress likely"; VStr "Drought stress likely"]);
              ("adjusted_performance", [VFloat 0; VFloat 0])] |}.
Proof. vm_compute. reflexivity. Qed.

Lemma add_precipitation_context_needs_year_witness :
  (files world_with_context !! "output_data/precipitation_context.json"
   = Some (PrecipContextFile context_2021) /\
   has_column "year" crops_only = false /\
   (0 < nrows crops_only)%nat) /\
  @add_precipitation_context_to_results no_parsing crops_only
    "output_data/precipitation_context.json" world_with_context
  = Raise (KeyError "year").
Proof.
  assert (files world_with_context !! "output_data/precipitation_context.json"
          = Some (PrecipContextFile context_2021)) as H1
    by (vm_compute; reflexivity).
  assert (has_column "year" crops_only = false) as H2 by reflexivity.
  assert (0 < nrows crops_only)%nat as H3 by (cbn; lia).
  split; [repeat split; assumption|].
  exact (@add_precipitation_context_needs_year no_parsing crops_only
           "output_data/precipitation_context.json" world_with_context
           context_2021 H1 H2 H3).
Defined.

Lemma add_precipitation_context_again_witness :
  @add_precipitation_context_to_results no_parsing similarity_only
    "output_data/precipitation_context.json" world_with_context
  = Ret similarity_in_context /\
  @add_precipitation_context_to_results no_parsing similarity_in_context
    "output_data/precipitation_context.json" world_with_context
  = Ret similarity_in_context.
Proof.
  assert (@add_precipitation_context_to_results no_parsing similarity_only
            "output_data/precipitation_context.json" world_with_context
          = Ret similarity_in_context) as H by (vm_compute; reflexivity).
  split; [exact H|].
  exact (@add_precipitation_context_again no_parsing similarity_only
           "output_data/precipitation_context.json" world_with_context
           similarity_in_context H).
Defined.

Lemma summary_year_groups_witness :
  (series_test (fun a => py_lt a (PyInt (-15)))
     [VFloat (-20); VInt 0; VFloat nan; VFloat 20]
   = Ret [true; false; false; false] /\
   series_test (fun a => py_ge a (PyInt (-15)) && py_le a (PyInt 15))
     [VFloat (-20); VInt 0; VFloat nan; VFloat 20]
   = Ret [false; true; false; false] /\
   series_test (fun a => py_gt a (PyInt 15))
     [VFloat (-20); VInt 0; VFloat nan; VFloat 20]
   = Ret [false; false; false; true]) /\
  (nrows (select_rows [true; false; false; false] one_dry_year)
   + nrows (select_rows [false; true; false; false] one_dry_year)
   + nrows (select_rows [false; false; false; true] one_dry_year)
   + nan_cells [VFloat (-20); VInt 0; VFloat nan; VFloat 20]
   = length [VFloat (-20); VInt 0; VFloat nan; VFloat 20])%nat.
Proof.
  assert (series_test (fun a => py_lt a (PyInt (-15)))
            [VFloat (-20); VInt 0; VFloat nan; VFloat 20]
          = Ret [true; false; false; false]) as H1 by (vm_compute; reflexivity).
  assert (series_test (fun a => py_ge a (PyInt (-15)) && py_le a (PyInt 15))
            [VFloat (-20); VInt 0; VFloat nan; VFloat 20]
          = Ret [false; true; false; false]) as H2 by (vm_compute; reflexivity).
  assert (series_test (fun a => py_gt a (PyInt 15))
            [VFloat (-20); VInt 0; VFloat nan; VFloat 20]
          = Ret [false; false; false; true]) as H3 by (vm_compute; reflexivity).
  split; [repeat split; assumption|].
  exact (summary_year_groups one_dry_year
           [VFloat (-20); VInt 0; VFloat nan; VFloat 20] _ _ _ H1 H2 H3).
Defined.

Lemma integrate_with_did_column_witness :
  (has_column "difference_in_differences" two_years = true /\
   (forall made,
      @os_makedirs flat_directories "output_data" world_with_context = Ret made ->
      path_exists ("output_data" +:+ "/precipitation_context.json")
        {| files := files world_with_context; dirs := made;
           stdout := stdout world_with_context |} = true)) /\
  (exists e,
     fst (@integrate_precipitation_with_notebook first_value no_parsing no_digits
            flat_directories two_years "output_data" world_with_context) = Raise e) /\
  files (snd (@integrate_precipitation_with_notebook first_value no_parsing no_digits
                flat_directories two_years "output_data" world_with_context))
    !! ("output_data" +:+ "/enhanced_reclamation_results.csv")
  = files world_with_context !! ("output_data" +:+ "/enhanced_reclamation_results.csv") /\
  files (snd (@integrate_precipitation_with_notebook first_value no_parsing no_digits
                flat_directories two_years "output_data" world_with_context))
    !! ("output_data" +:+ "/enhanced_summary.txt")
  = files world_with_context !! ("output_data" +:+ "/enhanced_summary.txt").
Proof.
  assert (has_column "difference_in_differences" two_years = true) as H1
    by reflexivity.
  assert (forall made,
            @os_makedirs flat_directories "output_data" world_with_context = Ret made ->
            path_exists ("output_data" +:+ "/precipitation_context.json")
              {| files := files world_with_context; dirs := made;
                 stdout := stdout world_with_context |} = true) as H2.
  { intros made _. unfold path_exists. apply orb_true_iff. left.
    vm_compute. reflexivity. }
  split; [split; assumption|].
  exact (@integrate_with_did_column first_value no_parsing no_digits flat_directories
           two_years "output_data" world_with_context H1 H2).
Defined.

Lemma extract_monthly_precipitation_entries_witness :
  Forall (fun m => 1 <= m <= 12) [4; 5; 4] /\
  @extract_monthly_precipitation archive_until_2019 default_analyzer 2021
    (Some [4; 5; 4]) !! 4
  = (if decide (4 ∈ [4; 5; 4])
     then Some (@month_entry archive_until_2019 default_analyzer 2021 4) else None) /\
  (4 ∈ [4; 5; 4] ->
   exists r,
     @extract_monthly_precipitation archive_until_2019 default_analyzer 2021
       (Some [4; 5; 4]) !! 4 = Some r /\
     rec_year r = 2021 /\
     rec_month_name r <> EmptyString /\
     (@era5_collection_size archive_until_2019 2021 4 <= 0 ->
      precipitation_mm r = None)).
Proof.
  assert (Forall (fun m => 1 <= m <= 12) [4; 5; 4]) as H
    by (repeat constructor; lia).
  split; [exact H|].
  exact (@extract_monthly_precipitation_entries archive_until_2019 default_analyzer
           2021 [4; 5; 4] 4 H).
Defined.

End IntegratorMoreExamples.

(** ** Seasonal classes and the tolerance of the integrator *)

Section ClassAndTolerance.
Import Precip Integrate IntegrateMore.

(** X20: the tolerance [add_precipitation_context_to_results] adds, for
    each class [_classify_seasonal_anomaly] gives the same anomaly.  An
    extremely dry season gets 0.05 and a wet or extremely wet one -0.03
    (unless the anomaly is a NaN, which is classed extremely wet and gets
    0.0); a normal season gets 0.0; a dry season gets 0.05 except at an
    anomaly of exactly -15, which is classed 'Dry Season' and gets 0.0. *)
Theorem tolerance_by_seasonal_class (year_data : year_record) :
  let a := anomaly_percent year_data in
  (_classify_seasonal_anomaly a = "Extremely Dry Season" ->
   adjustment_factor year_data = 0.05%float) /\
  (_classify_seasonal_anomaly a = "Dry Season" ->
   adjustment_factor year_data
   = if decide (py_compare a (PyInt (-15)) = Some Eq) then 0%float else 0.05%float) /\
  (_classify_seasonal_anomaly a = "Normal Season" ->
   adjustment_factor year_data = 0%float) /\
  (_classify_seasonal_anomaly a = "Wet Season" ->
   adjustment_factor year_data = (-0.03)%float) /\
  (_classify_seasonal_anomaly a = "Extremely Wet Season" ->
   adjustment_factor year_data = if is_nan_num a then 0%float else (-0.03)%float).
Proof.
  cbv zeta. unfold adjustment_factor, _classify_seasonal_anomaly, is_nan_num,
    py_gt, py_le, py_lt.
  destruct (anomaly_percent year_data) as [z|f]; cbn [py_compare option_map].
  - destruct (Z.compare_spec z (-30)), (Z.compare_spec z (-15)),
      (Z.compare_spec z 15), (Z.compare_spec z 30), (Z.compare_spec 15 z);
      try lia; cbn; repeat split; try discriminate; intros _;
      try reflexivity;
      (destruct (decide _) as [e|n]; [try discriminate e; reflexivity
                                     | try reflexivity; now contradiction n]).
  - unfold float_compare_Z.
    destruct (Prim2SF f) as [s|s| |s m e].
    + cbn. repeat split; try discriminate; intros _; reflexivity.
    + destruct s; cbn; repeat split; try discriminate; intros _; try reflexivity;
        (destruct (decide _) as [e|n]; [discriminate e | reflexivity]).
    + cbn. repeat split; try discriminate; intros _; reflexivity.
    + cbv zeta. cbn [option_map]. destruct (Z.leb_spec 0 e) as [He|He].
      * set (v := (if s then Z.neg m else Z.pos m) * 2 ^ e).
        destruct (Z.compare_spec v (-30)), (Z.compare_spec v (-15)),
          (Z.compare_spec v 15), (Z.compare_spec v 30);
          try lia; cbn; repeat split; try discriminate; intros _;
          try reflexivity;
          (destruct (decide _) as [e'|n]; [try discriminate e'; reflexivity
                                          | try reflexivity; now contradiction n]).
      * set (v := if s then Z.neg m else Z.pos m).
        assert (0 < 2 ^ (- e)) as Hp by (apply Z.pow_pos_nonneg; lia).
        set (p := 2 ^ (- e)) in *.
        destruct (Z.compare_spec v (-30 * p)), (Z.compare_spec v (-15 * p)),
          (Z.compare_spec v (15 * p)), (Z.compare_spec v (30 * p));
          try lia; cbn; repeat split; try discriminate; intros _;
          try reflexivity;
          (destruct (decide _) as [e'|n]; [try discriminate e'; reflexivity
                                          | try reflexivity; now contradiction n]).
Qed.

End ClassAndTolerance.
